(** * gPROMS_helper: variable-record parser and comparator

    A shallow embedding of the record parsers, the comparators and the
    reconstruction writer of the gPROMS helper scripts, with the
    properties their specification states about them.

    Conventions of the embedding:
    - a Python [str] is a [string] of ASCII characters (the run files and
      CSV files are ASCII dumps);
    - a Python [float] is an IEEE-754 binary64 number, [spec_float] with
      [prec = 53] and [emax = 1024], and the arithmetic is that of
      [SpecFloat] (round to nearest, ties to even);
    - a file is the list of its lines; [print] appends to a log;
    - a raised exception is [None]. *)

From Stdlib Require Import ZArith QArith Qabs Qpower Qfield Lqa String Ascii List Lia.
From Stdlib Require Import SpecFloat.
From Stdlib Require Import Sorting.Sorted Sorting.Permutation.
From stdpp Require Import gmap strings list sorting.

Local Open Scope string_scope.
Local Open Scope Z_scope.

(** ** Python [str] methods *)

Module PyStr.

(** [c.isspace()] for an ASCII character: TAB, LF, VT, FF, CR, the four
    separators FS, GS, RS, US and the space. *)
Definition isspace (c : ascii) : bool :=
  let n := nat_of_ascii c in
  ((9 <=? n) && (n <=? 13) || (28 <=? n) && (n <=? 32))%nat.

Definition isdigit (c : ascii) : bool :=
  let n := nat_of_ascii c in ((48 <=? n) && (n <=? 57))%nat.

Fixpoint lstrip_by (p : ascii -> bool) (s : string) : string :=
  match s with
  | String c s' => if p c then lstrip_by p s' else s
  | EmptyString => EmptyString
  end.

Fixpoint rstrip_by (p : ascii -> bool) (s : string) : string :=
  match s with
  | String c s' =>
      match rstrip_by p s' with
      | EmptyString => if p c then EmptyString else String c EmptyString
      | r => String c r
      end
  | EmptyString => EmptyString
  end.

Definition strip_by (p : ascii -> bool) (s : string) : string :=
  rstrip_by p (lstrip_by p s).

(** [s.strip()] *)
Definition strip (s : string) : string := strip_by isspace s.

(** [s.startswith(p)] *)
Fixpoint startswith (p s : string) : bool :=
  match p, s with
  | EmptyString, _ => true
  | String a p', String b s' => if Ascii.eqb a b then startswith p' s' else false
  | String _ _, EmptyString => false
  end.

(** [s[n:]] *)
Fixpoint drop (n : nat) (s : string) : string :=
  match n, s with
  | O, _ => s
  | S n', String _ s' => drop n' s'
  | S _, EmptyString => EmptyString
  end.

(** [s[:n]] *)
Fixpoint take (n : nat) (s : string) : string :=
  match n, s with
  | O, _ => EmptyString
  | S n', String c s' => String c (take n' s')
  | S _, EmptyString => EmptyString
  end.

(** [sub in s] *)
Fixpoint contains (sub s : string) : bool :=
  startswith sub s ||
  match s with
  | String _ s' => contains sub s'
  | EmptyString => false
  end.

(** [s.find(c)] for a one-character [c]: [None] stands for [-1]. *)
Fixpoint find_char (c : ascii) (s : string) : option nat :=
  match s with
  | EmptyString => None
  | String a s' =>
      if Ascii.eqb a c then Some O
      else match find_char c s' with Some i => Some (S i) | None => None end
  end.

(** [s.split(c)] for a one-character separator. *)
Fixpoint split_char (c : ascii) (s : string) : list string :=
  match s with
  | EmptyString => [EmptyString]
  | String a s' =>
      if Ascii.eqb a c then EmptyString :: split_char c s'
      else match split_char c s' with
           | w :: ws => String a w :: ws
           | [] => [String a EmptyString]
           end
  end.

(** [s.split(sep)] for a separator of any positive length: the
    occurrences are taken from the left and do not overlap. *)
Fixpoint split_fuel (fuel : nat) (sep s : string) : list string :=
  match fuel with
  | O => [s]
  | S fuel' =>
      match s with
      | EmptyString => [EmptyString]
      | String a s' =>
          if startswith sep s then
            EmptyString :: split_fuel fuel' sep (drop (String.length sep) s)
          else match split_fuel fuel' sep s' with
               | w :: ws => String a w :: ws
               | [] => [String a EmptyString]
               end
      end
  end.

Definition split (sep s : string) : list string :=
  split_fuel (S (String.length s)) sep s.

(** [s.replace(c, "")] for a one-character [c]. *)
Fixpoint remove_char (c : ascii) (s : string) : string :=
  match s with
  | EmptyString => EmptyString
  | String a s' =>
      if Ascii.eqb a c then remove_char c s' else String a (remove_char c s')
  end.

(** [s.lower()] on ASCII letters. *)
Definition lower_char (c : ascii) : ascii :=
  let n := nat_of_ascii c in
  if ((65 <=? n) && (n <=? 90))%nat then ascii_of_nat (n + 32) else c.

Fixpoint lower (s : string) : string :=
  match s with
  | EmptyString => EmptyString
  | String a s' => String (lower_char a) (lower s')
  end.

(** [s == t] *)
Definition eqb (s t : string) : bool := String.eqb s t.

(** [s < t]: lexicographic on code points. *)
Definition ltb (s t : string) : bool :=
  match String.compare s t with Lt => true | _ => false end.

(** [s.replace(c, d)] for one-character [c] and [d]. *)
Fixpoint replace_char (c d : ascii) (s : string) : string :=
  match s with
  | EmptyString => EmptyString
  | String a s' => String (if Ascii.eqb a c then d else a) (replace_char c d s')
  end.

End PyStr.

(** ** Exact arithmetic on positive fractions

    The decimal/binary conversions of [float(s)] and of the [e] format
    are correctly rounded; they are computed here on exact fractions
    [n / d] of integers. *)

Module Ratio.

(** [n / d] rounded to the nearest integer, ties to even
    ([0 <= n], [0 < d]). *)
Definition round_half_even (n d : Z) : Z :=
  let q := n / d in
  match 2 * (n mod d) ?= d with
  | Lt => q
  | Gt => q + 1
  | Eq => if Z.even q then q else q + 1
  end.

(** The fraction [(n / d) / b ^ e]. *)
Definition scale (b n d e : Z) : Z * Z :=
  if 0 <=? e then (n, d * b ^ e) else (n * b ^ (- e), d).

(** Largest [k' >= k] with [d * b ^ k' <= n], given [dk = d * b ^ k <= n]. *)
Fixpoint ilog_up (fuel : nat) (b n dk k : Z) : Z :=
  match fuel with
  | O => k
  | S fuel' =>
      if dk * b <=? n then ilog_up fuel' b n (dk * b) (k + 1) else k
  end.

(** [- j'] for the smallest [j' > j] with [d <= n * b ^ j'], given
    [nj = n * b ^ j < d]. *)
Fixpoint ilog_down (fuel : nat) (b nj d j : Z) : Z :=
  match fuel with
  | O => - (j + 1)
  | S fuel' =>
      if d <=? nj * b then - (j + 1) else ilog_down fuel' b (nj * b) d (j + 1)
  end.

(** [floor (log_b (n / d))] for [0 < n], [0 < d], [2 <= b]. *)
Definition ilog (b n d : Z) : Z :=
  if d <=? n then ilog_up (S (Z.to_nat (Z.log2 n))) b n d 0
  else ilog_down (S (Z.to_nat (Z.log2 d))) b n d 0.

End Ratio.

(** ** Python [float]: IEEE-754 binary64 *)

Module Float.

Definition prec : Z := 53.
Definition emax : Z := 1024.
Definition emin : Z := Eval cbv in SpecFloat.emin prec emax.   (* -1074 *)

Abbreviation float := spec_float.

Definition zero : float := S754_zero false.
Definition inf : float := S754_infinity false.
Definition nan : float := S754_nan.

(** [x + y], [x - y], [x * y], [abs(x)], [-x] *)
Definition add : float -> float -> float := SFadd prec emax.
Definition sub : float -> float -> float := SFsub prec emax.
Definition mul : float -> float -> float := SFmul prec emax.
Definition abs : float -> float := SFabs.
Definition neg : float -> float := SFopp.

(** [x == y], [x != y], [x < y], [x <= y], [x > y]: every comparison
    with a NaN is false, except [!=]. *)
Definition eqb : float -> float -> bool := SFeqb.
Definition neb (x y : float) : bool := negb (SFeqb x y).
Definition ltb : float -> float -> bool := SFltb.
Definition leb : float -> float -> bool := SFleb.
Definition gtb (x y : float) : bool := SFltb y x.

(** [x / y]: raises [ZeroDivisionError] when [y == 0]. *)
Definition truediv (x y : float) : option float :=
  if eqb y zero then None else Some (SFdiv prec emax x y).

(** [math.isfinite], [math.isinf], [math.isnan] *)
Definition isfinite (x : float) : bool :=
  match x with
  | S754_zero _ | S754_finite _ _ _ => true
  | S754_infinity _ | S754_nan => false
  end.

Definition isinf (x : float) : bool :=
  match x with S754_infinity _ => true | _ => false end.

Definition isnan (x : float) : bool :=
  match x with S754_nan => true | _ => false end.

(** [max(a, b, c)]: the first of the largest, where an item replaces
    the running maximum only when it compares greater. *)
Definition max2 (m x : float) : float := if gtb x m then x else m.
Definition max3 (a b c : float) : float := max2 (max2 a b) c.

(** The rational number a finite float stands for (0 for the others). *)
Definition to_Q (x : float) : Q :=
  match x with
  | S754_finite s m e =>
      let v := (inject_Z (Zpos m) * Qpower 2 e)%Q in
      if s then Qopp v else v
  | _ => 0%Q
  end.

(** The float nearest to the positive fraction [n / d], ties to even,
    with gradual underflow and overflow to infinity. *)
Definition of_ratio (s : bool) (n d : Z) : float :=
  let l := Ratio.ilog 2 n d in
  let e := Z.max (l - (prec - 1)) emin in
  let '(n', d') := Ratio.scale 2 n d e in
  let m := Ratio.round_half_even n' d' in
  let '(m, e) := if m =? 2 ^ prec then (2 ^ (prec - 1), e + 1) else (m, e) in
  match m with
  | Zpos p => if e <=? emax - prec then S754_finite s p e else S754_infinity s
  | _ => S754_zero s
  end.

(** The float nearest to [(-1)^s * m * 10 ^ e]. *)
Definition of_decimal (s : bool) (m e : Z) : float :=
  if m =? 0 then S754_zero s
  else let '(n, d) := Ratio.scale 10 m 1 (- e) in of_ratio s n d.

(** *** [float(s)] for a string *)

(** C's [isspace]: what [float] strips from an ASCII string. *)
Definition c_isspace (c : ascii) : bool :=
  let n := nat_of_ascii c in ((9 <=? n) && (n <=? 13) || (n =? 32))%nat.

(** An underscore is allowed between two digits only; the underscores
    are dropped. [prev] is the previous character. *)
Fixpoint drop_underscores (prev : ascii) (s : string) : option string :=
  match s with
  | EmptyString => if Ascii.eqb prev "_" then None else Some EmptyString
  | String c s' =>
      if Ascii.eqb c "_" then
        if PyStr.isdigit prev then drop_underscores c s' else None
      else if Ascii.eqb prev "_" && negb (PyStr.isdigit c) then None
      else option_map (String c) (drop_underscores c s')
  end.

Definition digit_val (c : ascii) : Z := Z.of_nat (nat_of_ascii c) - 48.

(** Reads the longest prefix of digits: its value appended to [acc],
    the number of digits read and the rest. *)
Fixpoint span_digits (s : string) (acc : Z) (cnt : nat) : Z * nat * string :=
  match s with
  | String c s' =>
      if PyStr.isdigit c then span_digits s' (10 * acc + digit_val c) (S cnt)
      else (acc, cnt, s)
  | EmptyString => (acc, cnt, s)
  end.

(** An optional sign: [true] for [-]. *)
Definition read_sign (s : string) : bool * string :=
  match s with
  | String "-" s' => (true, s')
  | String "+" s' => (false, s')
  | _ => (false, s)
  end.

(** [digits [. digits] [(e|E) [sign] digits]] or
    [. digits [(e|E) [sign] digits]], the whole string: the digits as
    an integer and the power of ten. *)
Definition parse_decimal (s : string) : option (Z * Z) :=
  let '(i, ni, r1) := span_digits s 0 0 in
  let '(f, nf, r2) :=
    match r1 with
    | String "." r => span_digits r i 0
    | _ => (i, O, r1)
    end in
  if (ni + nf =? 0)%nat then None
  else match r2 with
       | EmptyString => Some (f, - Z.of_nat nf)
       | String c r3 =>
           if Ascii.eqb c "e" || Ascii.eqb c "E" then
             let '(es, r4) := read_sign r3 in
             let '(x, nx, r5) := span_digits r4 0 0 in
             match nx, r5 with
             | S _, EmptyString =>
                 Some (f, (if es then - x else x) - Z.of_nat nf)
             | _, _ => None
             end
           else None
       end.

(** [float(s)]: [None] is [ValueError]. *)
Definition of_string (s : string) : option float :=
  match drop_underscores "000" (PyStr.strip_by c_isspace s) with
  | None => None
  | Some t =>
      let '(sg, r) := read_sign t in
      let w := PyStr.lower r in
      if PyStr.eqb w "inf" || PyStr.eqb w "infinity" then Some (S754_infinity sg)
      else if PyStr.eqb w "nan" then Some S754_nan
      else match parse_decimal r with
           | Some (m, e) => Some (of_decimal sg m e)
           | None => None
           end
  end.

(** A float literal of the source. *)
Definition lit (s : string) : float :=
  match of_string s with Some x => x | None => S754_nan end.

(** *** The format [f"{x:.<p>e}"] *)

Definition digit_char (d : Z) : ascii := ascii_of_nat (48 + Z.to_nat d).

(** The [w] low-order decimal digits of [n], most significant first. *)
Fixpoint fixed_digits (w : nat) (n : Z) : string :=
  match w with
  | O => EmptyString
  | S w' => fixed_digits w' (n / 10) ++ String (digit_char (n mod 10)) EmptyString
  end.

(** Number of decimal digits of [n > 0]. *)
Definition num_digits (n : Z) : nat := S (Z.to_nat (Ratio.ilog 10 n 1)).

(** The mantissa [d.ddd] of [p + 1] digits (no point when [p = 0]). *)
Definition mantissa_str (p : nat) (n : Z) : string :=
  match fixed_digits (S p) n with
  | String c r => match p with O => String c r | S _ => String c (String "." r) end
  | EmptyString => EmptyString
  end.

(** The exponent [e+dd]: at least two digits. *)
Definition exponent_str (k : Z) : string :=
  let a := Z.abs k in
  String "e" (String (if k <? 0 then "-"%char else "+"%char)
    (fixed_digits (Nat.max 2 (if a =? 0 then 1 else num_digits a)) a)).

Definition sign_str (s : bool) : string := if s then "-" else "".

(** The [p + 1] significant digits of [n / d] and its decimal exponent. *)
Definition decimal_digits (p : nat) (n d : Z) : Z * Z :=
  let k := Ratio.ilog 10 n d in
  let '(n', d') := Ratio.scale 10 n d (k - Z.of_nat p) in
  let m := Ratio.round_half_even n' d' in
  if m =? 10 ^ Z.of_nat (S p) then (10 ^ Z.of_nat p, k + 1) else (m, k).

Definition format_e (p : nat) (x : float) : string :=
  match x with
  | S754_nan => "nan"
  | S754_infinity s => sign_str s ++ "inf"
  | S754_zero s => sign_str s ++ mantissa_str p 0 ++ exponent_str 0
  | S754_finite s m e =>
      let '(n, d) := Ratio.scale 2 (Zpos m) 1 (- e) in
      let '(digits, k) := decimal_digits p n d in
      sign_str s ++ mantissa_str p digits ++ exponent_str k
  end.

End Float.

Abbreviation float := spec_float.


(** ** Python built-ins on lists *)

Module Py.

(** [sorted(l, key=key)], where [lt] is [<] on the keys: a stable
    insertion sort.  Python's sort is stable too, so on keys that [<]
    orders totally the two give the same list. *)
Fixpoint insort {A K : Type} (lt : K -> K -> bool) (key : A -> K)
    (x : A) (l : list A) : list A :=
  match l with
  | [] => [x]
  | y :: l' => if lt (key y) (key x) then y :: insort lt key x l' else x :: y :: l'
  end.

Definition sorted {A K : Type} (lt : K -> K -> bool) (key : A -> K)
    (l : list A) : list A :=
  foldr (insort lt key) [] l.

(** [sorted(l, key=key, reverse=True)]: descending, and items with equal
    keys keep their original order. *)
Definition sorted_reverse {A K : Type} (lt : K -> K -> bool) (key : A -> K)
    (l : list A) : list A :=
  sorted (fun a b => lt b a) key l.

(** [enumerate(l, start=i)] *)
Fixpoint enumerate {A : Type} (i : nat) (l : list A) : list (nat * A) :=
  match l with
  | [] => []
  | x :: l' => (i, x) :: enumerate (S i) l'
  end.

(** [(parts + [""] * n)[:n]] *)
Definition pad (n : nat) (parts : list string) : list string :=
  take n (parts ++ replicate n EmptyString)%list.

(** [l.append(x)] *)
Definition append {A : Type} (l : list A) (x : A) : list A := (l ++ [x])%list.

(** [if s:] for a string *)
Definition nonempty (s : string) : bool :=
  match s with EmptyString => false | String _ _ => true end.

End Py.

(** ** analysis/scripts/app.py: the CSV parser and the comparator *)

Module App.

(** The dictionary stored for a variable. *)
Record var_info := {
  value_str : string;
  value_num : option float;
  lower : string;
  upper : string;
  type : string;
  units : string;
  source_line : nat
}.

(** The six fields [name, val_str, lower, upper, vtype, units] of a
    stripped, non-empty line; [None] is [continue]. *)
Definition regular_fields (line : string)
    : option (string * string * string * string * string * string) :=
  let parts := PyStr.split_char "," line in
  if (length parts <? 2)%nat then None
  else match PyStr.strip <$> Py.pad 6 parts with
       | [name; val_str; lower; upper; vtype; units] =>
           Some (name, val_str, lower, upper, vtype, units)
       | _ => None
       end.

Definition line_fields (line : string)
    : option (string * string * string * string * string * string) :=
  if PyStr.contains "(" line && PyStr.contains ")" line then
    match PyStr.find_char ")" line with
    | Some paren_end =>
        let name := PyStr.take (S paren_end) line in
        let rest := PyStr.drop (S paren_end) line in
        let rest := if PyStr.startswith "," rest then PyStr.drop 1 rest else rest in
        let parts := PyStr.split_char "," rest in
        if (1 <=? length parts)%nat then
          match PyStr.strip <$> Py.pad 5 parts with
          | [val_str; lower; upper; vtype; units] =>
              Some (name, val_str, lower, upper, vtype, units)
          | _ => None
          end
        else None
    | None => regular_fields line
    end
  else regular_fields line.

(** [num = float(val_str)], [None] when it raises or is not finite. *)
Definition numeric_value (val_str : string) : option float :=
  match Float.of_string val_str with
  | Some num => if Float.isfinite num then Some num else None
  | None => None
  end.

(** The name and the record of line number [i], if the line has one. *)
Definition parse_line (i : nat) (line : string) : option (string * var_info) :=
  let line := PyStr.strip line in
  if negb (Py.nonempty line) then None
  else match line_fields line with
       | None => None
       | Some (name, val_str, lower, upper, vtype, units) =>
           if negb (Py.nonempty name) then None
           else Some (name,
                      {| value_str := val_str;
                         value_num := numeric_value val_str;
                         lower := lower;
                         upper := upper;
                         type := vtype;
                         units := units;
                         source_line := i |})
       end.

(** One turn of the loop over the lines: [vars_dict[name] = {...}]. *)
Definition parse_step (vars_dict : gmap string var_info) (il : nat * string)
    : gmap string var_info :=
  match parse_line il.1 il.2 with
  | Some (name, info) => <[name := info]> vars_dict
  | None => vars_dict
  end.

Definition parse_lines (lines : list string) : gmap string var_info :=
  fold_left parse_step (Py.enumerate 1 lines) ∅.

(** [parse_variables_csv(path)]: the file at [path] is [Some lines], or
    [None] when there is no such file ([FileNotFoundError]). *)
Definition parse_variables_csv (file : option (list string))
    : option (gmap string var_info) :=
  match file with
  | None => None
  | Some lines => Some (parse_lines lines)
  end.

Definition format_sci (x : float) : string := Float.format_e 16 x.

(** A row of the differences. *)
Record row := {
  variable : string;
  status : string;
  value1 : string;
  value2 : string;
  abs_diff : string;
  rel_diff : string;
  in_tolerance : string;
  type1 : string;
  type2 : string;
  units1 : string;
  units2 : string
}.

Record counts := {
  only_in_1 : nat;
  only_in_2 : nat;
  equal_within_tol : nat;
  different : nat
}.

Definition tiny : float := Eval vm_compute in Float.lit "1e-300".

(** The defaults of [abs_tol] and [rel_tol], in [compare_dicts] and in
    the command line of [main]. *)
Definition default_abs_tol : float := Eval vm_compute in Float.lit "1e-12".
Definition default_rel_tol : float := Eval vm_compute in Float.lit "1e-6".

Definition bool_str (b : bool) : string := if b then "true" else "false".
Definition status_str (b : bool) : string :=
  if b then "equal_within_tol" else "different".

Definition count_status (b : bool) (c : counts) : counts :=
  if b then
    {| only_in_1 := only_in_1 c; only_in_2 := only_in_2 c;
       equal_within_tol := S (equal_within_tol c); different := different c |}
  else
    {| only_in_1 := only_in_1 c; only_in_2 := only_in_2 c;
       equal_within_tol := equal_within_tol c; different := S (different c) |}.

(** The body of the loop of [compare_dicts] for the key [k]: the row and
    the updated counts; [None] when an exception is raised. *)
Definition compare_key (d1 d2 : gmap string var_info) (abs_tol rel_tol : float)
    (k : string) (c : counts) : option (row * counts) :=
  match d1 !! k, d2 !! k with
  | None, Some b =>
      Some ({| variable := k; status := "only_in_2";
               value1 := EmptyString; value2 := value_str b;
               abs_diff := EmptyString; rel_diff := EmptyString;
               in_tolerance := "false";
               type1 := EmptyString; type2 := type b;
               units1 := EmptyString; units2 := units b |},
            {| only_in_1 := only_in_1 c; only_in_2 := S (only_in_2 c);
               equal_within_tol := equal_within_tol c; different := different c |})
  | None, None => None
  | Some a, None =>
      Some ({| variable := k; status := "only_in_1";
               value1 := value_str a; value2 := EmptyString;
               abs_diff := EmptyString; rel_diff := EmptyString;
               in_tolerance := "false";
               type1 := type a; type2 := EmptyString;
               units1 := units a; units2 := EmptyString |},
            {| only_in_1 := S (only_in_1 c); only_in_2 := only_in_2 c;
               equal_within_tol := equal_within_tol c; different := different c |})
  | Some a, Some b =>
      match value_num a, value_num b with
      | Some n1, Some n2 =>
          let abs_diff := Float.abs (Float.sub n1 n2) in
          let denom := Float.max3 (Float.abs n1) (Float.abs n2) tiny in
          match Float.truediv abs_diff denom with
          | None => None
          | Some rel_diff =>
              let in_tol := Float.leb abs_diff abs_tol || Float.leb rel_diff rel_tol in
              Some ({| variable := k; status := status_str in_tol;
                       value1 := value_str a; value2 := value_str b;
                       abs_diff := format_sci abs_diff;
                       rel_diff := Float.format_e 6 rel_diff;
                       in_tolerance := bool_str in_tol;
                       type1 := type a; type2 := type b;
                       units1 := units a; units2 := units b |},
                    count_status in_tol c)
          end
      | _, _ =>
          let equal := PyStr.eqb (PyStr.strip (value_str a)) (PyStr.strip (value_str b)) in
          Some ({| variable := k; status := status_str equal;
                   value1 := value_str a; value2 := value_str b;
                   abs_diff := EmptyString; rel_diff := EmptyString;
                   in_tolerance := bool_str equal;
                   type1 := type a; type2 := type b;
                   units1 := units a; units2 := units b |},
                count_status equal c)
      end
  end.

(** [for k in keys: ...; diffs.append(row)] *)
Fixpoint compare_loop (d1 d2 : gmap string var_info) (abs_tol rel_tol : float)
    (keys : list string) (c : counts) : option (list row * counts) :=
  match keys with
  | [] => Some ([], c)
  | k :: keys' =>
      match compare_key d1 d2 abs_tol rel_tol k c with
      | None => None
      | Some (r, c') =>
          match compare_loop d1 d2 abs_tol rel_tol keys' c' with
          | None => None
          | Some (diffs, c'') => Some (r :: diffs, c'')
          end
      end
  end.

(** [sorted(set(d1.keys()) | set(d2.keys()))] *)
Definition sorted_keys (d1 d2 : gmap string var_info) : list string :=
  Py.sorted PyStr.ltb id (elements (dom d1 ∪ dom d2)).

Definition compare_dicts (d1 d2 : gmap string var_info) (abs_tol rel_tol : float)
    : option (list row * counts) :=
  compare_loop d1 d2 abs_tol rel_tol (sorted_keys d1 d2)
    {| only_in_1 := 0; only_in_2 := 0; equal_within_tol := 0; different := 0 |}.

End App.


(** ** Python [dict]: insertion-ordered, one entry per key *)

Module PyDict.

Definition dict (V : Type) : Type := list (string * V).

(** [d.keys()] *)
Definition keys {V : Type} (d : dict V) : list string := d.*1.

(** [d.get(k)] *)
Fixpoint get {V : Type} (d : dict V) (k : string) : option V :=
  match d with
  | [] => None
  | (k', v) :: d' => if String.eqb k' k then Some v else get d' k
  end.

(** [d[k] = v]: a present key keeps its place. *)
Fixpoint set {V : Type} (d : dict V) (k : string) (v : V) : dict V :=
  match d with
  | [] => [(k, v)]
  | (k', v') :: d' =>
      if String.eqb k' k then (k, v) :: d' else (k', v') :: set d' k v
  end.

(** [k in l] for a list of strings *)
Definition mem (k : string) (l : list string) : bool :=
  existsb (String.eqb k) l.

End PyDict.

(** ** analysis/scripts/test.py: the flowsheet comparison *)

Module TestPy.

Import PyDict.

Definition is_absorbent_key (key : string) : bool :=
  PyStr.contains "ABSORBENT" key.

Definition rel_tol_isclose : float := Eval vm_compute in Float.lit "1e-8".
Definition default_tol : float := Eval vm_compute in Float.lit "1e-8".

(** [math.isclose(a, b, rel_tol=rel_tol, abs_tol=abs_tol)]; [None] is the
    [ValueError] raised for a negative tolerance. *)
Definition isclose (a b rel_tol abs_tol : float) : option bool :=
  if Float.ltb rel_tol Float.zero || Float.ltb abs_tol Float.zero then None
  else if Float.eqb a b then Some true
  else if Float.isinf a || Float.isinf b then Some false
  else
    let diff := Float.abs (Float.sub b a) in
    Some (Float.leb diff (Float.abs (Float.mul rel_tol b))
          || Float.leb diff (Float.abs (Float.mul rel_tol a))
          || Float.leb diff abs_tol).

(** The value of [results]: [(v1, v2, note)]. *)
Definition entry : Type := option float * option float * string.

(** One of the two symmetric [if] blocks: the side [dtwo] has the two
    absorbent keys [abs_two], the side [done] has the single one.  The
    result is the sum, the single key and its value when the block adds
    an entry; the outer [None] is a raised exception. *)
Definition sum_matches (dtwo done : dict float) (abs_two abs_one : list string)
    (tol : float) : option (option (float * string * float)) :=
  match abs_two, abs_one with
  | [k0; k1], [other_key] =>
      match get dtwo k0, get dtwo k1, get done other_key with
      | Some x0, Some x1, Some y =>
          let s := Float.add x0 x1 in
          match isclose s y rel_tol_isclose tol with
          | None => None
          | Some true => Some (Some (s, other_key, y))
          | Some false => Some None
          end
      | _, _, _ => None
      end
  | _, _ => Some None
  end.

(** [match_and_sum_absorbents(d1, d2, tol)]:
    [(results, consumed1, consumed2)]. *)
Definition match_and_sum_absorbents (d1 d2 : dict float) (tol : float)
    : option (dict entry * list string * list string) :=
  let results : dict entry := [] in
  let consumed1 : list string := [] in
  let consumed2 : list string := [] in
  let abs1 := filter (fun k => is_absorbent_key k = true) (keys d1) in
  let abs2 := filter (fun k => is_absorbent_key k = true) (keys d2) in
  match sum_matches d1 d2 abs1 abs2 tol with
  | None => None
  | Some m1 =>
      let '(results, consumed1, consumed2) :=
        match m1 with
        | Some (s, other_key, y) =>
            (set results other_key
               (Some s, Some y, "sum of two absorbents in file1 vs single in file2"),
             (consumed1 ++ abs1)%list, (consumed2 ++ [other_key])%list)
        | None => (results, consumed1, consumed2)
        end in
      match sum_matches d2 d1 abs2 abs1 tol with
      | None => None
      | Some m2 =>
          Some
            match m2 with
            | Some (s, other_key, y) =>
                (set results other_key
                   (Some y, Some s, "single in file1 vs sum of two absorbents in file2"),
                 (consumed1 ++ [other_key])%list, (consumed2 ++ abs2)%list)
            | None => (results, consumed1, consumed2)
            end
      end
  end.

(** An item of [comps]: [(name, v1, v2, abs_diff, pct_diff, note)]. *)
Record comp := {
  name : string;
  v1 : option float;
  v2 : option float;
  abs_diff : option float;
  pct_diff : option float;
  note : string
}.

Definition small : float := Eval vm_compute in Float.lit "1e-12".
Definition hundred : float := Eval vm_compute in Float.lit "100".
Definition minus_one : float := Eval vm_compute in Float.lit "-1".

(** [(abs_diff, pct_diff)] of a pair of values, as both loops of
    [build_comparisons] compute them; the outer [None] is a raised
    exception. *)
Definition differences (v1 v2 : option float)
    : option (option float * option float) :=
  match v1, v2 with
  | Some x1, Some x2 =>
      let abs_diff := Float.sub x1 x2 in
      if Float.ltb (Float.abs x2) small then
        Some (Some abs_diff,
              Some (if Float.neb abs_diff Float.zero then Float.inf else Float.zero))
      else
        match Float.truediv (Float.sub x1 x2) x2 with
        | None => None
        | Some q => Some (Some abs_diff, Some (Float.mul q hundred))
        end
  | _, _ => Some (None, None)
  end.

Definition make_comp (name : string) (v1 v2 : option float) (note : string)
    : option comp :=
  match differences v1 v2 with
  | None => None
  | Some (abs_diff, pct_diff) =>
      Some {| name := name; v1 := v1; v2 := v2;
              abs_diff := abs_diff; pct_diff := pct_diff; note := note |}
  end.

(** [for ... in ...: ...; comps.append(...)] with a body that may raise. *)
Fixpoint collect {A B : Type} (f : A -> option (option B)) (l : list A)
    : option (list B) :=
  match l with
  | [] => Some []
  | x :: l' =>
      match f x with
      | None => None
      | Some o =>
          match collect f l' with
          | None => None
          | Some r => Some (match o with Some y => y :: r | None => r end)
          end
      end
  end.

(** The key of the final sort. *)
Definition sort_key (t : comp) : float :=
  match pct_diff t with
  | Some p => if negb (Float.isinf p) then Float.abs p else minus_one
  | None => minus_one
  end.

Section SetOrder.

(** [list(s)] for the set [s] of the strings of a list: Python leaves
    the order open, so it is a parameter. *)
Variable list_of_set : list string -> list string.

Definition build_comparisons (d1 d2 : dict float) : option (list comp) :=
  match match_and_sum_absorbents d1 d2 default_tol with
  | None => None
  | Some (pre_map, consumed1, consumed2) =>
      match collect (fun '(name, (v1, v2, note)) =>
                       option_map Some (make_comp name v1 v2 note)) pre_map with
      | None => None
      | Some comps1 =>
          let keys := list_of_set (keys d1 ++ keys d2)%list in
          match collect (fun k =>
                           if mem k consumed1 || mem k consumed2 then Some None
                           else option_map Some
                                  (make_comp k (get d1 k) (get d2 k) EmptyString))
                        keys with
          | None => None
          | Some comps2 =>
              Some (Py.sorted_reverse Float.ltb sort_key (comps1 ++ comps2)%list)
          end
      end
  end.

End SetOrder.

(** The name and the value of a line of a flowsheet file; [None] is
    [continue]: a blank line, a line with no second field (the
    [IndexError] is caught) or a second field that is no number. *)
Definition flowsheet_record (line : string) : option (string * float) :=
  let line := PyStr.strip line in
  if negb (Py.nonempty line) then None
  else
    match PyStr.split_char "," line with
    | name :: second :: _ =>
        match Float.of_string second with
        | Some value => Some (name, value)
        | None => None
        end
    | _ => None
    end.

(** One turn of the loop of [read_flowsheet_csv]: [d[name] = value]. *)
Definition flowsheet_step (d : dict float) (line : string) : dict float :=
  match flowsheet_record line with
  | Some (name, value) => set d name value
  | None => d
  end.

(** [read_flowsheet_csv(path)]: the file at [path] is [Some lines];
    [None] is the [FileNotFoundError] of [open]. *)
Definition read_flowsheet_csv (file : option (list string)) : option (dict float) :=
  match file with
  | None => None
  | Some lines => Some (fold_left flowsheet_step lines [])
  end.

End TestPy.


(** ** Strings of the output *)

Module Out.

Definition tab : string := String (ascii_of_nat 9) EmptyString.
Definition nl : string := String (ascii_of_nat 10) EmptyString.
Definition dquote : string := String (ascii_of_nat 34) EmptyString.

(** [str(n)] for a natural number *)
Definition str_nat (n : nat) : string :=
  match n with
  | O => "0"
  | S _ => Float.fixed_digits (Float.num_digits (Z.of_nat n)) (Z.of_nat n)
  end.

(** [str(n)] for an integer *)
Definition str_int (n : Z) : string :=
  if n <? 0 then "-" ++ str_nat (Z.to_nat (- n)) else str_nat (Z.to_nat n).

End Out.

(** ** Text files: from the strings written to the lines read *)

Module PyFile.

Definition LF : ascii := ascii_of_nat 10.
Definition CR : ascii := ascii_of_nat 13.

(** A character that ends a line when a file is read in text mode. *)
Definition line_break (c : ascii) : bool := Ascii.eqb c LF || Ascii.eqb c CR.

(** The text of a file after the strings [writes] were written to it,
    in order, where the line separator of the system is the line feed
    (elsewhere a line feed is stored as a carriage return and a line
    feed, which [lines] reads as the same line end). *)
Definition content (writes : list string) : string := foldr String.append "" writes.

(** [for line in f] on a file with the text [text], opened with
    [open(path, 'r')]: a line ends after a line feed, a carriage return,
    or a carriage return followed by a line feed, and each of these is
    handed over as one line feed; what follows the last of them is a
    line too when it is not empty. *)
Fixpoint lines (text : string) : list string :=
  match text with
  | EmptyString => []
  | String c rest =>
      if Ascii.eqb c LF then Out.nl :: lines rest
      else if Ascii.eqb c CR then
        match rest with
        | String d rest' =>
            if Ascii.eqb d LF then Out.nl :: lines rest' else Out.nl :: lines rest
        | EmptyString => [Out.nl]
        end
      else
        match lines rest with
        | [] => [String c EmptyString]
        | line :: more => String c line :: more
        end
  end.

End PyFile.

(** ** scripts/analyse.py: reading a run file *)

Module Analyse.

(** The path and the raw value token of a record line: a line that is
    not blank, is no comment and has six fields at least. *)
Definition record_fields (line : string) : option (string * string) :=
  let line := PyStr.strip line in
  if negb (Py.nonempty line) || PyStr.startswith "#" line then None
  else
    let parts := PyStr.strip <$> PyStr.split_char ":" line in
    if (6 <=? length parts)%nat then
      match parts with
      | path_name :: value_str :: _ => Some (path_name, value_str)
      | _ => None
      end
    else None.

(** [path_prefix and not path_name.startswith(path_prefix)] *)
Definition prefix_excludes (path_prefix : option string) (path_name : string) : bool :=
  match path_prefix with
  | Some p => Py.nonempty p && negb (PyStr.startswith p path_name)
  | None => false
  end.

Definition warning (value_str path_name : string) : string :=
  "Warning: Could not convert value '" ++ value_str
  ++ "' to float for path '" ++ path_name ++ "'".

(** The body of the loop over the lines, on the dictionary and the
    lines printed so far. *)
Definition read_line (path_prefix : option string)
    (acc : gmap string float * list string) (line : string)
    : gmap string float * list string :=
  match record_fields line with
  | None => acc
  | Some (path_name, value_str) =>
      if prefix_excludes path_prefix path_name then acc
      else match Float.of_string value_str with
           | Some value => (<[path_name := value]> acc.1, acc.2)
           | None => (acc.1, Py.append acc.2 (warning value_str path_name))
           end
  end.

(** [read_all_values_from_txt(file_path, path_prefix)]: the dictionary
    and the lines printed.  The file at [file_path] is [Some lines], or
    [None] when there is no such file. *)
Definition read_all_values_from_txt (file_path : string)
    (file : option (list string)) (path_prefix : option string)
    : gmap string float * list string :=
  match file with
  | None => (∅, ["File '" ++ file_path ++ "' not found"])
  | Some lines => fold_left (read_line path_prefix) lines (∅, [])
  end.

(** [read_matching_values_from_txt(file_path, path_prefix)] *)
Definition read_matching_values_from_txt (file_path : string)
    (file : option (list string)) (path_prefix : string)
    : gmap string float * list string :=
  read_all_values_from_txt file_path file (Some path_prefix).

(** The loop of [read_value_from_txt] over the lines left, with the
    lines printed so far: the value returned from inside the loop, or
    [None] when the loop ends. *)
Fixpoint find_value (path_name : string) (lines : list string) (out : list string)
    : option float * list string :=
  match lines with
  | [] => (None, out)
  | line :: lines' =>
      match record_fields line with
      | None => find_value path_name lines' out
      | Some (current_path, value_str) =>
          if PyStr.startswith path_name current_path then
            match Float.of_string value_str with
            | Some value =>
                (Some value,
                 Py.append out ("Found matching path: '" ++ current_path ++ "'"))
            | None =>
                find_value path_name lines'
                  (Py.append out (warning value_str current_path))
            end
          else find_value path_name lines' out
      end
  end.

(** [read_value_from_txt(file_path, path_name)]: the value returned and
    the lines printed. *)
Definition read_value_from_txt (file_path : string) (file : option (list string))
    (path_name : string) : option float * list string :=
  match file with
  | None => (None, ["File '" ++ file_path ++ "' not found"])
  | Some lines =>
      match find_value path_name lines [] with
      | (Some value, out) => (Some value, out)
      | (None, out) =>
          (None,
           Py.append out ("No paths starting with '" ++ path_name
                          ++ "' found in file '" ++ file_path ++ "'"))
      end
  end.

End Analyse.

(** ** scripts/concatenate.py and scripts/concatenateV2.py: writing the
    reconstructed run file *)

Module Concat.

(** One turn of the loop of [load_variable_order]. *)
Definition order_line (order_list : list string) (line : string) : list string :=
  let line := PyStr.strip line in
  if negb (Py.nonempty line) || PyStr.startswith "#" line
     || PyStr.startswith "!" line then order_list
  else
    let line := if PyStr.startswith Out.tab line then PyStr.drop 1 line else line in
    if PyStr.contains " : " line then
      match PyStr.split " : " line with
      | path :: _ => Py.append order_list path
      | [] => order_list
      end
    else order_list.

(** [load_variable_order()]: the file [good_order.txt] is [Some lines],
    or [None] when there is no such file. *)
Definition load_variable_order (order_file : option (list string)) : list string :=
  match order_file with
  | None => []
  | Some lines => fold_left order_line lines []
  end.

(** The same function in both scripts. *)
Definition format_scientific_notation (value_str : string) : string :=
  match Float.of_string value_str with
  | Some num =>
      if Float.eqb num Float.zero then "0.0000000000000000e+00"
      else Float.format_e 16 num
  | None => value_str
  end.

(** A variable read from the CSV files. *)
Record variable := {
  path : string;
  value : string;
  lower_bound : string;
  upper_bound : string;
  type : string;
  units : string
}.

(** [{path: i for i, path in enumerate(order_list)}]: a path listed
    twice keeps its last position. *)
Definition order_map (order_list : list string) : gmap string nat :=
  fold_left (fun m ip => <[ip.2 := ip.1]> m) (Py.enumerate 0 order_list) ∅.

(** The sort key with an order list: the tuples [(0, rank)] and
    [(1, path)]. *)
Inductive sort_key : Type :=
| Known (rank : nat)
| Unknown (path : string).

Definition key_of (m : gmap string nat) (var : variable) : sort_key :=
  match m !! path var with
  | Some i => Known i
  | None => Unknown (path var)
  end.

(** [<] on these tuples *)
Definition key_ltb (a b : sort_key) : bool :=
  match a, b with
  | Known i, Known j => (i <? j)%nat
  | Known _, Unknown _ => true
  | Unknown _, Known _ => false
  | Unknown p, Unknown q => PyStr.ltb p q
  end.

(** [<] on tuples of strings *)
Fixpoint tuple_ltb (a b : list string) : bool :=
  match a, b with
  | [], [] => false
  | [], _ :: _ => true
  | _ :: _, [] => false
  | x :: a', y :: b' => if String.eqb x y then tuple_ltb a' b' else PyStr.ltb x y
  end.

(** The sort key without an order list: [(len(parts), tuple(parts))]. *)
Definition hierarchy_key (var : variable) : nat * list string :=
  let parts := PyStr.split_char "." (path var) in (length parts, parts).

Definition hierarchy_ltb (a b : nat * list string) : bool :=
  if (a.1 =? b.1)%nat then tuple_ltb a.2 b.2 else (a.1 <? b.1)%nat.

Definition sorted_variables (order_list : list string)
    (variables_data : list variable) : list variable :=
  match order_list with
  | _ :: _ =>
      Py.sorted key_ltb (key_of (order_map order_list)) variables_data
  | [] => Py.sorted hierarchy_ltb hierarchy_key variables_data
  end.

(** The line written for a variable. *)
Definition variable_line (var : variable) : string :=
  let value_sci := format_scientific_notation (value var) in
  let lower_sci := format_scientific_notation (lower_bound var) in
  let upper_sci := format_scientific_notation (upper_bound var) in
  if Py.nonempty (PyStr.strip (units var)) then
    Out.tab ++ path var ++ " : " ++ value_sci ++ " : " ++ lower_sci ++ " : "
      ++ upper_sci ++ " : " ++ type var ++ " : " ++ units var ++ Out.nl
  else
    Out.tab ++ path var ++ " : " ++ value_sci ++ " : " ++ lower_sci ++ " : "
      ++ upper_sci ++ " : " ++ type var ++ " :" ++ Out.nl.

(** The header; [now] is the formatted date. *)
Definition header (now : string) (n : nat) : list string :=
  [ "#!gSTORE-4 created on " ++ now ++ Out.nl;
    "# PROCESS reconstructed_process" ++ Out.nl ++ Out.nl;
    "!Time" ++ Out.nl ++ Out.tab ++ "0" ++ Out.nl ++ Out.nl;
    "# The total number of variables in the process" ++ Out.nl;
    "# " ++ Out.str_nat n ++ Out.nl;
    "# Note: all variables are saved" ++ Out.nl;
    "!Variables" ++ Out.nl;
    Out.tab ++ "# PathName : Value : LowerBound : UpperBound : Type : Units" ++ Out.nl ].

(** [write_txt_file(variables_data, output_file)]: the strings written
    to the output file, in order. *)
Definition write_txt_file (now : string) (order_file : option (list string))
    (variables_data : list variable) : list string :=
  let order_list := load_variable_order order_file in
  (header now (length variables_data)
   ++ (variable_line <$> sorted_variables order_list variables_data))%list.

(** [write_reconstructed(variables, output_file)] of concatenateV2.py:
    no order file, the variables are written as they come. *)
Definition write_reconstructed (now : string) (variables : list variable)
    : list string :=
  (header now (length variables) ++ (variable_line <$> variables))%list.

(** The variable of a stripped line of a file [variables.csv], as both
    scripts read it: six fields or more give the record, two to five
    the name and the value with the default bounds, type and units;
    [None] is a line with one field. *)
Definition csv_record (path_prefix line : string) : option variable :=
  let parts := PyStr.split_char "," line in
  if (6 <=? length parts)%nat then
    match parts with
    | p0 :: p1 :: p2 :: p3 :: p4 :: p5 :: _ =>
        Some {| path := path_prefix ++ PyStr.strip p0; value := PyStr.strip p1;
                lower_bound := PyStr.strip p2; upper_bound := PyStr.strip p3;
                type := PyStr.strip p4; units := PyStr.strip p5 |}
    | _ => None
    end
  else if (2 <=? length parts)%nat then
    match parts with
    | p0 :: p1 :: _ =>
        Some {| path := path_prefix ++ PyStr.strip p0; value := PyStr.strip p1;
                lower_bound := "-1.00000e+20"; upper_bound := "1.00000e+20";
                type := "Notype"; units := "" |}
    | _ => None
    end
  else None.

(** One turn of the loop over the lines of a file in
    [read_csv_in_folder_order] of concatenateV2.py. *)
Definition read_csv_line_v2 (path_prefix : string) (variables : list variable)
    (line : string) : list variable :=
  let line := PyStr.strip line in
  if negb (Py.nonempty line) then variables
  else match csv_record path_prefix line with
       | Some var => Py.append variables var
       | None => variables
       end.


(** A directory that [os.walk] visits and that holds a file
    [variables.csv]: the path of the file, the path of the directory
    relative to the base folder, and the lines of the file. *)
Record csv_file := {
  csv_path : string;
  rel : string;
  csv_lines : list string
}.

(** The prefix of the paths of a directory: [rel.replace(os.sep, ".") + "."],
    or nothing for the base folder itself. *)
Definition prefix_of (sep : ascii) (rel : string) : string :=
  if PyStr.eqb rel "." then "" else PyStr.replace_char sep "." rel ++ ".".

(** [read_csv_in_folder_order(base_folder)] of concatenateV2.py, where
    [walk] lists the directories in the order of the walk and [sep] is
    [os.sep]. *)
Definition read_csv_in_folder_order (sep : ascii) (walk : list csv_file)
    : list variable :=
  fold_left (fun variables f =>
               fold_left (read_csv_line_v2 (prefix_of sep (rel f))) (csv_lines f)
                 variables)
            walk [].


End Concat.

(** ** analysis/scripts/co2_equilibrium.py: the stage extractor *)

(** The regular expressions of the script: a sequence of literal texts,
    greedy repetitions of a character class and capturing groups,
    matched from the start of the line with backtracking. *)
Module Re.

Inductive item : Type :=
| Lit (s : string)               (* the text [s] *)
| Star (p : ascii -> bool)       (* [p*] *)
| Plus (p : ascii -> bool)       (* [p+] *)
| Opt (p : ascii -> bool)        (* [p?] *)
| GOpen                          (* [(] *)
| GClose.                        (* [)] *)

(** Length of the longest prefix of [s] made of [p]. *)
Fixpoint run_length (p : ascii -> bool) (s : string) : nat :=
  match s with
  | String c s' => if p c then S (run_length p s') else O
  | EmptyString => O
  end.

(** The first success of [k] on [n], [n - 1], ..., [lo] characters
    taken: the greedy choice first. *)
Fixpoint first_down {A : Type} (k : nat -> option A) (lo n : nat) : option A :=
  match k n with
  | Some r => Some r
  | None =>
      match n with
      | O => None
      | S n' => if (lo <=? n')%nat then first_down k lo n' else None
      end
  end.

(** [re.match]: the groups of the first match of [items] at the start of
    [s].  [opens] holds the text left at each open group. *)
Fixpoint exec (items : list item) (s : string) (opens : list string)
    (groups : list string) : option (list string) :=
  match items with
  | [] => Some (reverse groups)
  | Lit t :: items' =>
      if PyStr.startswith t s
      then exec items' (PyStr.drop (String.length t) s) opens groups
      else None
  | Star p :: items' =>
      first_down (fun n => exec items' (PyStr.drop n s) opens groups) 0 (run_length p s)
  | Plus p :: items' =>
      match run_length p s with
      | O => None
      | S n => first_down (fun n => exec items' (PyStr.drop n s) opens groups) 1 (S n)
      end
  | Opt p :: items' =>
      first_down (fun n => exec items' (PyStr.drop n s) opens groups) 0
        (Nat.min 1 (run_length p s))
  | GOpen :: items' => exec items' s (s :: opens) groups
  | GClose :: items' =>
      match opens with
      | o :: opens' =>
          exec items' s opens'
            (PyStr.take (String.length o - String.length s) o :: groups)
      | [] => None
      end
  end.

Definition match_ (pattern : list item) (s : string) : option (list string) :=
  exec pattern s [] [].

End Re.

Module Co2.

(** [[+-]] and [[0-9.eE+ -]] *)
Definition sign_class (c : ascii) : bool :=
  Ascii.eqb c "+" || Ascii.eqb c "-".

Definition number_class (c : ascii) : bool :=
  PyStr.isdigit c || Ascii.eqb c "." || Ascii.eqb c "e" || Ascii.eqb c "E"
  || Ascii.eqb c "+" || Ascii.eqb c " " || Ascii.eqb c "-".

(** [Plant\.Absorber\.Stage\((\d+)\)<suffix>\s*:\s*([+-]?[0-9.eE+ -]+)] *)
Definition stage_pattern (suffix : string) : list Re.item :=
  [ Re.Lit "Plant.Absorber.Stage("; Re.GOpen; Re.Plus PyStr.isdigit; Re.GClose;
    Re.Lit ")"; Re.Lit suffix;
    Re.Star PyStr.isspace; Re.Lit ":"; Re.Star PyStr.isspace;
    Re.GOpen; Re.Opt sign_class; Re.Plus number_class; Re.GClose ].

Definition REQUIRED_VARIABLES : list (string * list Re.item) :=
  [ ("pressure", stage_pattern ".trans_prop.stg_pressure");
    ("co2_mole_frac",
      stage_pattern (".trans_prop.mole_frac_vap(" ++ Out.dquote ++ "CO2" ++ Out.dquote ++ ")"));
    ("loading_co2", stage_pattern ".trans_prop.loading_CO2") ].

(** [int(s)] for a string of digits *)
Definition int_of_digits (s : string) : Z := (Float.span_digits s 0 0).1.1.

(** The body of [for var_name, pattern in patterns.items()]. *)
Definition match_variable (line : string)
    (acc : gmap Z (gmap string float) * list string)
    (vp : string * list Re.item) : gmap Z (gmap string float) * list string :=
  let '(stage_data, out) := acc in
  let '(var_name, pattern) := vp in
  match Re.match_ pattern line with
  | Some [g1; g2] =>
      let stage_num := int_of_digits g1 in
      let value_str := PyStr.remove_char " " (PyStr.strip g2) in
      match Float.of_string value_str with
      | Some value =>
          let stage_data :=
            match stage_data !! stage_num with
            | None => <[stage_num := ∅]> stage_data
            | Some _ => stage_data
            end in
          (<[stage_num := <[var_name := value]> (default ∅ (stage_data !! stage_num))]>
             stage_data, out)
      | None =>
          (stage_data,
           Py.append out ("Warning: Could not parse value '" ++ value_str
                          ++ "' for Stage(" ++ Out.str_int stage_num ++ ") " ++ var_name))
      end
  | _ => acc
  end.

(** The body of [for line in fh], with the line count. *)
Definition read_line (acc : gmap Z (gmap string float) * list string * Z)
    (line : string) : gmap Z (gmap string float) * list string * Z :=
  let '(stage_data, out, line_count) := acc in
  let line_count := line_count + 1 in
  let out :=
    if line_count mod 10000 =? 0
    then Py.append out ("  Processed " ++ Out.str_int line_count ++ " lines...")
    else out in
  let line := PyStr.strip line in
  if negb (Py.nonempty line) || PyStr.startswith "#" line
  then (stage_data, out, line_count)
  else
    let '(stage_data, out) :=
      fold_left (match_variable line) REQUIRED_VARIABLES (stage_data, out) in
    (stage_data, out, line_count).

(** [extract_stage_data(file_path)]: the dictionary of the stages and
    the lines printed. *)
Definition extract_stage_data (file_path : string) (file : option (list string))
    : gmap Z (gmap string float) * list string :=
  match file with
  | None => (∅, ["ERROR: File not found: " ++ file_path])
  | Some lines =>
      let '(stage_data, out, _) :=
        fold_left read_line lines (∅, ["Reading from: " ++ file_path], 0) in
      (stage_data,
       Py.append out ("Extraction complete. Found data for "
                      ++ Out.str_nat (size stage_data) ++ " stages."))
  end.

End Co2.

(** * Notions used in the statements *)

(** The line of the specification, and the same record with the
    [trans_prop] component that the patterns of the script require. *)
Definition spec_line : string :=
  "Plant.Absorber.Stage(3).loading_CO2 : 0.245 : 0 : 1 : Notype : mol/mol".

Definition trans_prop_line : string :=
  "Plant.Absorber.Stage(3).trans_prop.loading_CO2 : 0.245 : 0 : 1 : Notype : mol/mol".

(** "not after" for a sort by [key] under [lt]: [x] may stand before [y]. *)
Definition not_after {A K : Type} (lt : K -> K -> bool) (key : A -> K)
    (x y : A) : Prop :=
  lt (key y) (key x) = false.

Definition zero_counts : App.counts :=
  {| App.only_in_1 := 0; App.only_in_2 := 0;
     App.equal_within_tol := 0; App.different := 0 |}.

(** The row the loop body of [compare_dicts] builds for the key [k]. *)
Definition row_of (d1 d2 : gmap string App.var_info) (abs_tol rel_tol : float)
    (k : string) : option App.row :=
  fst <$> App.compare_key d1 d2 abs_tol rel_tol k zero_counts.

(** A string that does not start with a character of the class [p]. *)
Definition clean_head (p : ascii -> bool) (s : string) : Prop :=
  match s with
  | EmptyString => True
  | String c _ => p c = false
  end.

(** Two small files for the comparator. *)
Definition left_lines : list string :=
  [ "x,0.245,0,1,Notype,mol/mol"; "y,0,0,1,Notype,-"; "z(1,4),inf,,,," ; "w,1.5" ].

Definition right_lines : list string :=
  [ "x,0.2450000001,0,1,Notype,mol/mol"; "y,-0.0,0,1,Notype,-"; "z(1,4),Infinity,,,,";
    "w,1.5" ].

Definition zero_left : list string := [ "z,0,0,1,Notype,-" ].
Definition zero_right : list string := [ "z,-0,0,1,Notype,-" ].
Definition negative_abs_tol : float := Eval vm_compute in Float.lit "-1".
Definition negative_rel_tol : float := Eval vm_compute in Float.lit "-1e-9".

(** An entry whose numeric value, if any, is finite. *)
Definition finite_value (a : App.var_info) : Prop :=
  forall n, App.value_num a = Some n -> Float.isfinite n = true.


(** A raw token that [float] reads as an infinity or a NaN. *)
Definition nonfinite_token (s : string) : Prop :=
  exists x, Float.of_string s = Some x /\ Float.isfinite x = false.

(** A run file with a value token that is no number. *)
Definition bad_value_lines : list string :=
  [ "P.a : 1.5 : 0 : 1 : Notype : -"; "P.x : NaNish : 0 : 1 : Notype : -";
    "P.b : 2 : 0 : 1 : Notype : -" ].

(** The same records as a CSV file of app.py. *)
Definition bad_value_csv : list string :=
  [ "P.a,1.5,0,1,Notype,-"; "P.x,NaNish,0,1,Notype,-"; "P.b,2,0,1,Notype,-" ].

(** ** Notions for the flowsheet comparison of test.py *)

(** The percentage difference of two values. *)
Definition pct_of (x1 x2 : float) : float :=
  if Float.ltb (Float.abs x2) TestPy.small then
    if Float.neb (Float.sub x1 x2) Float.zero then Float.inf else Float.zero
  else Float.mul (SFdiv Float.prec Float.emax (Float.sub x1 x2) x2) TestPy.hundred.

(** The item of [comps] for a name and its two values. *)
Definition comp_of (name : string) (v1 v2 : option float) (note : string)
    : TestPy.comp :=
  {| TestPy.name := name; TestPy.v1 := v1; TestPy.v2 := v2;
     TestPy.abs_diff :=
       match v1, v2 with
       | Some x1, Some x2 => Some (Float.sub x1 x2)
       | _, _ => None
       end;
     TestPy.pct_diff :=
       match v1, v2 with
       | Some x1, Some x2 => Some (pct_of x1 x2)
       | _, _ => None
       end;
     TestPy.note := note |}.

(** [list(s)] of a set lists each member once, in some order. *)
Definition lists_set (list_of_set : list string -> list string) : Prop :=
  forall l, list_of_set l ≡ₚ remove_dups l.

(** The absorbent keys of a dictionary, in its order. *)
Definition absorbent_keys (d : PyDict.dict float) : list string :=
  filter (fun k => TestPy.is_absorbent_key k = true) (PyDict.keys d).

(** [comps] has one row for the sum: it is named [o], holds [x1] and
    [x2] and their difference, carries [note], and no other row is named
    [o], [k0] or [k1]. *)
Definition sum_row (comps : list TestPy.comp) (o k0 k1 : string)
    (x1 x2 : float) (note : string) : Prop :=
  exists row,
    row ∈ comps
    /\ TestPy.name row = o
    /\ TestPy.v1 row = Some x1 /\ TestPy.v2 row = Some x2
    /\ TestPy.abs_diff row = Some (Float.sub x1 x2)
    /\ TestPy.pct_diff row = Some (pct_of x1 x2)
    /\ TestPy.note row = note
    /\ forall r, r ∈ comps ->
                 TestPy.name r = o \/ TestPy.name r = k0 \/ TestPy.name r = k1 ->
                 r = row.

(** The dictionaries of the example of the specification, and the same
    with keys that the rule of the script matches. *)
Definition spec_left : PyDict.dict float :=
  [ ("A(1)", S754_finite false 4503599627370496 (-51));    (* 2.0 *)
    ("A(2)", S754_finite false 6755399441055744 (-51)) ].  (* 3.0 *)

Definition spec_right : PyDict.dict float :=
  [ ("A", S754_finite false 5629499534213120 (-50)) ].     (* 5.0 *)

Definition absorbent_left : PyDict.dict float :=
  [ ("ABSORBENT_1", S754_finite false 4503599627370496 (-51));
    ("ABSORBENT_2", S754_finite false 6755399441055744 (-51)) ].

Definition absorbent_right : PyDict.dict float :=
  [ ("ABSORBENT", S754_finite false 5629499534213120 (-50)) ].

Definition note_sum_left : string := "sum of two absorbents in file1 vs single in file2".
Definition note_sum_right : string := "single in file1 vs sum of two absorbents in file2".

(** The rows of the entries of [pre_map], and the rows of the keys that
    are not consumed. *)
Definition pre_rows (pre_map : PyDict.dict TestPy.entry) : list TestPy.comp :=
  (fun e : string * TestPy.entry => comp_of e.1 e.2.1.1 e.2.1.2 e.2.2) <$> pre_map.

Definition plain_rows (d1 d2 : PyDict.dict float) (consumed1 consumed2 keys : list string)
    : list TestPy.comp :=
  omap (fun k => if PyDict.mem k consumed1 || PyDict.mem k consumed2 then None
                 else Some (comp_of k (PyDict.get d1 k) (PyDict.get d2 k) EmptyString))
       keys.

(** What [match_and_sum_absorbents] returns: nothing, or the one entry of
    the sum and the three keys consumed, from either side. *)
Definition nothing_summed (pre_map : PyDict.dict TestPy.entry)
    (consumed1 consumed2 : list string) : Prop :=
  pre_map = [] /\ consumed1 = [] /\ consumed2 = [].

Definition left_summed (d1 d2 : PyDict.dict float) (pre_map : PyDict.dict TestPy.entry)
    (consumed1 consumed2 : list string) : Prop :=
  exists k0 k1 o x0 x1 y,
    absorbent_keys d1 = [k0; k1] /\ absorbent_keys d2 = [o]
    /\ PyDict.get d1 k0 = Some x0 /\ PyDict.get d1 k1 = Some x1
    /\ PyDict.get d2 o = Some y
    /\ TestPy.isclose (Float.add x0 x1) y TestPy.rel_tol_isclose TestPy.default_tol
       = Some true
    /\ pre_map = [(o, (Some (Float.add x0 x1), Some y, note_sum_left))]
    /\ consumed1 = [k0; k1] /\ consumed2 = [o].

Definition right_summed (d1 d2 : PyDict.dict float) (pre_map : PyDict.dict TestPy.entry)
    (consumed1 consumed2 : list string) : Prop :=
  exists k0 k1 o x0 x1 y,
    absorbent_keys d2 = [k0; k1] /\ absorbent_keys d1 = [o]
    /\ PyDict.get d2 k0 = Some x0 /\ PyDict.get d2 k1 = Some x1
    /\ PyDict.get d1 o = Some y
    /\ TestPy.isclose (Float.add x0 x1) y TestPy.rel_tol_isclose TestPy.default_tol
       = Some true
    /\ pre_map = [(o, (Some y, Some (Float.add x0 x1), note_sum_right))]
    /\ consumed1 = [o] /\ consumed2 = [k0; k1].

(** ** Notions for the order of the reconstructed file *)

(** [u] has a rank not above that of [v] in the order list. *)
Definition rank_le (order_list : list string) (u v : Concat.variable) : Prop :=
  exists i j,
    Concat.order_map order_list !! Concat.path u = Some i
    /\ Concat.order_map order_list !! Concat.path v = Some j
    /\ (i <= j)%nat.

(** The path of [u] is not after that of [v] in the order of strings. *)
Definition path_le (u v : Concat.variable) : Prop :=
  PyStr.ltb (Concat.path v) (Concat.path u) = false.

(** An order file and variables for it. *)
Definition order_lines : list string :=
  [ "# PathName : Value"; "b.x : 1 : 2"; "a.y : 3"; "junk"; "b.x : 9" ].

Definition var_of (p x un : string) : Concat.variable :=
  {| Concat.path := p; Concat.value := x; Concat.lower_bound := "-1e20";
     Concat.upper_bound := "1e20"; Concat.type := "Notype"; Concat.units := un |}.

Definition some_variables : list Concat.variable :=
  [ var_of "z" "1" ""; var_of "a.y" "0" "m"; var_of "b" "-0.0" " ";
    var_of "b.x" "2.5" "u"; var_of "A" "7" "" ].

(** An order file that lists the paths alone, one on each line. *)
Definition plain_order_lines : list string := [ "b.x"; "a.y" ].

(** ** Rational values *)

(** The fraction [n / d] as a rational number. *)
Definition frac (n d : Z) : Q := (inject_Z n / inject_Z d)%Q.

(** [y] is [x] within the relative error [eps]. *)
Definition rel_err_le (eps : Q) (x y : Q) : Prop :=
  (Qabs (y - x) <= eps * Qabs x)%Q.

(** Every character of [s] satisfies [P]. *)
Fixpoint all_chars (P : ascii -> bool) (s : string) : bool :=
  match s with
  | EmptyString => true
  | String c s' => P c && all_chars P s'
  end.

(** The characters of a number in the [e] format. *)
Definition plain_char (c : ascii) : bool :=
  PyStr.isdigit c || Ascii.eqb c "-" || Ascii.eqb c "+" || Ascii.eqb c "."
  || Ascii.eqb c "e".

(** [y] is what [x] comes back as: a finite value within the relative
    error [1e-15], an infinity or the NaN as itself. *)
Definition round_trip_close (x y : float) : Prop :=
  match x with
  | S754_nan => y = S754_nan
  | S754_infinity s => y = S754_infinity s
  | _ => Float.isfinite y = true /\ rel_err_le 1e-15 (Float.to_Q x) (Float.to_Q y)
  end.

(** ** Notions for the further properties *)

(** The number of rows of [diffs] with the status [s]. *)
Definition count_rows (s : string) (diffs : list App.row) : nat :=
  length (filter (fun r => App.status r = s) diffs).

(** The path of [r] is before that of [r'] in the order of strings. *)
Definition path_lt (r r' : App.row) : Prop :=
  PyStr.ltb (App.variable r) (App.variable r') = true.

(** [u] is not after [v] in the order of the hierarchy: fewer
    components in its path, or as many and the components not after
    those of [v] as tuples of strings. *)
Definition hierarchy_le (u v : Concat.variable) : Prop :=
  let pu := PyStr.split_char "." (Concat.path u) in
  let pv := PyStr.split_char "." (Concat.path v) in
  (length pu < length pv)%nat
  \/ (length pu = length pv /\ Concat.tuple_ltb pv pu = false).

(** A record line whose path starts with [p] and whose value token is a
    number. *)
Definition good_match (p : string) (line : string) : Prop :=
  exists k tok x,
    Analyse.record_fields line = Some (k, tok)
    /\ PyStr.startswith p k = true
    /\ Float.of_string tok = Some x.

(** The names under which the stage extractor stores values. *)
Definition variable_names : list string := Co2.REQUIRED_VARIABLES.*1.

(** Every stage of [stage_data] has a number that is not negative and a
    dictionary that is not empty and has keys among [variable_names]
    only. *)
Definition stages_well_formed (stage_data : gmap Z (gmap string float)) : Prop :=
  forall stage variables,
    stage_data !! stage = Some variables ->
    0 <= stage
    /\ variables <> ∅
    /\ forall name, is_Some (variables !! name) -> name ∈ variable_names.

(** The last line of [lines] that holds a record of [name] holds the
    value [v]. *)
Definition last_record (lines : list string) (name : string) (v : float) : Prop :=
  exists pre line post,
    lines = (pre ++ line :: post)%list
    /\ TestPy.flowsheet_record line = Some (name, v)
    /\ forall l v', l ∈ post -> TestPy.flowsheet_record l <> Some (name, v').

(** A float that is no NaN, as a triple of integers whose lexicographic
    order is the order of the floats: the class (infinities, negative,
    zero, positive), then the exponent and the significand. *)
Definition float_rank (x : float) : Z * Z * Z :=
  match x with
  | S754_zero _ => (0, 0, 0)
  | S754_infinity s => (if s then -2 else 2, 0, 0)
  | S754_nan => (3, 0, 0)
  | S754_finite s m e => if s then (-1, - e, - Zpos m) else (1, e, Zpos m)
  end.

Definition rank_lt (a b : Z * Z * Z) : Prop :=
  a.1.1 < b.1.1
  \/ (a.1.1 = b.1.1 /\ (a.1.2 < b.1.2 \/ (a.1.2 = b.1.2 /\ a.2 < b.2))).

(** The row [a] may stand before the row [b] in the list that
    [build_comparisons] returns: the sort key of [a] is not below that
    of [b]. *)
Definition key_ge (a b : TestPy.comp) : Prop :=
  Float.ltb (TestPy.sort_key a) (TestPy.sort_key b) = false.

(** A finite float in the form the conversions produce: a significand
    below [2 ^ 53] that is at least [2 ^ 52] unless the exponent is the
    least one, and an exponent from -1074 to 971. *)
Definition canonical (m : positive) (e : Z) : Prop :=
  (Zpos m < 2 ^ 53)%Z /\ (-1074 <= e <= 971)%Z
  /\ (e = (-1074)%Z \/ (2 ^ 52 <= Zpos m)%Z).

(** What a float is read back as: itself, but for the zero, whose sign
    is not written. *)
Definition written_back (x : float) : float :=
  match x with
  | S754_zero _ => S754_zero false
  | _ => x
  end.

(** A character other than [c]. *)
Definition other_than (c : ascii) (x : ascii) : bool := negb (Ascii.eqb x c).

(** The string [s] does not hold the character [c]. *)
Definition free_of (c : ascii) (s : string) : Prop :=
  all_chars (other_than c) s = true.

(** A path that a line of the reconstructed file gives back when the
    file is used as the order file: no colon in it, no blank at its
    ends, not empty, and no [#] or [!] at its start. *)
Definition order_path (p : string) : Prop :=
  free_of ":" p /\ PyStr.strip p = p /\ p <> ""
  /\ PyStr.startswith "#" p = false /\ PyStr.startswith "!" p = false.

(** The string [s] holds no line break. *)
Definition one_line (s : string) : Prop :=
  all_chars (fun c => negb (PyFile.line_break c)) s = true.

(** The six fields of a variable. *)
Definition fields (var : Concat.variable) : list string :=
  [ Concat.path var; Concat.value var; Concat.lower_bound var;
    Concat.upper_bound var; Concat.type var; Concat.units var ].

(** A row and the counts with the two files exchanged. *)
Definition swap_status (s : string) : string :=
  if String.eqb s "only_in_1" then "only_in_2"
  else if String.eqb s "only_in_2" then "only_in_1" else s.

Definition swap_row (r : App.row) : App.row :=
  {| App.variable := App.variable r; App.status := swap_status (App.status r);
     App.value1 := App.value2 r; App.value2 := App.value1 r;
     App.abs_diff := App.abs_diff r; App.rel_diff := App.rel_diff r;
     App.in_tolerance := App.in_tolerance r;
     App.type1 := App.type2 r; App.type2 := App.type1 r;
     App.units1 := App.units2 r; App.units2 := App.units1 r |}.

Definition swap_counts (c : App.counts) : App.counts :=
  {| App.only_in_1 := App.only_in_2 c; App.only_in_2 := App.only_in_1 c;
     App.equal_within_tol := App.equal_within_tol c;
     App.different := App.different c |}.

Definition swap_result (res : list App.row * App.counts) : list App.row * App.counts :=
  (swap_row <$> res.1, swap_counts res.2).

(** * Properties *)

(** ** The stage extractor on the lines of the specification *)

(** C6, as stated, fails: no pattern of [REQUIRED_VARIABLES] matches the
    line ["Plant.Absorber.Stage(3).loading_CO2 : 0.245 : ..."], so the
    extractor returns no stage at all and prints no warning. *)
Lemma spec_line_not_extracted :
  Co2.extract_stage_data "run.txt" (Some [spec_line])
  = (∅, ["Reading from: run.txt"; "Extraction complete. Found data for 0 stages."]).
Proof. vm_compute. reflexivity. Qed.

(** C6, amended: for the line
    ["Plant.Absorber.Stage(3).trans_prop.loading_CO2 : 0.245 : 0 : 1 : Notype : mol/mol"]
    the extractor produces exactly the stage key 3, holding under
    [loading_co2] the float that [float("0.245")] gives. *)
Theorem trans_prop_line_extracted (file_path : string) :
  (Co2.extract_stage_data file_path (Some [trans_prop_line])).1
  = {[ 3 := {[ "loading_co2" := S754_finite false 8827055269646172 (-55) ]} ]}
  /\ Float.of_string "0.245" = Some (S754_finite false 8827055269646172 (-55)).
Proof. split; vm_compute; reflexivity. Qed.

(** ** The stable sort *)

Section SortFacts.

Context {A K : Type} (lt : K -> K -> bool) (key : A -> K).

Local Abbreviation not_after := (not_after lt key).

Lemma insort_perm (x : A) (l : list A) : Py.insort lt key x l ≡ₚ x :: l.
Proof.
  induction l as [|y l IH]; simpl; [done|].
  destruct (lt (key y) (key x)); [|done].
  rewrite IH. apply Permutation_swap.
Qed.

Lemma sorted_perm (l : list A) : Py.sorted lt key l ≡ₚ l.
Proof.
  induction l as [|x l IH]; simpl; [done|].
  unfold Py.sorted in *. simpl. by rewrite insort_perm, IH.
Qed.

Hypothesis lt_asym : forall a b, lt a b = true -> lt b a = false.

Lemma insort_HdRel (z x : A) (l : list A) :
  not_after z x -> HdRel not_after z l -> HdRel not_after z (Py.insort lt key x l).
Proof.
  intros Hzx Hl. destruct l as [|y l]; simpl.
  - by constructor.
  - destruct (lt (key y) (key x)); constructor; [|done].
    by inversion Hl.
Qed.

Lemma insort_Sorted (x : A) (l : list A) :
  Sorted not_after l -> Sorted not_after (Py.insort lt key x l).
Proof.
  induction 1 as [|y l Hs IH Hhd]; simpl.
  - by repeat constructor.
  - destruct (lt (key y) (key x)) eqn:E.
    + constructor; [done|]. apply insort_HdRel; [|done].
      unfold not_after. by apply lt_asym.
    + constructor; [by constructor|]. by constructor.
Qed.

Lemma sorted_Sorted (l : list A) : Sorted not_after (Py.sorted lt key l).
Proof.
  induction l as [|x l IH]; [constructor|].
  unfold Py.sorted in *. simpl. by apply insort_Sorted.
Qed.

Hypothesis not_after_trans : forall x y z : A,
  not_after x y -> not_after y z -> not_after x z.

Lemma sorted_StronglySorted (l : list A) :
  StronglySorted not_after (Py.sorted lt key l).
Proof.
  apply Sorted_StronglySorted; [|apply sorted_Sorted].
  intros x y z. apply not_after_trans.
Qed.

End SortFacts.

(** ** The order of strings *)

Section StringOrder.

Lemma ascii_compare_refl (a : ascii) : Ascii.compare a a = Eq.
Proof. unfold Ascii.compare. apply N.compare_refl. Qed.

Lemma ascii_compare_lt_trans (a b c : ascii) :
  Ascii.compare a b = Lt -> Ascii.compare b c = Lt -> Ascii.compare a c = Lt.
Proof.
  unfold Ascii.compare. rewrite !N.compare_lt_iff. apply N.lt_trans.
Qed.

Lemma string_compare_refl (s : string) : String.compare s s = Eq.
Proof.
  induction s as [|a s IH]; simpl; [done|]. by rewrite ascii_compare_refl.
Qed.

Lemma string_compare_lt_trans (s t u : string) :
  String.compare s t = Lt -> String.compare t u = Lt -> String.compare s u = Lt.
Proof.
  revert t u. induction s as [|a s IH]; intros [|b t] [|c u]; simpl; try done.
  destruct (Ascii.compare a b) eqn:Hab; try done.
  - apply Ascii.compare_eq_iff in Hab as ->.
    destruct (Ascii.compare b c) eqn:Hbc; try done. apply IH.
  - intros _. destruct (Ascii.compare b c) eqn:Hbc; try done.
    + apply Ascii.compare_eq_iff in Hbc as <-. by rewrite Hab.
    + by rewrite (ascii_compare_lt_trans a b c).
Qed.

Lemma str_ltb_irrefl (s : string) : PyStr.ltb s s = false.
Proof. unfold PyStr.ltb. by rewrite string_compare_refl. Qed.

Lemma str_ltb_asym (s t : string) : PyStr.ltb s t = true -> PyStr.ltb t s = false.
Proof.
  unfold PyStr.ltb. rewrite (String.compare_antisym t s).
  by destruct (String.compare s t).
Qed.

Lemma str_ltb_trans (s t u : string) :
  PyStr.ltb s t = true -> PyStr.ltb t u = true -> PyStr.ltb s u = true.
Proof.
  unfold PyStr.ltb. intros Hst Htu.
  destruct (String.compare s t) eqn:E1; try done.
  destruct (String.compare t u) eqn:E2; try done.
  by rewrite (string_compare_lt_trans s t u).
Qed.

(** [<] is total on distinct strings. *)
Lemma str_ltb_total (s t : string) :
  PyStr.ltb s t = false -> PyStr.ltb t s = false -> s = t.
Proof.
  unfold PyStr.ltb. rewrite (String.compare_antisym t s).
  destruct (String.compare s t) eqn:E; try done.
  intros _ _. by apply String.compare_eq_iff.
Qed.

(** "not after" on strings is transitive. *)
Lemma str_not_after_trans (s t u : string) :
  PyStr.ltb t s = false -> PyStr.ltb u t = false -> PyStr.ltb u s = false.
Proof.
  intros Hts Hut. destruct (PyStr.ltb u s) eqn:Hus; [|done].
  destruct (PyStr.ltb s t) eqn:Hst.
  - by rewrite (str_ltb_trans u s t) in Hut.
  - rewrite (str_ltb_total s t) in Hus by done. congruence.
Qed.

End StringOrder.

(** ** Floats *)

Section FloatFacts.

(** The divisor of the relative difference is never zero. *)
Lemma max3_tiny_nonzero (a b : float) :
  Float.eqb (Float.max3 a b App.tiny) Float.zero = false.
Proof.
  unfold Float.max3. generalize (Float.max2 a b). intros m.
  unfold Float.max2, Float.gtb. destruct (SFltb m App.tiny) eqn:E; [done|].
  destruct m as [s|s| |s p e]; try done; by destruct s.
Qed.

Lemma truediv_tiny_defined (x a b : float) :
  Float.truediv x (Float.max3 a b App.tiny)
  = Some (SFdiv Float.prec Float.emax x (Float.max3 a b App.tiny)).
Proof. unfold Float.truediv. by rewrite max3_tiny_nonzero. Qed.

(** It is strictly positive when no operand is a NaN. *)
Lemma max3_abs_tiny_pos (n1 n2 : float) :
  Float.isnan n1 = false -> Float.isnan n2 = false ->
  Float.ltb Float.zero (Float.max3 (Float.abs n1) (Float.abs n2) App.tiny) = true.
Proof.
  intros H1 H2. unfold Float.max3.
  assert (Hm : Float.isnan (Float.max2 (Float.abs n1) (Float.abs n2)) = false).
  { unfold Float.max2. destruct (Float.gtb _ _);
      [by destruct n2|by destruct n1]. }
  revert Hm. generalize (Float.max2 (Float.abs n1) (Float.abs n2)). intros m Hm.
  unfold Float.max2, Float.gtb. destruct (SFltb m App.tiny) eqn:E; [done|].
  destruct m as [s|s| |s p e]; try done; by destruct s.
Qed.

(** [x - y] is [+0] for equal finite operands. *)
Lemma sub_diag (x : float) :
  Float.isfinite x = true -> Float.sub x x = Float.zero.
Proof.
  destruct x as [s|s| |s m e]; try done; intros _.
  - by destruct s.
  - unfold Float.sub, SFsub. rewrite Z.min_id.
    unfold shl_align. rewrite !Z.sub_diag. done.
Qed.



(** [0 / d] is [+0] for a positive [d]. *)
Lemma div_zero_pos (d : float) :
  Float.ltb Float.zero d = true -> SFdiv Float.prec Float.emax Float.zero d = Float.zero.
Proof. destruct d as [s|s| |s m e]; try done; by destruct s. Qed.

End FloatFacts.

(** ** The comparator of app.py: one row per key *)

Section CompareFacts.

Context (d1 d2 : gmap string App.var_info) (abs_tol rel_tol : float).

Local Abbreviation row_of := (row_of d1 d2 abs_tol rel_tol).

Lemma compare_key_row (k : string) (c : App.counts) :
  fst <$> App.compare_key d1 d2 abs_tol rel_tol k c = row_of k.
Proof.
  unfold row_of, App.compare_key.
  destruct (d1 !! k) as [a|], (d2 !! k) as [b|]; try done.
  destruct (App.value_num a) as [n1|], (App.value_num b) as [n2|]; try done.
  by rewrite truediv_tiny_defined.
Qed.

Lemma compare_key_total (k : string) (c : App.counts) :
  k ∈ dom d1 ∪ dom d2 -> is_Some (App.compare_key d1 d2 abs_tol rel_tol k c).
Proof.
  rewrite elem_of_union, !elem_of_dom. intros Hk. unfold App.compare_key.
  destruct (d1 !! k) as [a|], (d2 !! k) as [b|]; try done.
  - destruct (App.value_num a) as [n1|], (App.value_num b) as [n2|]; try done.
    by rewrite truediv_tiny_defined.
  - by destruct Hk as [[? ?]|[? ?]].
Qed.

Lemma row_of_variable (k : string) (r : App.row) :
  row_of k = Some r -> App.variable r = k.
Proof.
  unfold row_of, App.compare_key.
  destruct (d1 !! k) as [a|], (d2 !! k) as [b|]; try done.
  - destruct (App.value_num a) as [n1|], (App.value_num b) as [n2|];
      rewrite ?truediv_tiny_defined; simpl; by intros [= <-].
  - simpl. by intros [= <-].
  - simpl. by intros [= <-].
Qed.

Lemma compare_loop_rows (keys : list string) (c : App.counts) :
  (forall k, k ∈ keys -> k ∈ dom d1 ∪ dom d2) ->
  exists diffs c',
    App.compare_loop d1 d2 abs_tol rel_tol keys c = Some (diffs, c')
    /\ Forall2 (fun k r => row_of k = Some r) keys diffs.
Proof.
  revert c. induction keys as [|k keys IH]; intros c Hin; simpl.
  - exists [], c. split; [done|constructor].
  - destruct (compare_key_total k c) as [[r c1] Hk].
    { apply Hin. by left. }
    rewrite Hk.
    destruct (IH c1) as (diffs & c2 & -> & Hall).
    { intros k' Hk'. apply Hin. by right. }
    exists (r :: diffs), c2. split; [done|].
    constructor; [|done]. rewrite <- (compare_key_row k c). by rewrite Hk.
Qed.

Lemma sorted_keys_perm : App.sorted_keys d1 d2 ≡ₚ elements (dom d1 ∪ dom d2).
Proof. apply sorted_perm. Qed.

Lemma sorted_keys_elem (k : string) :
  k ∈ App.sorted_keys d1 d2 <-> k ∈ dom d1 ∪ dom d2.
Proof. by rewrite sorted_keys_perm, elem_of_elements. Qed.

Lemma sorted_keys_NoDup : NoDup (App.sorted_keys d1 d2).
Proof. rewrite sorted_keys_perm. apply NoDup_elements. Qed.

(** [compare_dicts] never raises, and its rows are the rows of the keys
    of the union in sorted order. *)
Lemma compare_dicts_rows :
  exists diffs c,
    App.compare_dicts d1 d2 abs_tol rel_tol = Some (diffs, c)
    /\ Forall2 (fun k r => row_of k = Some r) (App.sorted_keys d1 d2) diffs.
Proof.
  unfold App.compare_dicts. apply compare_loop_rows.
  intros k. by rewrite sorted_keys_elem.
Qed.

Lemma rows_variables (keys : list string) (diffs : list App.row) :
  Forall2 (fun k r => row_of k = Some r) keys diffs ->
  App.variable <$> diffs = keys.
Proof.
  induction 1 as [|k r keys diffs Hk _ IH]; [done|].
  rewrite fmap_cons, IH. by rewrite (row_of_variable k r).
Qed.

(** The one row of a key of the union. *)
Lemma compare_dicts_row (k : string) :
  k ∈ dom d1 ∪ dom d2 ->
  exists diffs c r,
    App.compare_dicts d1 d2 abs_tol rel_tol = Some (diffs, c)
    /\ row_of k = Some r
    /\ r ∈ diffs
    /\ (forall r', r' ∈ diffs -> App.variable r' = k -> r' = r).
Proof.
  intros Hk. destruct compare_dicts_rows as (diffs & c & Hc & Hall).
  apply sorted_keys_elem in Hk.
  apply list_elem_of_lookup in Hk as [i Hi].
  destruct (Forall2_lookup_l _ _ _ _ _ Hall Hi) as (r & Hr & Hrow).
  exists diffs, c, r. repeat split; try done.
  - by apply list_elem_of_lookup_2 in Hr.
  - intros r' Hr' Hv. apply list_elem_of_lookup in Hr' as [j Hj].
    destruct (Forall2_lookup_r _ _ _ _ _ Hall Hj) as (k' & Hk' & Hrow').
    apply row_of_variable in Hrow' as Hv'. rewrite Hv in Hv'. subst k'.
    congruence.
Qed.

End CompareFacts.

(** ** [strip] *)

Section StripFacts.

Context (p : ascii -> bool).

Lemma rstrip_by_idemp (s : string) :
  PyStr.rstrip_by p (PyStr.rstrip_by p s) = PyStr.rstrip_by p s.
Proof.
  induction s as [|c s IH]; simpl; [done|].
  destruct (PyStr.rstrip_by p s) as [|c' r] eqn:E.
  - destruct (p c) eqn:Hc; simpl; [done|]. by rewrite Hc.
  - simpl in *. by rewrite IH.
Qed.

Local Abbreviation clean_head := (clean_head p).

Lemma lstrip_by_clean (s : string) : clean_head (PyStr.lstrip_by p s).
Proof.
  induction s as [|c s IH]; simpl; [done|].
  destruct (p c) eqn:Hc; [done|]. simpl. done.
Qed.

Lemma rstrip_by_clean (s : string) :
  clean_head s -> clean_head (PyStr.rstrip_by p s).
Proof.
  destruct s as [|c s]; simpl; [done|]. intros Hc.
  destruct (PyStr.rstrip_by p s); [by rewrite Hc|done].
Qed.

Lemma lstrip_by_id (s : string) : clean_head s -> PyStr.lstrip_by p s = s.
Proof. destruct s as [|c s]; simpl; [done|]. by intros ->. Qed.

Lemma strip_by_idemp (s : string) :
  PyStr.strip_by p (PyStr.strip_by p s) = PyStr.strip_by p s.
Proof.
  unfold PyStr.strip_by.
  rewrite (lstrip_by_id (PyStr.rstrip_by p (PyStr.lstrip_by p s))).
  - apply rstrip_by_idemp.
  - apply rstrip_by_clean, lstrip_by_clean.
Qed.

End StripFacts.

Lemma strip_idemp (s : string) : PyStr.strip (PyStr.strip s) = PyStr.strip s.
Proof. apply strip_by_idemp. Qed.

(** ** The CSV parser of app.py *)

Section ParserFacts.

(** The record of a line: its number is the right type for the data
    model, its raw token is stripped, and its numeric value is that of
    the raw token. *)
Lemma regular_fields_stripped (line name val_str lo up ty un : string) :
  App.regular_fields line = Some (name, val_str, lo, up, ty, un) ->
  PyStr.strip val_str = val_str.
Proof.
  unfold App.regular_fields. destruct (_ <? _)%nat; [done|].
  destruct (Py.pad 6 _) as [|x0 [|x1 [|x2 [|x3 [|x4 [|x5 [|x6 l]]]]]]]; try done.
  simpl. intros [= <- <- <- <- <- <-]. apply strip_idemp.
Qed.

Lemma line_fields_stripped (line name val_str lo up ty un : string) :
  App.line_fields line = Some (name, val_str, lo, up, ty, un) ->
  PyStr.strip val_str = val_str.
Proof.
  unfold App.line_fields.
  destruct (_ && _); [|apply regular_fields_stripped].
  destruct (PyStr.find_char _ _); [|apply regular_fields_stripped].
  destruct (_ <=? _)%nat; [|done].
  destruct (Py.pad 5 _) as [|x0 [|x1 [|x2 [|x3 [|x4 [|x5 l]]]]]]; try done.
  simpl. intros [= <- <- <- <- <- <-]. apply strip_idemp.
Qed.

Lemma parse_line_info (i : nat) (line name : string) (info : App.var_info) :
  App.parse_line i line = Some (name, info) ->
  App.value_num info = App.numeric_value (App.value_str info)
  /\ PyStr.strip (App.value_str info) = App.value_str info
  /\ App.source_line info = i.
Proof.
  unfold App.parse_line. destruct (negb _); [done|].
  destruct (App.line_fields _) as [[[[[[n v] lo] up] ty] un]|] eqn:E; [|done].
  destruct (negb _); [done|]. intros [= <- <-]. simpl.
  split; [done|]. split; [|done]. by eapply line_fields_stripped.
Qed.

(** The loop over the lines, from line number [i] and dictionary [d]. *)
Lemma parse_fold_lookup (i : nat) (lines : list string)
    (d : gmap string App.var_info) (name : string) (info : App.var_info) :
  fold_left App.parse_step (Py.enumerate i lines) d !! name = Some info ->
  d !! name = Some info
  \/ exists j line, lines !! j = Some line
                    /\ App.parse_line (i + j) line = Some (name, info).
Proof.
  revert i d. induction lines as [|l lines IH]; intros i d; simpl; [by left|].
  intros H. apply IH in H as [H|(j & line & Hj & Hp)].
  - unfold App.parse_step in H. simpl in H.
    destruct (App.parse_line i l) as [[n inf]|] eqn:E; [|by left].
    destruct (decide (n = name)) as [->|Hne].
    + rewrite lookup_insert_eq in H. injection H as ->.
      right. exists 0%nat, l. by rewrite Nat.add_0_r.
    + rewrite lookup_insert_ne in H by done. by left.
  - right. exists (S j), line. split; [done|].
    by rewrite Nat.add_succ_r.
Qed.

Lemma parse_lines_lookup (lines : list string) (name : string) (info : App.var_info) :
  App.parse_lines lines !! name = Some info ->
  exists j line, lines !! j = Some line
                 /\ App.parse_line (S j) line = Some (name, info).
Proof.
  unfold App.parse_lines. intros H.
  apply parse_fold_lookup in H as [H|H]; [by rewrite lookup_empty in H|done].
Qed.

(** Lines that hold no record of [name] leave its entry alone. *)
Lemma parse_fold_other (i : nat) (lines : list string)
    (d : gmap string App.var_info) (name : string) :
  (forall j l info, lines !! j = Some l ->
                    App.parse_line (i + j) l <> Some (name, info)) ->
  fold_left App.parse_step (Py.enumerate i lines) d !! name = d !! name.
Proof.
  revert i d. induction lines as [|l lines IH]; intros i d Hno; simpl; [done|].
  rewrite IH.
  - unfold App.parse_step. simpl.
    destruct (App.parse_line i l) as [[n inf]|] eqn:E; [|done].
    destruct (decide (n = name)) as [->|Hne].
    + exfalso. apply (Hno 0%nat l inf); [done|]. by rewrite Nat.add_0_r.
    + by rewrite lookup_insert_ne.
  - intros j l' info Hj.
    replace (S i + j)%nat with (i + S j)%nat by lia. by apply (Hno (S j)).
Qed.

(** The last record of a name is the one in the dictionary. *)
Lemma parse_fold_last (i : nat) (pre post : list string) (line : string)
    (d : gmap string App.var_info) (name : string) (info : App.var_info) :
  App.parse_line (i + length pre) line = Some (name, info) ->
  (forall j l info', post !! j = Some l ->
                     App.parse_line (i + length pre + S j) l <> Some (name, info')) ->
  fold_left App.parse_step (Py.enumerate i (pre ++ line :: post)%list) d !! name
  = Some info.
Proof.
  revert i d. induction pre as [|l pre IH]; intros i d Hl Hpost; simpl in *.
  - rewrite parse_fold_other.
    + unfold App.parse_step. simpl. rewrite Nat.add_0_r in Hl. rewrite Hl.
      apply lookup_insert_eq.
    + intros j l' info' Hj. rewrite Nat.add_0_r in Hpost.
      replace (S i + j)%nat with (i + S j)%nat by lia. by apply Hpost.
  - apply IH.
    + by replace (S i + length pre)%nat with (i + S (length pre))%nat by lia.
    + intros j l' info' Hj.
      replace (S i + length pre + S j)%nat
        with (i + S (length pre) + S j)%nat by lia.
      by apply Hpost.
Qed.

Lemma parse_lines_last (pre post : list string) (line : string)
    (name : string) (info : App.var_info) :
  App.parse_line (S (length pre)) line = Some (name, info) ->
  (forall j l info', post !! j = Some l ->
                     App.parse_line (S (length pre) + S j) l <> Some (name, info')) ->
  App.parse_lines (pre ++ line :: post)%list !! name = Some info.
Proof. intros H1 H2. by apply parse_fold_last. Qed.

(** Every stored record has a null or finite numeric value, computed
    from its stripped raw token. *)
Lemma parse_lines_info (lines : list string) (name : string) (info : App.var_info) :
  App.parse_lines lines !! name = Some info ->
  App.value_num info = App.numeric_value (App.value_str info)
  /\ PyStr.strip (App.value_str info) = App.value_str info.
Proof.
  intros H. apply parse_lines_lookup in H as (j & line & _ & Hp).
  apply parse_line_info in Hp. tauto.
Qed.

Lemma numeric_value_finite (s : string) (n : float) :
  App.numeric_value s = Some n ->
  Float.of_string s = Some n /\ Float.isfinite n = true.
Proof.
  unfold App.numeric_value. destruct (Float.of_string s) as [x|]; [|done].
  destruct (Float.isfinite x) eqn:E; [|done]. by intros [= <-].
Qed.

End ParserFacts.

(** ** The comparator of app.py: the rows *)

(** The constants of the comparator are the floats of their literals. *)
Lemma tiny_lit : App.tiny = Float.lit "1e-300".
Proof. vm_compute. reflexivity. Qed.

Lemma default_abs_tol_lit : App.default_abs_tol = Float.lit "1e-12".
Proof. vm_compute. reflexivity. Qed.

Lemma default_rel_tol_lit : App.default_rel_tol = Float.lit "1e-6".
Proof. vm_compute. reflexivity. Qed.

(** The row of a path on both sides with two numeric values. *)
Lemma row_of_numeric (d1 d2 : gmap string App.var_info)
    (abs_tol rel_tol : float) (k : string) (a b : App.var_info) (n1 n2 : float) :
  d1 !! k = Some a -> d2 !! k = Some b ->
  App.value_num a = Some n1 -> App.value_num b = Some n2 ->
  let abs_diff := Float.abs (Float.sub n1 n2) in
  let denom := Float.max3 (Float.abs n1) (Float.abs n2) App.tiny in
  let rel_diff := SFdiv Float.prec Float.emax abs_diff denom in
  let in_tol := Float.leb abs_diff abs_tol || Float.leb rel_diff rel_tol in
  row_of d1 d2 abs_tol rel_tol k
  = Some {| App.variable := k; App.status := App.status_str in_tol;
            App.value1 := App.value_str a; App.value2 := App.value_str b;
            App.abs_diff := App.format_sci abs_diff;
            App.rel_diff := Float.format_e 6 rel_diff;
            App.in_tolerance := App.bool_str in_tol;
            App.type1 := App.type a; App.type2 := App.type b;
            App.units1 := App.units a; App.units2 := App.units b |}.
Proof.
  intros Ha Hb Hn1 Hn2. unfold row_of, App.compare_key.
  rewrite Ha, Hb, Hn1, Hn2, truediv_tiny_defined. reflexivity.
Qed.

(** The row of a path on both sides with a value that is not numeric. *)
Lemma row_of_text (d1 d2 : gmap string App.var_info)
    (abs_tol rel_tol : float) (k : string) (a b : App.var_info) :
  d1 !! k = Some a -> d2 !! k = Some b ->
  App.value_num a = None \/ App.value_num b = None ->
  let equal := PyStr.eqb (PyStr.strip (App.value_str a)) (PyStr.strip (App.value_str b)) in
  row_of d1 d2 abs_tol rel_tol k
  = Some {| App.variable := k; App.status := App.status_str equal;
            App.value1 := App.value_str a; App.value2 := App.value_str b;
            App.abs_diff := EmptyString; App.rel_diff := EmptyString;
            App.in_tolerance := App.bool_str equal;
            App.type1 := App.type a; App.type2 := App.type b;
            App.units1 := App.units a; App.units2 := App.units b |}.
Proof.
  intros Ha Hb Hn. unfold row_of, App.compare_key. rewrite Ha, Hb.
  destruct Hn as [-> | Hn]; [done|].
  rewrite Hn. by destruct (App.value_num a).
Qed.

(** C1: for a path on both sides with both values numeric, the row of
    [compare_dicts] holds [abs_diff = |n1 - n2|] and
    [rel_diff = abs_diff / max(|n1|, |n2|, tiny)] with [tiny = 1e-300]
    (the division never raises), [in_tolerance] is
    [(abs_diff <= abs_tol) or (rel_diff <= rel_tol)], and the status is
    [equal_within_tol] when it holds and [different] otherwise; the
    defaults of the tolerances are [1e-12] and [1e-6]. *)
Theorem compare_dicts_numeric (d1 d2 : gmap string App.var_info)
    (abs_tol rel_tol : float) (k : string) (a b : App.var_info) (n1 n2 : float) :
  d1 !! k = Some a -> d2 !! k = Some b ->
  App.value_num a = Some n1 -> App.value_num b = Some n2 ->
  let abs_diff := Float.abs (Float.sub n1 n2) in
  let denom := Float.max3 (Float.abs n1) (Float.abs n2) App.tiny in
  exists rel_diff diffs c r,
    Float.truediv abs_diff denom = Some rel_diff
    /\ App.compare_dicts d1 d2 abs_tol rel_tol = Some (diffs, c)
    /\ r ∈ diffs /\ App.variable r = k
    /\ (forall r', r' ∈ diffs -> App.variable r' = k -> r' = r)
    /\ (let in_tol := Float.leb abs_diff abs_tol || Float.leb rel_diff rel_tol in
        App.abs_diff r = Float.format_e 16 abs_diff
        /\ App.rel_diff r = Float.format_e 6 rel_diff
        /\ App.in_tolerance r = (if in_tol then "true" else "false")
        /\ App.status r = (if in_tol then "equal_within_tol" else "different"))
    /\ App.tiny = Float.lit "1e-300"
    /\ App.default_abs_tol = Float.lit "1e-12"
    /\ App.default_rel_tol = Float.lit "1e-6".
Proof.
  intros Ha Hb Hn1 Hn2 abs_diff denom.
  destruct (compare_dicts_row d1 d2 abs_tol rel_tol k)
    as (diffs & c & r & Hc & Hr & Hin & Hu).
  { apply elem_of_union_l, elem_of_dom. by exists a. }
  exists (SFdiv Float.prec Float.emax abs_diff denom), diffs, c, r.
  split; [apply truediv_tiny_defined|].
  split; [exact Hc|]. split; [exact Hin|].
  split; [by apply (row_of_variable d1 d2 abs_tol rel_tol)|].
  split; [exact Hu|].
  rewrite (row_of_numeric d1 d2 abs_tol rel_tol k a b n1 n2 Ha Hb Hn1 Hn2) in Hr.
  injection Hr as <-.
  split; [|exact (conj tiny_lit (conj default_abs_tol_lit default_rel_tol_lit))].
  cbv zeta. cbn [App.abs_diff App.rel_diff App.in_tolerance App.status].
  fold abs_diff denom. unfold App.bool_str, App.status_str, App.format_sci.
  repeat split; reflexivity.
Qed.

Lemma compare_dicts_numeric_witness :
  (App.parse_lines left_lines !! "x"
   = Some {| App.value_str := "0.245"; App.value_num := Some (Float.lit "0.245");
             App.lower := "0"; App.upper := "1"; App.type := "Notype";
             App.units := "mol/mol"; App.source_line := 1 |}
   /\ App.parse_lines right_lines !! "x"
      = Some {| App.value_str := "0.2450000001";
                App.value_num := Some (Float.lit "0.2450000001");
                App.lower := "0"; App.upper := "1"; App.type := "Notype";
                App.units := "mol/mol"; App.source_line := 1 |})
  /\ exists diffs c r,
       App.compare_dicts (App.parse_lines left_lines) (App.parse_lines right_lines)
         App.default_abs_tol App.default_rel_tol = Some (diffs, c)
       /\ r ∈ diffs /\ App.variable r = "x"
       /\ App.abs_diff r = "1.0000000827403710e-10"
       /\ App.rel_diff r = "4.081633e-10"
       /\ App.status r = "equal_within_tol".
Proof.
  split; [split; vm_compute; reflexivity|].
  destruct (compare_dicts_numeric
              (App.parse_lines left_lines) (App.parse_lines right_lines)
              App.default_abs_tol App.default_rel_tol "x" _ _
              (Float.lit "0.245") (Float.lit "0.2450000001")
              ltac:(vm_compute; reflexivity) ltac:(vm_compute; reflexivity)
              eq_refl eq_refl)
    as (rel & diffs & c & r & Hrel & Hc & Hin & Hv & _ & (H1 & H2 & _ & H4) & _).
  exists diffs, c, r.
  split; [exact Hc|]. split; [exact Hin|]. split; [exact Hv|].
  vm_compute in Hrel. injection Hrel as <-.
  split; [rewrite H1; vm_compute; reflexivity|].
  split; [rewrite H2; vm_compute; reflexivity|].
  rewrite H4. vm_compute. reflexivity.
Defined.

Lemma finite_not_nan (x : float) : Float.isfinite x = true -> Float.isnan x = false.
Proof. by destruct x. Qed.

Lemma status_str_true : App.status_str true = "equal_within_tol".
Proof. reflexivity. Qed.



(** Every record of a parsed file has a null or finite numeric value. *)
Lemma parse_lines_finite (lines : list string) (k : string) (a : App.var_info) :
  App.parse_lines lines !! k = Some a -> finite_value a.
Proof.
  intros H n Hn. apply parse_lines_info in H as [Hv _].
  rewrite Hv in Hn. by apply numeric_value_finite in Hn as [_ ?].
Qed.


Lemma eqb_zero_abs (x : float) :
  Float.eqb x Float.zero = true -> exists s, x = S754_zero s.
Proof.
  destruct x as [s|s| |s m e]; try done.
  - by exists s.
  - by destruct s.
  - by destruct s.
Qed.

(** C9, as stated, fails in its last clause: with the tolerances [-1]
    and [-1e-9] the row of two zeros, [0] on the left and [-0] on the
    right, has [abs_diff] and [rel_diff] zero and yet the status
    [different], as neither zero is at most a negative tolerance. *)
Lemma zero_values_negative_tolerances :
  (exists a b,
     App.parse_lines zero_left !! "z" = Some a
     /\ App.parse_lines zero_right !! "z" = Some b
     /\ App.value_num a = Some (S754_zero false)
     /\ App.value_num b = Some (S754_zero true))
  /\ App.compare_dicts (App.parse_lines zero_left) (App.parse_lines zero_right)
       negative_abs_tol negative_rel_tol
     = Some ([ {| App.variable := "z"; App.status := "different";
                  App.value1 := "0"; App.value2 := "-0";
                  App.abs_diff := "0.0000000000000000e+00";
                  App.rel_diff := "0.000000e+00"; App.in_tolerance := "false";
                  App.type1 := "Notype"; App.type2 := "Notype";
                  App.units1 := "-"; App.units2 := "-" |} ],
             {| App.only_in_1 := 0; App.only_in_2 := 0;
                App.equal_within_tol := 0; App.different := 1 |}).
Proof.
  split.
  - eexists _, _. repeat split; vm_compute; reflexivity.
  - vm_compute. reflexivity.
Qed.

(** C9, amended: the relative difference is division-safe.  For every
    pair of numeric values (none is a NaN: the parser stores finite
    numbers only) the divisor [max(|n1|, |n2|, 1e-300)] is strictly positive and
    the division yields a value, and [compare_dicts] as a whole never
    raises; when both values are zero, [abs_diff] and [rel_diff] are
    zero and, under tolerances of which one is not negative, the row is
    printed with zero differences and classified [equal_within_tol]. *)
Theorem relative_difference_safe (d1 d2 : gmap string App.var_info)
    (abs_tol rel_tol : float) (k : string) (a b : App.var_info) (n1 n2 : float) :
  d1 !! k = Some a -> d2 !! k = Some b ->
  App.value_num a = Some n1 -> App.value_num b = Some n2 ->
  Float.isnan n1 = false -> Float.isnan n2 = false ->
  let abs_diff := Float.abs (Float.sub n1 n2) in
  let denom := Float.max3 (Float.abs n1) (Float.abs n2) App.tiny in
  Float.ltb Float.zero denom = true
  /\ exists rel_diff diffs c,
       Float.truediv abs_diff denom = Some rel_diff
       /\ App.compare_dicts d1 d2 abs_tol rel_tol = Some (diffs, c)
       /\ (Float.eqb n1 Float.zero = true -> Float.eqb n2 Float.zero = true ->
           abs_diff = Float.zero /\ rel_diff = Float.zero
           /\ (Float.leb Float.zero abs_tol = true
               \/ Float.leb Float.zero rel_tol = true ->
               exists r, r ∈ diffs /\ App.variable r = k
                         /\ App.abs_diff r = "0.0000000000000000e+00"
                         /\ App.rel_diff r = "0.000000e+00"
                         /\ App.in_tolerance r = "true"
                         /\ App.status r = "equal_within_tol")).
Proof.
  intros Ha Hb Hn1 Hn2 Hnan1 Hnan2 abs_diff denom.
  assert (Hpos : Float.ltb Float.zero denom = true)
    by (by apply max3_abs_tiny_pos).
  split; [exact Hpos|].
  destruct (compare_dicts_row d1 d2 abs_tol rel_tol k)
    as (diffs & c & r & Hc & Hr & Hin & Hu).
  { apply elem_of_union_l, elem_of_dom. by exists a. }
  exists (SFdiv Float.prec Float.emax abs_diff denom), diffs, c.
  split; [apply truediv_tiny_defined|]. split; [exact Hc|].
  intros Hz1 Hz2.
  assert (Habs : abs_diff = Float.zero).
  { apply eqb_zero_abs in Hz1 as [s1 ->]. apply eqb_zero_abs in Hz2 as [s2 ->].
    by destruct s1, s2. }
  assert (Hrel : SFdiv Float.prec Float.emax abs_diff denom = Float.zero)
    by (rewrite Habs; by apply div_zero_pos).
  split; [exact Habs|]. split; [exact Hrel|].
  intros Htol. exists r. split; [exact Hin|].
  split; [by apply (row_of_variable d1 d2 abs_tol rel_tol)|].
  rewrite (row_of_numeric d1 d2 abs_tol rel_tol k a b n1 n2 Ha Hb Hn1 Hn2) in Hr.
  injection Hr as <-. cbn [App.abs_diff App.rel_diff App.status App.in_tolerance].
  fold abs_diff denom. rewrite Hrel, Habs.
  assert (Ht : Float.leb Float.zero abs_tol || Float.leb Float.zero rel_tol = true)
    by (destruct Htol as [-> | ->]; [reflexivity|apply orb_true_r]).
  rewrite Ht. repeat split; vm_compute; reflexivity.
Qed.

Lemma relative_difference_safe_witness :
  (exists a b,
     App.parse_lines left_lines !! "y" = Some a
     /\ App.parse_lines right_lines !! "y" = Some b
     /\ App.value_num a = Some (S754_zero false)
     /\ App.value_num b = Some (S754_zero true))
  /\ exists diffs c r,
       App.compare_dicts (App.parse_lines left_lines) (App.parse_lines right_lines)
         App.default_abs_tol App.default_rel_tol = Some (diffs, c)
       /\ r ∈ diffs /\ App.variable r = "y"
       /\ App.abs_diff r = "0.0000000000000000e+00"
       /\ App.rel_diff r = "0.000000e+00"
       /\ App.status r = "equal_within_tol".
Proof.
  assert (Ha : App.parse_lines left_lines !! "y"
               = Some {| App.value_str := "0"; App.value_num := Some (S754_zero false);
                         App.lower := "0"; App.upper := "1"; App.type := "Notype";
                         App.units := "-"; App.source_line := 2 |})
    by (vm_compute; reflexivity).
  assert (Hb : App.parse_lines right_lines !! "y"
               = Some {| App.value_str := "-0.0"; App.value_num := Some (S754_zero true);
                         App.lower := "0"; App.upper := "1"; App.type := "Notype";
                         App.units := "-"; App.source_line := 2 |})
    by (vm_compute; reflexivity).
  split.
  - eexists _, _. split; [exact Ha|]. split; [exact Hb|]. split; reflexivity.
  - destruct (relative_difference_safe
                (App.parse_lines left_lines) (App.parse_lines right_lines)
                App.default_abs_tol App.default_rel_tol "y" _ _
                (S754_zero false) (S754_zero true) Ha Hb eq_refl eq_refl
                eq_refl eq_refl)
      as (_ & rel & diffs & c & _ & Hc & Hz).
    destruct (Hz eq_refl eq_refl) as (_ & _ & Hrow).
    destruct (Hrow (or_introl eq_refl)) as (r & Hin & Hv & H1 & H2 & _ & H4).
    exists diffs, c, r.
    split; [exact Hc|]. split; [exact Hin|]. split; [exact Hv|].
    split; [exact H1|]. split; [exact H2|exact H4].
Defined.

(** C10: in a parsed file, a record whose raw token [float] reads as an
    infinity or a NaN has a null numeric value and keeps the raw token;
    and a path on both sides with such a record on either side gets no
    differences, and its status is the equality of the two raw tokens
    as strings (they are stored stripped), not a tolerance test. *)
Theorem nonfinite_compared_as_text (lines1 lines2 : list string)
    (abs_tol rel_tol : float) (k : string) (a b : App.var_info) :
  App.parse_lines lines1 !! k = Some a ->
  App.parse_lines lines2 !! k = Some b ->
  nonfinite_token (App.value_str a) \/ nonfinite_token (App.value_str b) ->
  (nonfinite_token (App.value_str a) -> App.value_num a = None)
  /\ (nonfinite_token (App.value_str b) -> App.value_num b = None)
  /\ exists diffs c r,
       App.compare_dicts (App.parse_lines lines1) (App.parse_lines lines2)
         abs_tol rel_tol = Some (diffs, c)
       /\ r ∈ diffs /\ App.variable r = k
       /\ (forall r', r' ∈ diffs -> App.variable r' = k -> r' = r)
       /\ App.value1 r = App.value_str a /\ App.value2 r = App.value_str b
       /\ App.abs_diff r = EmptyString /\ App.rel_diff r = EmptyString
       /\ (let equal := String.eqb (App.value_str a) (App.value_str b) in
           App.in_tolerance r = (if equal then "true" else "false")
           /\ App.status r = (if equal then "equal_within_tol" else "different")).
Proof.
  intros Ha Hb Hnon.
  assert (Hnone : forall lines (x : App.var_info),
             App.parse_lines lines !! k = Some x ->
             nonfinite_token (App.value_str x) -> App.value_num x = None).
  { intros lines x Hx (y & Hy & Hfin).
    apply parse_lines_info in Hx as [-> _].
    unfold App.numeric_value. by rewrite Hy, Hfin. }
  split; [by apply (Hnone lines1)|]. split; [by apply (Hnone lines2)|].
  destruct (compare_dicts_row (App.parse_lines lines1) (App.parse_lines lines2)
              abs_tol rel_tol k) as (diffs & c & r & Hc & Hr & Hin & Hu).
  { apply elem_of_union_l, elem_of_dom. by exists a. }
  exists diffs, c, r.
  split; [exact Hc|]. split; [exact Hin|].
  split; [exact (row_of_variable _ _ abs_tol rel_tol k r Hr)|].
  split; [exact Hu|].
  rewrite (row_of_text _ _ abs_tol rel_tol k a b Ha Hb) in Hr.
  - injection Hr as <-.
    cbn [App.value1 App.value2 App.abs_diff App.rel_diff App.in_tolerance App.status].
    apply parse_lines_info in Ha as [_ ->]. apply parse_lines_info in Hb as [_ ->].
    unfold PyStr.eqb, App.bool_str, App.status_str. repeat split; reflexivity.
  - destruct Hnon as [H|H]; [left; by apply (Hnone lines1)|right; by apply (Hnone lines2)].
Qed.

Lemma nonfinite_compared_as_text_witness :
  (exists a b,
     App.parse_lines left_lines !! "z(1,4)" = Some a
     /\ App.parse_lines right_lines !! "z(1,4)" = Some b
     /\ App.value_str a = "inf" /\ App.value_str b = "Infinity"
     /\ Float.of_string "inf" = Some (S754_infinity false)
     /\ Float.of_string "Infinity" = Some (S754_infinity false)
     /\ nonfinite_token (App.value_str a))
  /\ exists diffs c r,
       App.compare_dicts (App.parse_lines left_lines) (App.parse_lines right_lines)
         App.default_abs_tol App.default_rel_tol = Some (diffs, c)
       /\ r ∈ diffs /\ App.variable r = "z(1,4)"
       /\ App.abs_diff r = EmptyString
       /\ App.status r = "different".
Proof.
  assert (Ha : App.parse_lines left_lines !! "z(1,4)"
               = Some {| App.value_str := "inf"; App.value_num := None;
                         App.lower := ""; App.upper := ""; App.type := "";
                         App.units := ""; App.source_line := 3 |})
    by (vm_compute; reflexivity).
  assert (Hb : App.parse_lines right_lines !! "z(1,4)"
               = Some {| App.value_str := "Infinity"; App.value_num := None;
                         App.lower := ""; App.upper := ""; App.type := "";
                         App.units := ""; App.source_line := 3 |})
    by (vm_compute; reflexivity).
  assert (Hn : nonfinite_token "inf").
  { exists (S754_infinity false). split; vm_compute; reflexivity. }
  split.
  - eexists _, _. split; [exact Ha|]. split; [exact Hb|].
    split; [reflexivity|]. split; [reflexivity|].
    split; [vm_compute; reflexivity|]. split; [vm_compute; reflexivity|exact Hn].
  - destruct (nonfinite_compared_as_text left_lines right_lines
                App.default_abs_tol App.default_rel_tol "z(1,4)" _ _ Ha Hb
                (or_introl Hn))
      as (_ & _ & diffs & c & r & Hc & Hin & Hv & _ & _ & _ & H1 & _ & _ & H4).
    exists diffs, c, r.
    split; [exact Hc|]. split; [exact Hin|]. split; [exact Hv|].
    split; [exact H1|exact H4].
Defined.

(** ** Value tokens that are no numbers *)

Section ReadFacts.

Context (path_prefix : option string).

(** The dictionary after a line depends on the dictionary before only. *)
Lemma read_line_dict (acc acc' : gmap string float * list string) (line : string) :
  acc.1 = acc'.1 ->
  (Analyse.read_line path_prefix acc line).1
  = (Analyse.read_line path_prefix acc' line).1.
Proof.
  intros H. unfold Analyse.read_line.
  destruct (Analyse.record_fields line) as [[p v]|]; [|done].
  destruct (Analyse.prefix_excludes path_prefix p); [done|].
  destruct (Float.of_string v); simpl; by rewrite H.
Qed.

Lemma read_fold_dict (lines : list string) (acc acc' : gmap string float * list string) :
  acc.1 = acc'.1 ->
  (fold_left (Analyse.read_line path_prefix) lines acc).1
  = (fold_left (Analyse.read_line path_prefix) lines acc').1.
Proof.
  revert acc acc'. induction lines as [|l lines IH]; intros acc acc' H; simpl; [done|].
  apply IH. by apply read_line_dict.
Qed.

(** The lines printed are never taken back. *)
Lemma read_line_log (acc : gmap string float * list string) (line w : string) :
  w ∈ acc.2 -> w ∈ (Analyse.read_line path_prefix acc line).2.
Proof.
  intros H. unfold Analyse.read_line.
  destruct (Analyse.record_fields line) as [[p v]|]; [|done].
  destruct (Analyse.prefix_excludes path_prefix p); [done|].
  destruct (Float.of_string v); simpl; [done|].
  unfold Py.append. apply elem_of_app. by left.
Qed.

Lemma read_fold_log (lines : list string) (acc : gmap string float * list string)
    (w : string) :
  w ∈ acc.2 -> w ∈ (fold_left (Analyse.read_line path_prefix) lines acc).2.
Proof.
  revert acc. induction lines as [|l lines IH]; intros acc H; simpl; [done|].
  apply IH. by apply read_line_log.
Qed.

(** A record line whose value token is no number: a warning, and the
    dictionary as it was. *)
Lemma read_line_bad_value (acc : gmap string float * list string)
    (line path_name value_str : string) :
  Analyse.record_fields line = Some (path_name, value_str) ->
  Analyse.prefix_excludes path_prefix path_name = false ->
  Float.of_string value_str = None ->
  Analyse.read_line path_prefix acc line
  = (acc.1, Py.append acc.2 (Analyse.warning value_str path_name)).
Proof. intros H1 H2 H3. unfold Analyse.read_line. by rewrite H1, H2, H3. Qed.

End ReadFacts.

(** C4, as stated, fails for [read_all_values_from_txt]: the record of a
    line whose value token is no number is left out of the mapping (a
    warning is printed and the next lines are read). *)
Lemma bad_value_dropped_from_txt :
  Analyse.read_all_values_from_txt "run.txt" (Some bad_value_lines) None
  = ({[ "P.a" := S754_finite false 6755399441055744 (-52);
        "P.b" := S754_finite false 4503599627370496 (-51) ]},
     ["Warning: Could not convert value 'NaNish' to float for path 'P.x'"]).
Proof. vm_compute. reflexivity. Qed.

(** Reading on: the lines after a record never remove its name. *)
Lemma enumerate_app {A : Type} (i : nat) (l1 l2 : list A) :
  Py.enumerate i (l1 ++ l2)%list
  = (Py.enumerate i l1 ++ Py.enumerate (i + length l1) l2)%list.
Proof.
  revert i. induction l1 as [|x l1 IH]; intros i; simpl.
  - by rewrite Nat.add_0_r.
  - rewrite IH. by replace (S i + length l1)%nat with (i + S (length l1))%nat by lia.
Qed.

Lemma parse_fold_is_Some (i : nat) (lines : list string)
    (d : gmap string App.var_info) (name : string) :
  is_Some (d !! name) ->
  is_Some (fold_left App.parse_step (Py.enumerate i lines) d !! name).
Proof.
  revert i d. induction lines as [|l lines IH]; intros i d H; simpl; [done|].
  apply IH. unfold App.parse_step. simpl.
  destruct (App.parse_line i l) as [[n inf]|]; [|done].
  destruct (decide (n = name)) as [->|Hne].
  - rewrite lookup_insert_eq. by eexists.
  - by rewrite lookup_insert_ne.
Qed.

Lemma parse_lines_is_Some (pre post : list string) (line name : string)
    (info : App.var_info) :
  App.parse_line (S (length pre)) line = Some (name, info) ->
  is_Some (App.parse_lines (pre ++ line :: post)%list !! name).
Proof.
  intros H. unfold App.parse_lines.
  rewrite enumerate_app, fold_left_app. simpl.
  apply parse_fold_is_Some. unfold App.parse_step. simpl. rewrite H.
  rewrite lookup_insert_eq. by eexists.
Qed.

(** C4, amended: for a line whose value token fails numeric parsing,
    [parse_variables_csv] keeps the record, with a null numeric value
    and the raw token, in the mapping it returns (under its name, until
    a later line of the same name replaces it) and reads on;
    [read_all_values_from_txt] prints a warning, leaves the record out
    (the mapping is the one the file gives without the line) and reads
    on. *)
Theorem bad_value_kept_or_warned (pre post : list string) (line : string) :
  (forall name info,
     App.parse_line (S (length pre)) line = Some (name, info) ->
     Float.of_string (App.value_str info) = None ->
     App.value_num info = None
     /\ exists d,
          App.parse_variables_csv (Some (pre ++ line :: post)%list) = Some d
          /\ is_Some (d !! name)
          /\ ((forall j l info', post !! j = Some l ->
                 App.parse_line (S (length pre) + S j) l <> Some (name, info')) ->
              d !! name = Some info))
  /\ (forall file_path path_prefix path_name value_str,
        Analyse.record_fields line = Some (path_name, value_str) ->
        Analyse.prefix_excludes path_prefix path_name = false ->
        Float.of_string value_str = None ->
        let result :=
          Analyse.read_all_values_from_txt file_path
            (Some (pre ++ line :: post)%list) path_prefix in
        result.1
        = (Analyse.read_all_values_from_txt file_path
             (Some (pre ++ post)%list) path_prefix).1
        /\ Analyse.warning value_str path_name ∈ result.2).
Proof.
  split.
  - intros name info Hline Hbad. split.
    + apply parse_line_info in Hline as (-> & _ & _).
      unfold App.numeric_value. by rewrite Hbad.
    + exists (App.parse_lines (pre ++ line :: post)%list).
      split; [reflexivity|]. split; [by eapply parse_lines_is_Some|].
      intros Hlast. by apply parse_lines_last.
  - intros file_path path_prefix path_name value_str Hrec Hpre Hbad result.
    subst result. unfold Analyse.read_all_values_from_txt.
    rewrite !fold_left_app. simpl.
    rewrite (read_line_bad_value path_prefix _ line path_name value_str Hrec Hpre Hbad).
    split.
    + by apply read_fold_dict.
    + apply read_fold_log. simpl. unfold Py.append. apply elem_of_app. right.
      by apply list_elem_of_singleton.
Qed.

Lemma bad_value_kept_or_warned_witness :
  (App.parse_line 2 "P.x,NaNish,0,1,Notype,-"
   = Some ("P.x", {| App.value_str := "NaNish"; App.value_num := None;
                     App.lower := "0"; App.upper := "1"; App.type := "Notype";
                     App.units := "-"; App.source_line := 2 |})
   /\ Float.of_string "NaNish" = None
   /\ Analyse.record_fields "P.x : NaNish : 0 : 1 : Notype : -" = Some ("P.x", "NaNish"))
  /\ (exists d, App.parse_variables_csv (Some bad_value_csv) = Some d
                /\ d !! "P.x"
                   = Some {| App.value_str := "NaNish"; App.value_num := None;
                             App.lower := "0"; App.upper := "1"; App.type := "Notype";
                             App.units := "-"; App.source_line := 2 |})
  /\ (Analyse.read_all_values_from_txt "run.txt" (Some bad_value_lines) None).1
     = (Analyse.read_all_values_from_txt "run.txt"
          (Some ["P.a : 1.5 : 0 : 1 : Notype : -"; "P.b : 2 : 0 : 1 : Notype : -"]) None).1
  /\ "Warning: Could not convert value 'NaNish' to float for path 'P.x'"
     ∈ (Analyse.read_all_values_from_txt "run.txt" (Some bad_value_lines) None).2.
Proof.
  assert (H1 : App.parse_line 2 "P.x,NaNish,0,1,Notype,-"
               = Some ("P.x", {| App.value_str := "NaNish"; App.value_num := None;
                                 App.lower := "0"; App.upper := "1"; App.type := "Notype";
                                 App.units := "-"; App.source_line := 2 |}))
    by (vm_compute; reflexivity).
  assert (H2 : Float.of_string "NaNish" = None) by (vm_compute; reflexivity).
  assert (H3 : Analyse.record_fields "P.x : NaNish : 0 : 1 : Notype : -"
               = Some ("P.x", "NaNish")) by (vm_compute; reflexivity).
  split; [exact (conj H1 (conj H2 H3))|].
  destruct (bad_value_kept_or_warned
              ["P.a,1.5,0,1,Notype,-"] ["P.b,2,0,1,Notype,-"] "P.x,NaNish,0,1,Notype,-")
    as [Hcsv _].
  destruct (bad_value_kept_or_warned
              ["P.a : 1.5 : 0 : 1 : Notype : -"] ["P.b : 2 : 0 : 1 : Notype : -"]
              "P.x : NaNish : 0 : 1 : Notype : -")
    as [_ Htxt].
  destruct (Hcsv "P.x" _ H1 H2) as (_ & d & Hd & _ & Hlast).
  destruct (Htxt "run.txt" None "P.x" "NaNish" H3 eq_refl H2) as [Hsame Hwarn].
  split; [|exact (conj Hsame Hwarn)].
  exists d. split; [exact Hd|]. apply Hlast.
  intros [|[|j]] l info'; [|done|done].
  intros [= <-]. vm_compute. discriminate.
Defined.

(** ** The flowsheet comparison of test.py *)

Section DictFacts.

Context {V : Type}.

Lemma get_Some_keys (d : PyDict.dict V) (k : string) (v : V) :
  PyDict.get d k = Some v -> k ∈ PyDict.keys d.
Proof.
  induction d as [|[k' v'] d IH]; simpl; [done|].
  destruct (String.eqb k' k) eqn:E.
  - apply String.eqb_eq in E as ->. intros _. by left.
  - intros H. right. by apply IH.
Qed.

Lemma keys_get_is_Some (d : PyDict.dict V) (k : string) :
  k ∈ PyDict.keys d -> is_Some (PyDict.get d k).
Proof.
  induction d as [|[k' v'] d IH]; simpl.
  - by intros ?%elem_of_nil.
  - intros H. destruct (String.eqb k' k) eqn:E; [by eexists|].
    apply IH. apply elem_of_cons in H as [->|H]; [|done].
    by rewrite String.eqb_refl in E.
Qed.

Lemma mem_elem_of (k : string) (l : list string) :
  PyDict.mem k l = true <-> k ∈ l.
Proof.
  unfold PyDict.mem. rewrite existsb_exists. split.
  - intros (x & Hx & ->%String.eqb_eq). by apply list_elem_of_In.
  - intros H. exists k. split; [by apply list_elem_of_In|apply String.eqb_refl].
Qed.

End DictFacts.

Section FlowsheetFacts.

Lemma isclose_defined (a b : float) :
  exists c, TestPy.isclose a b TestPy.rel_tol_isclose TestPy.default_tol = Some c.
Proof.
  unfold TestPy.isclose.
  replace (Float.ltb TestPy.rel_tol_isclose Float.zero
           || Float.ltb TestPy.default_tol Float.zero) with false by reflexivity.
  destruct (Float.eqb a b); [by eexists|].
  destruct (Float.isinf a || Float.isinf b); by eexists.
Qed.

Lemma differences_eq (v1 v2 : option float) :
  TestPy.differences v1 v2
  = Some (TestPy.abs_diff (comp_of EmptyString v1 v2 EmptyString),
          TestPy.pct_diff (comp_of EmptyString v1 v2 EmptyString)).
Proof.
  destruct v1 as [x1|], v2 as [x2|]; try done.
  unfold TestPy.differences, comp_of, pct_of. cbn [TestPy.abs_diff TestPy.pct_diff].
  destruct (Float.ltb (Float.abs x2) TestPy.small) eqn:E; [done|].
  unfold Float.truediv.
  destruct (Float.eqb x2 Float.zero) eqn:Ez; [|done].
  apply eqb_zero_abs in Ez as [s ->]. by destruct s.
Qed.

Lemma make_comp_eq (name : string) (v1 v2 : option float) (note : string) :
  TestPy.make_comp name v1 v2 note = Some (comp_of name v1 v2 note).
Proof. unfold TestPy.make_comp. by rewrite differences_eq. Qed.

Lemma collect_omap {A B : Type} (f : A -> option (option B)) (g : A -> option B)
    (l : list A) :
  (forall x, x ∈ l -> f x = Some (g x)) -> TestPy.collect f l = Some (omap g l).
Proof.
  induction l as [|x l IH]; intros H; simpl; [done|].
  rewrite (H x) by by left. rewrite IH by (intros y Hy; apply H; by right).
  by destruct (g x).
Qed.

End FlowsheetFacts.

Section SumFacts.

Lemma absorbent_keys_keys (d : PyDict.dict float) (k : string) :
  k ∈ absorbent_keys d -> k ∈ PyDict.keys d.
Proof. unfold absorbent_keys. by intros [_ ?]%list_elem_of_filter. Qed.

Lemma sum_matches_fires (dtwo done : PyDict.dict float) (k0 k1 o : string)
    (x0 x1 y : float) (tol : float) :
  PyDict.get dtwo k0 = Some x0 -> PyDict.get dtwo k1 = Some x1 ->
  PyDict.get done o = Some y ->
  TestPy.isclose (Float.add x0 x1) y TestPy.rel_tol_isclose tol = Some true ->
  TestPy.sum_matches dtwo done [k0; k1] [o] tol = Some (Some (Float.add x0 x1, o, y)).
Proof. intros H0 H1 Hy Hc. unfold TestPy.sum_matches. by rewrite H0, H1, Hy, Hc. Qed.

Lemma sum_matches_cases (dtwo done : PyDict.dict float) :
  TestPy.sum_matches dtwo done (absorbent_keys dtwo) (absorbent_keys done)
    TestPy.default_tol = Some None
  \/ exists k0 k1 o x0 x1 y,
       absorbent_keys dtwo = [k0; k1] /\ absorbent_keys done = [o]
       /\ PyDict.get dtwo k0 = Some x0 /\ PyDict.get dtwo k1 = Some x1
       /\ PyDict.get done o = Some y
       /\ TestPy.isclose (Float.add x0 x1) y TestPy.rel_tol_isclose TestPy.default_tol
          = Some true
       /\ TestPy.sum_matches dtwo done (absorbent_keys dtwo) (absorbent_keys done)
            TestPy.default_tol = Some (Some (Float.add x0 x1, o, y)).
Proof.
  pose proof (absorbent_keys_keys dtwo) as Htwo.
  pose proof (absorbent_keys_keys done) as Hone.
  destruct (absorbent_keys dtwo) as [|k0 [|k1 [|k2 l]]]; try (by left).
  destruct (absorbent_keys done) as [|o [|o' l']]; try (by left).
  destruct (keys_get_is_Some dtwo k0) as [x0 H0]; [apply Htwo; by left|].
  destruct (keys_get_is_Some dtwo k1) as [x1 H1]; [apply Htwo; right; by left|].
  destruct (keys_get_is_Some done o) as [y Hy]; [apply Hone; by left|].
  destruct (isclose_defined (Float.add x0 x1) y) as [[|] Hc].
  - right. exists k0, k1, o, x0, x1, y. repeat split; try done.
    by apply sum_matches_fires.
  - left. unfold TestPy.sum_matches. by rewrite H0, H1, Hy, Hc.
Qed.

Lemma sum_matches_not_two (dtwo done : PyDict.dict float) (abs_two abs_one : list string)
    (tol : float) :
  length abs_two <> 2%nat \/ length abs_one <> 1%nat ->
  TestPy.sum_matches dtwo done abs_two abs_one tol = Some None.
Proof.
  intros H. unfold TestPy.sum_matches.
  destruct abs_two as [|k0 [|k1 [|k2 l]]]; try done.
  destruct abs_one as [|o [|o' l']]; try done. simpl in H. lia.
Qed.

(** [match_and_sum_absorbents] never raises; its three outcomes. *)
Lemma match_and_sum_cases (d1 d2 : PyDict.dict float) :
  exists pre_map consumed1 consumed2,
    TestPy.match_and_sum_absorbents d1 d2 TestPy.default_tol
    = Some (pre_map, consumed1, consumed2)
    /\ (nothing_summed pre_map consumed1 consumed2
        \/ left_summed d1 d2 pre_map consumed1 consumed2
        \/ right_summed d1 d2 pre_map consumed1 consumed2).
Proof.
  unfold TestPy.match_and_sum_absorbents. fold (absorbent_keys d1) (absorbent_keys d2).
  destruct (sum_matches_cases d1 d2)
    as [H1|(k0 & k1 & o & x0 & x1 & y & Ha1 & Ha2 & H0 & H1 & Hy & Hc & Hs)].
  - rewrite H1.
    destruct (sum_matches_cases d2 d1)
      as [H2|(k0 & k1 & o & x0 & x1 & y & Ha2 & Ha1 & H0 & H1' & Hy & Hc & Hs)].
    + rewrite H2. eexists _, _, _. split; [reflexivity|]. left. by repeat split.
    + rewrite Hs. eexists _, _, _. split; [reflexivity|]. right. right.
      exists k0, k1, o, x0, x1, y. rewrite Ha1, Ha2. by repeat split.
  - rewrite Hs, Ha1, Ha2. rewrite sum_matches_not_two by (left; simpl; lia).
    eexists _, _, _. split; [reflexivity|]. right. left.
    exists k0, k1, o, x0, x1, y. by repeat split.
Qed.

(** [build_comparisons] never raises: the rows before the final sort. *)
Lemma build_comparisons_eq (list_of_set : list string -> list string)
    (d1 d2 : PyDict.dict float)
    (pre_map : PyDict.dict TestPy.entry) (consumed1 consumed2 : list string) :
  TestPy.match_and_sum_absorbents d1 d2 TestPy.default_tol
  = Some (pre_map, consumed1, consumed2) ->
  TestPy.build_comparisons list_of_set d1 d2
  = Some (Py.sorted_reverse Float.ltb TestPy.sort_key
            (pre_rows pre_map
             ++ plain_rows d1 d2 consumed1 consumed2
                  (list_of_set (PyDict.keys d1 ++ PyDict.keys d2)))%list).
Proof.
  intros H. unfold TestPy.build_comparisons. rewrite H.
  rewrite (collect_omap _ (fun e : string * TestPy.entry =>
                             Some (comp_of e.1 e.2.1.1 e.2.1.2 e.2.2))).
  2:{ intros [n [[v1 v2] note]] _. by rewrite make_comp_eq. }
  rewrite (collect_omap _ (fun k =>
             if PyDict.mem k consumed1 || PyDict.mem k consumed2 then None
             else Some (comp_of k (PyDict.get d1 k) (PyDict.get d2 k) EmptyString))).
  2:{ intros k _. destruct (_ || _); [done|]. by rewrite make_comp_eq. }
  assert (Hpre : omap (fun e : string * TestPy.entry =>
                         Some (comp_of e.1 e.2.1.1 e.2.1.2 e.2.2)) pre_map
                 = pre_rows pre_map).
  { unfold pre_rows. clear H. induction pre_map as [|e l IH]; [done|].
    rewrite fmap_cons, <- IH. reflexivity. }
  by rewrite Hpre.
Qed.

Lemma sorted_reverse_perm {A K : Type} (lt : K -> K -> bool) (key : A -> K)
    (l : list A) : Py.sorted_reverse lt key l ≡ₚ l.
Proof. apply sorted_perm. Qed.

Lemma plain_rows_names (d1 d2 : PyDict.dict float) (c1 c2 keys : list string) :
  TestPy.name <$> plain_rows d1 d2 c1 c2 keys
  = filter (fun k => (k ∉ c1) /\ (k ∉ c2)) keys.
Proof.
  induction keys as [|k keys IH]; [done|].
  unfold plain_rows in *. cbn [omap list_omap].
  destruct (PyDict.mem k c1) eqn:E1; cbn [orb].
  - apply mem_elem_of in E1. rewrite filter_cons_False by tauto. exact IH.
  - destruct (PyDict.mem k c2) eqn:E2.
    + apply mem_elem_of in E2. rewrite filter_cons_False by tauto. exact IH.
    + rewrite filter_cons_True.
      * rewrite fmap_cons, IH. reflexivity.
      * split; intros ?%mem_elem_of; congruence.
Qed.

Lemma pre_rows_names (pre_map : PyDict.dict TestPy.entry) :
  TestPy.name <$> pre_rows pre_map = PyDict.keys pre_map.
Proof.
  unfold pre_rows, PyDict.keys. rewrite <- list_fmap_compose. done.
Qed.

End SumFacts.

Section CoverFacts.

Context (list_of_set : list string -> list string).
Hypothesis list_of_set_ok : lists_set list_of_set.

Lemma list_of_set_elem (l : list string) (k : string) : k ∈ list_of_set l <-> k ∈ l.
Proof. by rewrite (list_of_set_ok l), elem_of_remove_dups. Qed.

Lemma list_of_set_NoDup (l : list string) : NoDup (list_of_set l).
Proof. rewrite (list_of_set_ok l). apply NoDup_remove_dups. Qed.

(** The names of the rows of [build_comparisons], up to their order. *)
Lemma build_comparisons_names (d1 d2 : PyDict.dict float)
    (pre_map : PyDict.dict TestPy.entry) (c1 c2 : list string) :
  TestPy.match_and_sum_absorbents d1 d2 TestPy.default_tol = Some (pre_map, c1, c2) ->
  exists comps,
    TestPy.build_comparisons list_of_set d1 d2 = Some comps
    /\ comps ≡ₚ (pre_rows pre_map
                 ++ plain_rows d1 d2 c1 c2
                      (list_of_set (PyDict.keys d1 ++ PyDict.keys d2)))%list
    /\ TestPy.name <$> comps
       ≡ₚ (PyDict.keys pre_map
           ++ filter (fun k => (k ∉ c1) /\ (k ∉ c2))
                (list_of_set (PyDict.keys d1 ++ PyDict.keys d2)))%list.
Proof.
  intros H. rewrite (build_comparisons_eq list_of_set d1 d2 pre_map c1 c2 H).
  eexists. split; [reflexivity|].
  split; [apply sorted_reverse_perm|].
  by rewrite sorted_reverse_perm, fmap_app, pre_rows_names, plain_rows_names.
Qed.

(** The single key of a sum is a key of a dictionary, and is consumed. *)
Lemma summed_key (d1 d2 : PyDict.dict float) (pre_map : PyDict.dict TestPy.entry)
    (c1 c2 : list string) :
  nothing_summed pre_map c1 c2 \/ left_summed d1 d2 pre_map c1 c2
  \/ right_summed d1 d2 pre_map c1 c2 ->
  NoDup (PyDict.keys pre_map)
  /\ forall k, k ∈ PyDict.keys pre_map ->
               (k ∈ PyDict.keys d1 \/ k ∈ PyDict.keys d2) /\ (k ∈ c1 \/ k ∈ c2).
Proof.
  intros [(-> & -> & ->)|[H|H]].
  - split; [constructor|]. by intros k ?%elem_of_nil.
  - destruct H as (k0 & k1 & o & x0 & x1 & y & _ & _ & _ & _ & Hy & _ & -> & -> & ->).
    split; [apply NoDup_singleton|].
    intros k ->%list_elem_of_singleton. split; [right|right; by left].
    by eapply get_Some_keys.
  - destruct H as (k0 & k1 & o & x0 & x1 & y & _ & _ & _ & _ & Hy & _ & -> & -> & ->).
    split; [apply NoDup_singleton|].
    intros k ->%list_elem_of_singleton. split; [left|left; by left].
    by eapply get_Some_keys.
Qed.

End CoverFacts.

(** C2, as stated, fails for [build_comparisons]: when the sum of the
    two absorbent keys of one side matches the single absorbent key of
    the other, the two summed keys get no row. *)
Lemma summed_keys_have_no_row :
  PyDict.keys absorbent_left = ["ABSORBENT_1"; "ABSORBENT_2"]
  /\ PyDict.keys absorbent_right = ["ABSORBENT"]
  /\ TestPy.build_comparisons remove_dups absorbent_left absorbent_right
     = Some [ {| TestPy.name := "ABSORBENT";
                 TestPy.v1 := Some (S754_finite false 5629499534213120 (-50));
                 TestPy.v2 := Some (S754_finite false 5629499534213120 (-50));
                 TestPy.abs_diff := Some (S754_zero false);
                 TestPy.pct_diff := Some (S754_zero false);
                 TestPy.note := "sum of two absorbents in file1 vs single in file2" |} ].
Proof. repeat split; vm_compute; reflexivity. Qed.

(** C2, amended: [compare_dicts] returns rows whose paths are the keys
    of the union of the two mappings, each in exactly one row.
    [build_comparisons] returns rows whose names are keys of the union,
    no name twice, and every key of the union has a row unless it is
    one of the keys that [match_and_sum_absorbents] consumed; of the
    consumed keys, only the single key under which the sum is reported
    has a row. *)
Theorem rows_cover_keys (list_of_set : list string -> list string) :
  lists_set list_of_set ->
  (forall (d1 d2 : gmap string App.var_info) (abs_tol rel_tol : float),
      exists diffs c,
        App.compare_dicts d1 d2 abs_tol rel_tol = Some (diffs, c)
        /\ NoDup (App.variable <$> diffs)
        /\ forall k, k ∈ App.variable <$> diffs <-> k ∈ dom d1 ∪ dom d2)
  /\ (forall d1 d2 : PyDict.dict float,
        exists comps pre_map consumed1 consumed2,
          TestPy.build_comparisons list_of_set d1 d2 = Some comps
          /\ TestPy.match_and_sum_absorbents d1 d2 TestPy.default_tol
             = Some (pre_map, consumed1, consumed2)
          /\ (nothing_summed pre_map consumed1 consumed2
              \/ left_summed d1 d2 pre_map consumed1 consumed2
              \/ right_summed d1 d2 pre_map consumed1 consumed2)
          /\ NoDup (TestPy.name <$> comps)
          /\ forall k,
               k ∈ TestPy.name <$> comps
               <-> (k ∈ PyDict.keys d1 \/ k ∈ PyDict.keys d2)
                   /\ (k ∈ consumed1 \/ k ∈ consumed2 -> k ∈ PyDict.keys pre_map)).
Proof.
  intros Hset. split.
  - intros d1 d2 abs_tol rel_tol.
    destruct (compare_dicts_rows d1 d2 abs_tol rel_tol) as (diffs & c & Hc & Hall).
    exists diffs, c. split; [exact Hc|].
    rewrite (rows_variables d1 d2 abs_tol rel_tol _ _ Hall).
    split; [apply sorted_keys_NoDup|apply sorted_keys_elem].
  - intros d1 d2.
    destruct (match_and_sum_cases d1 d2) as (pre_map & c1 & c2 & Hm & Hshape).
    destruct (build_comparisons_names list_of_set d1 d2 pre_map c1 c2 Hm)
      as (comps & Hb & _ & Hnames).
    destruct (summed_key d1 d2 pre_map c1 c2 Hshape) as [Hnd Hkey].
    exists comps, pre_map, c1, c2.
    split; [exact Hb|]. split; [exact Hm|]. split; [exact Hshape|].
    split.
    + rewrite Hnames. apply NoDup_app. split; [exact Hnd|]. split.
      * intros k Hk [[Hn1 Hn2] _]%list_elem_of_filter.
        destruct (Hkey k Hk) as [_ [?|?]]; tauto.
      * apply NoDup_filter. by apply list_of_set_NoDup.
    + intros k. rewrite Hnames, elem_of_app, list_elem_of_filter.
      rewrite (list_of_set_elem list_of_set Hset), elem_of_app.
      split.
      * intros [Hk|[[Hn1 Hn2] Hk]].
        -- destruct (Hkey k Hk) as [Hu _]. by split.
        -- split; [exact Hk|]. tauto.
      * intros [Hu Hc].
        destruct (decide (k ∈ c1)) as [H1|H1]; [left; apply Hc; by left|].
        destruct (decide (k ∈ c2)) as [H2|H2]; [left; apply Hc; by right|].
        right. by split.
Qed.

Lemma rows_cover_keys_witness :
  lists_set remove_dups
  /\ (exists diffs c,
        App.compare_dicts (App.parse_lines left_lines) (App.parse_lines right_lines)
          App.default_abs_tol App.default_rel_tol = Some (diffs, c)
        /\ NoDup (App.variable <$> diffs))
  /\ exists comps,
       TestPy.build_comparisons remove_dups absorbent_left absorbent_right = Some comps
       /\ NoDup (TestPy.name <$> comps).
Proof.
  assert (H : lists_set remove_dups) by (intros l; reflexivity).
  split; [exact H|].
  destruct (rows_cover_keys remove_dups H) as [Happ Htest].
  split.
  - destruct (Happ (App.parse_lines left_lines) (App.parse_lines right_lines)
                App.default_abs_tol App.default_rel_tol) as (diffs & c & Hc & Hnd & _).
    exists diffs, c. exact (conj Hc Hnd).
  - destruct (Htest absorbent_left absorbent_right)
      as (comps & pre_map & c1 & c2 & Hb & _ & _ & Hnd & _).
    exists comps. exact (conj Hb Hnd).
Defined.

Section SumRowFacts.

Lemma match_and_sum_left (d1 d2 : PyDict.dict float) (k0 k1 o : string)
    (x0 x1 y : float) :
  absorbent_keys d1 = [k0; k1] -> absorbent_keys d2 = [o] ->
  PyDict.get d1 k0 = Some x0 -> PyDict.get d1 k1 = Some x1 ->
  PyDict.get d2 o = Some y ->
  TestPy.isclose (Float.add x0 x1) y TestPy.rel_tol_isclose TestPy.default_tol
  = Some true ->
  TestPy.match_and_sum_absorbents d1 d2 TestPy.default_tol
  = Some ([(o, (Some (Float.add x0 x1), Some y, note_sum_left))], [k0; k1], [o]).
Proof.
  intros Ha1 Ha2 H0 H1 Hy Hc. unfold TestPy.match_and_sum_absorbents.
  fold (absorbent_keys d1) (absorbent_keys d2). rewrite Ha1, Ha2.
  rewrite (sum_matches_fires d1 d2 k0 k1 o x0 x1 y _ H0 H1 Hy Hc).
  rewrite sum_matches_not_two by (left; simpl; lia). reflexivity.
Qed.

Lemma match_and_sum_right (d1 d2 : PyDict.dict float) (k0 k1 o : string)
    (x0 x1 y : float) :
  absorbent_keys d2 = [k0; k1] -> absorbent_keys d1 = [o] ->
  PyDict.get d2 k0 = Some x0 -> PyDict.get d2 k1 = Some x1 ->
  PyDict.get d1 o = Some y ->
  TestPy.isclose (Float.add x0 x1) y TestPy.rel_tol_isclose TestPy.default_tol
  = Some true ->
  TestPy.match_and_sum_absorbents d1 d2 TestPy.default_tol
  = Some ([(o, (Some y, Some (Float.add x0 x1), note_sum_right))], [o], [k0; k1]).
Proof.
  intros Ha2 Ha1 H0 H1 Hy Hc. unfold TestPy.match_and_sum_absorbents.
  fold (absorbent_keys d1) (absorbent_keys d2). rewrite Ha1, Ha2.
  rewrite sum_matches_not_two by (left; simpl; lia).
  rewrite (sum_matches_fires d2 d1 k0 k1 o x0 x1 y _ H0 H1 Hy Hc). reflexivity.
Qed.

Lemma plain_rows_name (d1 d2 : PyDict.dict float) (c1 c2 keys : list string)
    (r : TestPy.comp) :
  r ∈ plain_rows d1 d2 c1 c2 keys -> (TestPy.name r ∉ c1) /\ (TestPy.name r ∉ c2).
Proof.
  intros Hr.
  assert (H : TestPy.name r ∈ TestPy.name <$> plain_rows d1 d2 c1 c2 keys)
    by (by apply list_elem_of_fmap_2).
  rewrite plain_rows_names in H. apply list_elem_of_filter in H as [H _]. exact H.
Qed.

(** The one row of a sum, given what [match_and_sum_absorbents] found. *)
Lemma build_comparisons_sum_row (list_of_set : list string -> list string)
    (d1 d2 : PyDict.dict float) (c1 c2 : list string) (o k0 k1 : string)
    (v1 v2 : float) (note : string) :
  TestPy.match_and_sum_absorbents d1 d2 TestPy.default_tol
  = Some ([(o, (Some v1, Some v2, note))], c1, c2) ->
  (forall k, k = o \/ k = k0 \/ k = k1 -> k ∈ c1 \/ k ∈ c2) ->
  exists comps,
    TestPy.build_comparisons list_of_set d1 d2 = Some comps
    /\ sum_row comps o k0 k1 v1 v2 note.
Proof.
  intros Hm Hcons.
  rewrite (build_comparisons_eq list_of_set d1 d2 _ c1 c2 Hm).
  eexists. split; [reflexivity|].
  exists (comp_of o (Some v1) (Some v2) note).
  split.
  { rewrite sorted_reverse_perm. apply elem_of_app. left. by left. }
  repeat (split; [reflexivity|]).
  intros r Hr Hname. rewrite sorted_reverse_perm in Hr.
  apply elem_of_app in Hr as [Hr|Hr].
  - by apply list_elem_of_singleton in Hr.
  - apply plain_rows_name in Hr as [Hn1 Hn2].
    destruct (Hcons (TestPy.name r)) as [?|?]; [|done|done].
    destruct Hname as [->| [->| ->]]; auto.
Qed.

End SumRowFacts.

(** C3, as stated, fails on the example of the specification: the keys
    ["A(1)"], ["A(2)"] and ["A"] do not contain [ABSORBENT], the only
    pattern of the rule, so nothing is summed and each of the three keys
    gets a row of its own. *)
Lemma spec_example_three_rows :
  TestPy.build_comparisons remove_dups spec_left spec_right
  = Some [ {| TestPy.name := "A(1)";
              TestPy.v1 := Some (S754_finite false 4503599627370496 (-51));
              TestPy.v2 := None; TestPy.abs_diff := None; TestPy.pct_diff := None;
              TestPy.note := "" |};
           {| TestPy.name := "A(2)";
              TestPy.v1 := Some (S754_finite false 6755399441055744 (-51));
              TestPy.v2 := None; TestPy.abs_diff := None; TestPy.pct_diff := None;
              TestPy.note := "" |};
           {| TestPy.name := "A";
              TestPy.v1 := None;
              TestPy.v2 := Some (S754_finite false 5629499534213120 (-50));
              TestPy.abs_diff := None; TestPy.pct_diff := None;
              TestPy.note := "" |} ].
Proof. vm_compute. reflexivity. Qed.

(** C3, amended: when one mapping holds exactly two keys containing
    [ABSORBENT] and the other exactly one, and the sum of the two values
    is close to the single value ([math.isclose] with [rel_tol = 1e-8]
    and [abs_tol = 1e-8]), [build_comparisons], whatever the order in
    which it walks the set of the keys, returns one row, under
    the single key, that holds the sum against the single value, their
    difference and percentage, and the note of the sum; no other row is
    named by any of the three keys. *)
Theorem absorbent_sum_row (list_of_set : list string -> list string)
    (d1 d2 : PyDict.dict float) (k0 k1 o : string) (x0 x1 y : float) :
  lists_set list_of_set ->
  TestPy.isclose (Float.add x0 x1) y TestPy.rel_tol_isclose TestPy.default_tol
  = Some true ->
  (absorbent_keys d1 = [k0; k1] -> absorbent_keys d2 = [o] ->
   PyDict.get d1 k0 = Some x0 -> PyDict.get d1 k1 = Some x1 ->
   PyDict.get d2 o = Some y ->
   exists comps,
     TestPy.build_comparisons list_of_set d1 d2 = Some comps
     /\ sum_row comps o k0 k1 (Float.add x0 x1) y
          "sum of two absorbents in file1 vs single in file2")
  /\ (absorbent_keys d2 = [k0; k1] -> absorbent_keys d1 = [o] ->
      PyDict.get d2 k0 = Some x0 -> PyDict.get d2 k1 = Some x1 ->
      PyDict.get d1 o = Some y ->
      exists comps,
        TestPy.build_comparisons list_of_set d1 d2 = Some comps
        /\ sum_row comps o k0 k1 y (Float.add x0 x1)
             "single in file1 vs sum of two absorbents in file2")
  /\ TestPy.rel_tol_isclose = Float.lit "1e-8"
  /\ TestPy.default_tol = Float.lit "1e-8".
Proof.
  intros _ Hc.
  split; [|split; [|split; vm_compute; reflexivity]]; intros Ha1 Ha2 H0 H1 Hy.
  - apply (build_comparisons_sum_row list_of_set d1 d2 [k0; k1] [o]).
    + by apply match_and_sum_left.
    + intros k [->|[->| ->]]; [right; by left|left; by left|left; right; by left].
  - apply (build_comparisons_sum_row list_of_set d1 d2 [o] [k0; k1]).
    + by apply match_and_sum_right.
    + intros k [->|[->| ->]]; [left; by left|right; by left|right; right; by left].
Qed.

Lemma absorbent_sum_row_witness :
  (lists_set remove_dups
   /\ TestPy.isclose
        (Float.add (S754_finite false 4503599627370496 (-51))
                   (S754_finite false 6755399441055744 (-51)))
        (S754_finite false 5629499534213120 (-50))
        TestPy.rel_tol_isclose TestPy.default_tol = Some true
   /\ absorbent_keys absorbent_left = ["ABSORBENT_1"; "ABSORBENT_2"]
   /\ absorbent_keys absorbent_right = ["ABSORBENT"])
  /\ exists comps row,
       TestPy.build_comparisons remove_dups absorbent_left absorbent_right = Some comps
       /\ row ∈ comps
       /\ TestPy.name row = "ABSORBENT"
       /\ TestPy.v1 row = Some (S754_finite false 5629499534213120 (-50))
       /\ TestPy.v2 row = Some (S754_finite false 5629499534213120 (-50))
       /\ forall r, r ∈ comps ->
                    TestPy.name r = "ABSORBENT" \/ TestPy.name r = "ABSORBENT_1"
                    \/ TestPy.name r = "ABSORBENT_2" ->
                    r = row.
Proof.
  assert (H : lists_set remove_dups) by (intros l; reflexivity).
  assert (Hc : TestPy.isclose
                 (Float.add (S754_finite false 4503599627370496 (-51))
                            (S754_finite false 6755399441055744 (-51)))
                 (S754_finite false 5629499534213120 (-50))
                 TestPy.rel_tol_isclose TestPy.default_tol = Some true)
    by (vm_compute; reflexivity).
  assert (H1 : absorbent_keys absorbent_left = ["ABSORBENT_1"; "ABSORBENT_2"])
    by (vm_compute; reflexivity).
  assert (H2 : absorbent_keys absorbent_right = ["ABSORBENT"])
    by (vm_compute; reflexivity).
  split; [exact (conj H (conj Hc (conj H1 H2)))|].
  destruct (absorbent_sum_row remove_dups absorbent_left absorbent_right
              "ABSORBENT_1" "ABSORBENT_2" "ABSORBENT" _ _ _ H Hc) as [Hleft _].
  destruct (Hleft H1 H2 eq_refl eq_refl eq_refl)
    as (comps & Hb & row & Hin & Hn & Hv1 & Hv2 & _ & _ & _ & Hu).
  exists comps, row.
  split; [exact Hb|]. split; [exact Hin|]. split; [exact Hn|].
  split; [rewrite Hv1; vm_compute; reflexivity|].
  split; [exact Hv2|exact Hu].
Defined.

(** ** The order of the reconstructed file *)

Section OrderFacts.

Lemma key_ltb_asym (a b : Concat.sort_key) :
  Concat.key_ltb a b = true -> Concat.key_ltb b a = false.
Proof.
  destruct a as [i|p], b as [j|q]; simpl; try done.
  - rewrite Nat.ltb_lt, Nat.ltb_ge. lia.
  - apply str_ltb_asym.
Qed.

Lemma key_not_after_trans (a b c : Concat.sort_key) :
  Concat.key_ltb b a = false -> Concat.key_ltb c b = false ->
  Concat.key_ltb c a = false.
Proof.
  destruct a as [i|p], b as [j|q], c as [k|r]; simpl; try done.
  - rewrite !Nat.ltb_ge. lia.
  - apply str_not_after_trans.
Qed.

(** The order map: the last position of each path. *)
Lemma order_map_snoc (l : list string) (q : string) :
  Concat.order_map (l ++ [q])%list = <[q := length l]> (Concat.order_map l).
Proof.
  unfold Concat.order_map. rewrite enumerate_app, fold_left_app. reflexivity.
Qed.

Lemma order_map_lookup (l : list string) (p : string) (i : nat) :
  Concat.order_map l !! p = Some i ->
  l !! i = Some p /\ forall j, l !! j = Some p -> (j <= i)%nat.
Proof.
  revert i. induction l as [|q l IH] using rev_ind; intros i.
  - unfold Concat.order_map. simpl. by rewrite lookup_empty.
  - rewrite order_map_snoc. destruct (decide (q = p)) as [->|Hne].
    + rewrite lookup_insert_eq. intros [= <-]. split.
      * by rewrite lookup_app_r, Nat.sub_diag.
      * intros j Hj. apply lookup_lt_Some in Hj. rewrite length_app in Hj.
        simpl in Hj. lia.
    + rewrite lookup_insert_ne by done. intros H.
      destruct (IH i H) as [Hi Hlast]. split.
      * by apply lookup_app_l_Some.
      * intros j Hj. apply Hlast.
        apply lookup_app_Some in Hj as [Hj|[_ Hj]]; [done|].
        apply list_lookup_singleton_Some in Hj as [_ ?]. congruence.
Qed.

Lemma order_map_is_Some (l : list string) (p : string) :
  is_Some (Concat.order_map l !! p) <-> p ∈ l.
Proof.
  induction l as [|q l IH] using rev_ind.
  - unfold Concat.order_map. simpl. rewrite lookup_empty. split.
    + by intros [? ?].
    + by intros ?%elem_of_nil.
  - rewrite order_map_snoc, elem_of_app, list_elem_of_singleton.
    destruct (decide (q = p)) as [->|Hne].
    + rewrite lookup_insert_eq. split; [by right|by eexists].
    + rewrite lookup_insert_ne, IH by done. split; [by left|].
      intros [?|?]; [done|congruence].
Qed.

Context {A : Type} (R : relation A) (P : A -> Prop) `{!forall x, Decision (P x)}.

Lemma StronglySorted_filter (l : list A) :
  StronglySorted R l -> StronglySorted R (filter P l).
Proof.
  induction 1 as [|x l Hs IH Hall]; [constructor|].
  destruct (decide (P x)).
  - rewrite filter_cons_True by done. constructor; [done|].
    apply Forall_forall. intros y [_ Hy]%list_elem_of_filter.
    rewrite Forall_forall in Hall. by apply Hall.
  - by rewrite filter_cons_False.
Qed.

Lemma filter_none (l : list A) : (forall y, y ∈ l -> ~ P y) -> filter P l = [].
Proof.
  induction l as [|x l IH]; intros Hno; [done|].
  rewrite filter_cons_False by (apply Hno; by left).
  apply IH. intros y Hy. apply Hno. by right.
Qed.

(** A sorted list whose order puts the members of [P] first is its
    members of [P] followed by the others. *)
Lemma StronglySorted_split (l : list A) :
  (forall x y, R x y -> P y -> P x) ->
  StronglySorted R l ->
  l = (filter P l ++ filter (fun x => ~ P x) l)%list.
Proof.
  intros Hdown. induction 1 as [|x l Hs IH Hall]; [done|].
  destruct (decide (P x)) as [Hx|Hx].
  - rewrite filter_cons_True, (filter_cons_False (fun x => ~ P x)) by tauto.
    simpl. by rewrite <- IH.
  - rewrite filter_cons_False, filter_cons_True by done.
    assert (Hnone : filter P l = []).
    { apply filter_none. intros y Hy HPy.
      rewrite Forall_forall in Hall. apply Hx, (Hdown x y); [|done].
      by apply Hall. }
    rewrite Hnone. simpl. f_equal.
    rewrite IH at 1. by rewrite Hnone.
Qed.

End OrderFacts.

Lemma StronglySorted_weaken {A : Type} (R R' : relation A) (l : list A) :
  (forall x y, x ∈ l -> y ∈ l -> R x y -> R' x y) ->
  StronglySorted R l -> StronglySorted R' l.
Proof.
  intros Himp Hs. induction Hs as [|x l Hs IH Hall]; [constructor|].
  constructor.
  - apply IH. intros u v Hu Hv. apply Himp; by right.
  - apply Forall_forall. intros y Hy. rewrite Forall_forall in Hall.
    apply Himp; [by left|by right|by apply Hall].
Qed.

Lemma sorted_variables_ordered (order_list : list string)
    (variables_data : list Concat.variable) :
  order_list <> [] ->
  Concat.sorted_variables order_list variables_data
  = Py.sorted Concat.key_ltb (Concat.key_of (Concat.order_map order_list))
      variables_data.
Proof. by destruct order_list. Qed.

(** C7, as stated, fails: an order file that is supplied but has no
    line of the form [path : ...], such as a plain list of paths, gives
    an empty order list, and [write_txt_file] then sorts by depth: the
    paths [b.x] and [a.y] that the file lists are written last, after
    [A], [b] and [z].  And [write_reconstructed] takes no order file:
    it writes the variables as they come, [z], [a.y], [b], [b.x], [A]. *)
Lemma plain_order_file_not_followed :
  Concat.load_variable_order (Some plain_order_lines) = []
  /\ Concat.write_txt_file "NOW" (Some plain_order_lines) some_variables
     = (Concat.header "NOW" 5
        ++ (Concat.variable_line
              <$> [ var_of "A" "7" ""; var_of "b" "-0.0" " "; var_of "z" "1" "";
                    var_of "a.y" "0" "m"; var_of "b.x" "2.5" "u" ]))%list
  /\ Concat.write_reconstructed "NOW" some_variables
     = (Concat.header "NOW" 5
        ++ (Concat.variable_line
              <$> [ var_of "z" "1" ""; var_of "a.y" "0" "m"; var_of "b" "-0.0" " ";
                    var_of "b.x" "2.5" "u"; var_of "A" "7" "" ]))%list.
Proof. repeat split; vm_compute; reflexivity. Qed.

(** C7, amended: when the order file yields an order list (it has a
    line of the form [path : ...] that is no comment),
    [write_txt_file] writes, after the header, the lines of the
    variables whose paths are in the order list first, by rank (the
    last position of the path in the file), and then the lines of all
    the other variables, in the order of their paths as strings. *)
Theorem order_file_sorts (now : string) (order_file : option (list string))
    (variables_data : list Concat.variable) :
  let order_list := Concat.load_variable_order order_file in
  order_list <> [] ->
  exists known unknown,
    Concat.write_txt_file now order_file variables_data
    = (Concat.header now (length variables_data)
       ++ (Concat.variable_line <$> known) ++ (Concat.variable_line <$> unknown))%list
    /\ (known ++ unknown)%list ≡ₚ variables_data
    /\ Forall (fun v => Concat.path v ∈ order_list) known
    /\ Forall (fun v => Concat.path v ∉ order_list) unknown
    /\ StronglySorted (rank_le order_list) known
    /\ StronglySorted path_le unknown
    /\ (forall p i, Concat.order_map order_list !! p = Some i ->
                    order_list !! i = Some p
                    /\ forall j, order_list !! j = Some p -> (j <= i)%nat).
Proof.
  intros order_list Hne.
  set (m := Concat.order_map order_list).
  set (sorted := Py.sorted Concat.key_ltb (Concat.key_of m) variables_data).
  set (P := fun v : Concat.variable => Concat.path v ∈ order_list).
  assert (Hkey : forall v, (P v -> exists i, Concat.key_of m v = Concat.Known i
                                             /\ m !! Concat.path v = Some i)
                           /\ (~ P v -> Concat.key_of m v = Concat.Unknown (Concat.path v))).
  { intros v. unfold P, Concat.key_of.
    pose proof (order_map_is_Some order_list (Concat.path v)) as Hs. fold m in Hs.
    destruct (m !! Concat.path v) as [i|].
    - split; [by exists i|]. intros Hn. exfalso. apply Hn, Hs. by eexists.
    - split; [|done]. intros Hin. apply Hs in Hin as [? ?]. done. }
  assert (Hsorted : StronglySorted (not_after Concat.key_ltb (Concat.key_of m)) sorted).
  { apply sorted_StronglySorted; [apply key_ltb_asym|].
    intros x y z. unfold not_after. apply key_not_after_trans. }
  assert (Hsplit : sorted = (filter P sorted ++ filter (fun v => ~ P v) sorted)%list).
  { apply (StronglySorted_split _ P sorted) in Hsorted; [done|].
    intros x y Hxy Hy. destruct (decide (P x)) as [Hx|Hx]; [done|].
    apply (Hkey y) in Hy as (j & Hj & _). apply (Hkey x) in Hx.
    unfold not_after in Hxy. by rewrite Hj, Hx in Hxy. }
  exists (filter P sorted), (filter (fun v => ~ P v) sorted).
  split.
  { unfold Concat.write_txt_file. fold order_list.
    rewrite (sorted_variables_ordered order_list variables_data Hne).
    fold m. fold sorted. rewrite <- fmap_app, <- Hsplit. reflexivity. }
  split; [rewrite <- Hsplit; apply sorted_perm|].
  split; [apply Forall_forall; by intros v [? _]%list_elem_of_filter|].
  split; [apply Forall_forall; by intros v [? _]%list_elem_of_filter|].
  split.
  { pose proof (StronglySorted_filter _ P sorted Hsorted) as Hk.
    eapply StronglySorted_weaken; [|exact Hk].
    intros u v [Hu _]%list_elem_of_filter [Hv _]%list_elem_of_filter Huv.
    apply (Hkey u) in Hu as (i & Hi & Hmi). apply (Hkey v) in Hv as (j & Hj & Hmj).
    exists i, j. split; [done|]. split; [done|].
    unfold not_after in Huv. rewrite Hi, Hj in Huv. simpl in Huv.
    by apply Nat.ltb_ge in Huv. }
  split.
  { pose proof (StronglySorted_filter _ (fun v => ~ P v) sorted Hsorted) as Hk.
    eapply StronglySorted_weaken; [|exact Hk].
    intros u v [Hu _]%list_elem_of_filter [Hv _]%list_elem_of_filter Huv.
    apply (Hkey u) in Hu. apply (Hkey v) in Hv.
    unfold not_after in Huv. by rewrite Hu, Hv in Huv. }
  intros p i. apply order_map_lookup.
Qed.

Lemma order_file_sorts_witness :
  Concat.load_variable_order (Some order_lines) = ["b.x"; "a.y"; "b.x"]
  /\ Concat.load_variable_order (Some order_lines) <> []
  /\ exists known unknown,
       Concat.write_txt_file "NOW" (Some order_lines) some_variables
       = (Concat.header "NOW" 5
          ++ (Concat.variable_line <$> known) ++ (Concat.variable_line <$> unknown))%list
       /\ (known ++ unknown)%list ≡ₚ some_variables
       /\ Forall (fun v => Concat.path v ∈ ["b.x"; "a.y"; "b.x"]) known
       /\ Forall (fun v => Concat.path v ∉ ["b.x"; "a.y"; "b.x"]) unknown
       /\ StronglySorted (rank_le ["b.x"; "a.y"; "b.x"]) known
       /\ StronglySorted path_le unknown.
Proof.
  assert (Hl : Concat.load_variable_order (Some order_lines) = ["b.x"; "a.y"; "b.x"])
    by (vm_compute; reflexivity).
  assert (Hne : Concat.load_variable_order (Some order_lines) <> [])
    by (rewrite Hl; discriminate).
  split; [exact Hl|]. split; [exact Hne|].
  destruct (order_file_sorts "NOW" (Some order_lines) some_variables Hne)
    as (known & unknown & H1 & H2 & H3 & H4 & H5 & H6 & _).
  rewrite Hl in H3, H4, H5.
  exists known, unknown.
  split; [exact H1|]. split; [exact H2|]. split; [exact H3|].
  split; [exact H4|]. split; [exact H5|exact H6].
Defined.

(** The lines written for the variables of the example. *)
Lemma order_file_example :
  Concat.path <$> Concat.sorted_variables
                    (Concat.load_variable_order (Some order_lines)) some_variables
  = ["a.y"; "b.x"; "A"; "b"; "z"].
Proof. vm_compute. reflexivity. Qed.

(** ** Exact fractions: rounding and logarithms *)

Section RatioFacts.

(** Rounding to the nearest integer is within a half. *)
Lemma round_half_even_spec (n d : Z) :
  0 <= n -> 0 < d ->
  0 <= Ratio.round_half_even n d
  /\ 2 * Z.abs (Ratio.round_half_even n d * d - n) <= d.
Proof.
  intros Hn Hd. unfold Ratio.round_half_even.
  pose proof (Z.div_mod n d ltac:(lia)) as Hdm.
  pose proof (Z.mod_pos_bound n d Hd) as Hr.
  assert (Hq : 0 <= n / d) by (apply Z.div_pos; lia).
  destruct (2 * (n mod d) ?= d) eqn:E.
  - apply Z.compare_eq in E. destruct (Z.even (n / d)); split; nia.
  - rewrite Z.compare_lt_iff in E. split; nia.
  - rewrite Z.compare_gt_iff in E. split; nia.
Qed.

Lemma ilog_up_spec (fuel : nat) (b n dk k : Z) :
  2 <= b -> 0 < dk -> dk <= n -> n < dk * b ^ Z.of_nat fuel ->
  exists j, 0 <= j /\ Ratio.ilog_up fuel b n dk k = k + j
            /\ dk * b ^ j <= n < dk * b ^ (j + 1).
Proof.
  intros Hb. revert dk k. induction fuel as [|fuel IH]; intros dk k Hdk Hle Hlt.
  - simpl in Hlt. lia.
  - simpl. destruct (dk * b <=? n) eqn:E.
    + apply Z.leb_le in E.
      destruct (IH (dk * b) (k + 1)) as (j & Hj & -> & Hlo & Hhi); [nia|lia| |].
      { rewrite Nat2Z.inj_succ, Z.pow_succ_r in Hlt by lia. lia. }
      exists (j + 1). split; [lia|]. split; [lia|].
      rewrite !Z.pow_add_r, !Z.pow_1_r in * by lia. lia.
    + apply Z.leb_gt in E. exists 0. rewrite Z.pow_0_r, Z.add_0_l, Z.pow_1_r. lia.
Qed.

Lemma ilog_down_spec (fuel : nat) (b nj d j : Z) :
  2 <= b -> 0 < nj -> nj < d -> d <= nj * b ^ Z.of_nat fuel ->
  exists i, 1 <= i /\ Ratio.ilog_down fuel b nj d j = - (j + i)
            /\ nj * b ^ (i - 1) < d <= nj * b ^ i.
Proof.
  intros Hb. revert nj j. induction fuel as [|fuel IH]; intros nj j Hnj Hlt Hle.
  - simpl in Hle. lia.
  - simpl. destruct (d <=? nj * b) eqn:E.
    + apply Z.leb_le in E. exists 1. rewrite Z.sub_diag, Z.pow_0_r, Z.pow_1_r. lia.
    + apply Z.leb_gt in E.
      destruct (IH (nj * b) (j + 1)) as (i & Hi & -> & Hlo & Hhi); [nia|lia| |].
      { rewrite Nat2Z.inj_succ, Z.pow_succ_r in Hle by lia. lia. }
      exists (i + 1). split; [lia|]. split; [lia|].
      replace (i + 1 - 1) with ((i - 1) + 1) by lia.
      rewrite !Z.pow_add_r, !Z.pow_1_r in * by lia. lia.
Qed.

Lemma pow_fuel_bound (b x : Z) :
  2 <= b -> 0 < x -> x < b ^ Z.of_nat (S (Z.to_nat (Z.log2 x))).
Proof.
  intros Hb Hx. pose proof (Z.log2_nonneg x) as Hl.
  destruct (Z.log2_spec x Hx) as [_ Hhi].
  rewrite Nat2Z.inj_succ, Z2Nat.id by lia.
  eapply Z.lt_le_trans; [exact Hhi|].
  apply Z.pow_le_mono_l. lia.
Qed.

(** [ilog b n d], as integers: the two cases of its sign. *)
Lemma ilog_cases (b n d : Z) :
  2 <= b -> 0 < n -> 0 < d ->
  (exists j, 0 <= j /\ Ratio.ilog b n d = j /\ d * b ^ j <= n < d * b ^ (j + 1))
  \/ (exists i, 1 <= i /\ Ratio.ilog b n d = - i
                /\ n * b ^ (i - 1) < d <= n * b ^ i).
Proof.
  intros Hb Hn Hd. unfold Ratio.ilog. destruct (d <=? n) eqn:E.
  - apply Z.leb_le in E. left.
    destruct (ilog_up_spec (S (Z.to_nat (Z.log2 n))) b n d 0) as (j & Hj & -> & H);
      try lia.
    { pose proof (pow_fuel_bound b n Hb Hn). nia. }
    exists j. split; [lia|]. split; [lia|exact H].
  - apply Z.leb_gt in E. right.
    destruct (ilog_down_spec (S (Z.to_nat (Z.log2 d))) b n d 0) as (i & Hi & -> & H);
      try lia.
    { pose proof (pow_fuel_bound b d Hb Hd). nia. }
    exists i. split; [lia|]. split; [f_equal; lia|exact H].
Qed.

End RatioFacts.

Section QFacts.

Local Open Scope Q_scope.

Lemma inject_Z_pos (n : Z) : (0 < n)%Z -> 0 < inject_Z n.
Proof. intros H. change 0 with (inject_Z 0). by rewrite <- Zlt_Qlt. Qed.

Lemma inject_Z_nonzero (n : Z) : (0 < n)%Z -> ~ inject_Z n == 0.
Proof. intros H%inject_Z_pos E. rewrite E in H. by apply Qlt_irrefl in H. Qed.

Lemma Qpow_pos (b : Z) (e : Z) : (0 < b)%Z -> 0 < inject_Z b ^ e.
Proof. intros H. apply Qpower_0_lt. by apply inject_Z_pos. Qed.

Lemma Qpow_nonzero (b : Z) (e : Z) : (0 < b)%Z -> ~ inject_Z b ^ e == 0.
Proof. intros H. apply Qpower_not_0. by apply inject_Z_nonzero. Qed.

Lemma frac_pos (n d : Z) : (0 < n)%Z -> (0 < d)%Z -> 0 < frac n d.
Proof.
  intros Hn Hd. unfold frac. apply Qlt_shift_div_l; [by apply inject_Z_pos|].
  rewrite Qmult_0_l. by apply inject_Z_pos.
Qed.

(** The fraction that [scale] returns. *)
Lemma scale_spec (b n d e n' d' : Z) :
  (0 < b)%Z -> (0 < n)%Z -> (0 < d)%Z ->
  Ratio.scale b n d e = (n', d') ->
  (0 < n')%Z /\ (0 < d')%Z /\ frac n' d' == frac n d / inject_Z b ^ e.
Proof.
  intros Hb Hn Hd. unfold Ratio.scale.
  pose proof (inject_Z_nonzero d Hd) as Hd0.
  destruct (0 <=? e)%Z eqn:E; intros [= <- <-].
  - apply Z.leb_le in E.
    assert (Hp : (0 < b ^ e)%Z) by (apply Z.pow_pos_nonneg; lia).
    split; [done|]. split; [nia|].
    unfold frac. rewrite inject_Z_mult, Zpower_Qpower by done.
    pose proof (Qpow_nonzero b e Hb). field. by split.
  - apply Z.leb_gt in E.
    assert (Hp : (0 < b ^ (- e))%Z) by (apply Z.pow_pos_nonneg; lia).
    split; [nia|]. split; [done|].
    unfold frac. rewrite inject_Z_mult, Zpower_Qpower by lia.
    rewrite Qpower_opp.
    pose proof (Qpow_nonzero b e Hb). field. by split.
Qed.

Lemma Qinv_le_div (p n d : Q) : 0 < p -> 0 < d -> d <= n * p -> / p <= n / d.
Proof.
  intros Hp Hd H. apply Qle_shift_div_l; [done|].
  assert (E : / p * d == d / p) by (field; lra). rewrite E.
  by apply Qle_shift_div_r.
Qed.

Lemma Qdiv_lt_inv (p n d : Q) : 0 < p -> 0 < d -> n * p < d -> n / d < / p.
Proof.
  intros Hp Hd H. apply Qlt_shift_div_r; [done|].
  assert (E : / p * d == d / p) by (field; lra). rewrite E.
  by apply Qlt_shift_div_l.
Qed.

(** [ilog] is the floor of the logarithm. *)
Lemma ilog_spec (b n d : Z) :
  (2 <= b)%Z -> (0 < n)%Z -> (0 < d)%Z ->
  inject_Z b ^ Ratio.ilog b n d <= frac n d
  /\ frac n d < inject_Z b ^ (Ratio.ilog b n d + 1).
Proof.
  intros Hb Hn Hd.
  pose proof (inject_Z_pos d Hd) as Hdq. pose proof (inject_Z_pos n Hn) as Hnq.
  assert (Hb0 : (0 < b)%Z) by lia.
  destruct (ilog_cases b n d Hb Hn Hd)
    as [(j & Hj & -> & Hlo & Hhi)|(i & Hi & -> & Hlo & Hhi)]; unfold frac.
  - split.
    + apply Qle_shift_div_l; [done|].
      rewrite <- Zpower_Qpower, <- inject_Z_mult, <- Zle_Qle by done. lia.
    + apply Qlt_shift_div_r; [done|].
      rewrite <- Zpower_Qpower, <- inject_Z_mult, <- Zlt_Qlt by lia. lia.
  - split.
    + rewrite Qpower_opp. apply Qinv_le_div; [by apply Qpow_pos|done|].
      rewrite <- Zpower_Qpower, <- inject_Z_mult, <- Zle_Qle by lia. lia.
    + replace (- i + 1)%Z with (- (i - 1))%Z by lia. rewrite Qpower_opp.
      apply Qdiv_lt_inv; [by apply Qpow_pos|done|].
      rewrite <- Zpower_Qpower, <- inject_Z_mult, <- Zlt_Qlt by lia. lia.
Qed.

Lemma round_half_even_Q (n d : Z) :
  (0 <= n)%Z -> (0 < d)%Z ->
  Qabs (inject_Z (Ratio.round_half_even n d) - frac n d) <= 1 # 2.
Proof.
  intros Hn Hd. destruct (round_half_even_spec n d Hn Hd) as [_ H].
  set (m := Ratio.round_half_even n d) in *.
  pose proof (inject_Z_pos d Hd) as Hdq.
  apply Qabs_Qle_condition. unfold frac.
  assert (H1 : inject_Z n - inject_Z d * (1 # 2) <= inject_Z m * inject_Z d).
  { assert (Hz : (2 * n <= 2 * (m * d) + d)%Z) by lia.
    rewrite Zle_Qle in Hz. rewrite inject_Z_plus, !inject_Z_mult in Hz.
    change (inject_Z 2) with 2 in Hz. lra. }
  assert (H2 : inject_Z m * inject_Z d <= inject_Z n + inject_Z d * (1 # 2)).
  { assert (Hz : (2 * (m * d) <= 2 * n + d)%Z) by lia.
    rewrite Zle_Qle in Hz. rewrite inject_Z_plus, !inject_Z_mult in Hz.
    change (inject_Z 2) with 2 in Hz. lra. }
  split.
  - apply Qle_minus_iff. 
    assert (Hx : inject_Z n / inject_Z d <= inject_Z m + (1 # 2)).
    { apply Qle_shift_div_r; [done|]. lra. }
    lra.
  - assert (Hx : inject_Z m - (1 # 2) <= inject_Z n / inject_Z d).
    { apply Qle_shift_div_l; [done|]. lra. }
    lra.
Qed.

(** An integer within a half of [q] is a nearest integer. *)
Lemma nearest_integer (m j : Z) (q : Q) :
  Qabs (inject_Z m - q) <= 1 # 2 ->
  Qabs (inject_Z m - q) <= Qabs (inject_Z j - q).
Proof.
  intros H. apply Qabs_Qle_condition in H as [H1 H2].
  destruct (Z.lt_trichotomy j m) as [Hlt|[->|Hgt]].
  - assert (Hz : (j + 1 <= m)%Z) by lia.
    rewrite Zle_Qle in Hz. rewrite inject_Z_plus in Hz. change (inject_Z 1) with 1 in Hz.
    apply Qabs_case; intros; apply Qabs_case; intros; lra.
  - apply Qle_refl.
  - assert (Hz : (m + 1 <= j)%Z) by lia.
    rewrite Zle_Qle in Hz. rewrite inject_Z_plus in Hz. change (inject_Z 1) with 1 in Hz.
    apply Qabs_case; intros; apply Qabs_case; intros; lra.
Qed.

End QFacts.

Section Pow2Facts.

Local Open Scope Q_scope.

Lemma pow2_pos (e : Z) : 0 < 2 ^ e.
Proof. by apply Qpower_0_lt. Qed.

Lemma pow2_add (a b : Z) : 2 ^ (a + b) == 2 ^ a * 2 ^ b.
Proof. by apply Qpower_plus. Qed.

Lemma pow2_le (a b : Z) : (a <= b)%Z -> 2 ^ a <= 2 ^ b.
Proof. intros H. by apply Qpower_le_compat_l. Qed.

Lemma pow2_lt (a b : Z) : (a < b)%Z -> 2 ^ a < 2 ^ b.
Proof. intros H. by apply Qpower_lt_compat_l. Qed.

Lemma pow2_inject (k : Z) : (0 <= k)%Z -> inject_Z (2 ^ k) == 2 ^ k.
Proof. intros H. by rewrite Zpower_Qpower. Qed.

Lemma pow2_succ (a : Z) : 2 ^ (a + 1) == 2 * 2 ^ a.
Proof. rewrite pow2_add. change (2 ^ 1) with 2. ring. Qed.

(** Distances scale with a positive factor. *)
Lemma Qabs_scale (a b c : Q) : 0 < c -> Qabs (a * c - b * c) == Qabs (a - b) * c.
Proof.
  intros Hc. assert (E : a * c - b * c == (a - b) * c) by ring.
  rewrite E, Qabs_Qmult. rewrite (Qabs_pos c) by lra. reflexivity.
Qed.

(** An integer below a half-integer bound. *)
Lemma inject_Z_lt_half (m k : Z) : inject_Z m < inject_Z k + (1 # 2) -> (m <= k)%Z.
Proof.
  intros H. destruct (Z_le_gt_dec m k) as [|Hgt]; [done|].
  assert (Hz : (k + 1 <= m)%Z) by lia.
  rewrite Zle_Qle, inject_Z_plus in Hz. change (inject_Z 1) with 1 in Hz. lra.
Qed.

Lemma inject_Z_gt_half (m k : Z) : inject_Z k - (1 # 2) <= inject_Z m -> (k <= m)%Z.
Proof.
  intros H. destruct (Z_le_gt_dec k m) as [|Hgt]; [done|].
  assert (Hz : (m + 1 <= k)%Z) by lia.
  rewrite Zle_Qle, inject_Z_plus in Hz. change (inject_Z 1) with 1 in Hz. lra.
Qed.

End Pow2Facts.

Section GridFacts.

Local Open Scope Q_scope.

(** The grid of the multiples of [2 ^ e0], where [e0] is the exponent of
    the binade of [r] or the least exponent: the nearest point of the
    grid is at least as near to [r] as any float. *)
Lemma binary_grid (r : Q) (L e0 m0 : Z) :
  2 ^ L <= r -> r < 2 ^ (L + 1) ->
  e0 = Z.max (L - 52) (-1074) ->
  Qabs (inject_Z m0 - r / 2 ^ e0) <= 1 # 2 ->
  (m0 <= 2 ^ 53)%Z
  /\ (forall mx ex : Z,
        (0 < mx < 2 ^ 53)%Z -> (-1074 <= ex)%Z ->
        Qabs (inject_Z m0 * 2 ^ e0 - r) <= Qabs (inject_Z mx * 2 ^ ex - r))
  /\ ((-1074 < e0)%Z -> (2 ^ 52 <= m0)%Z).
Proof.
  intros Hlo Hhi He Hm.
  pose proof (pow2_pos e0) as He0.
  set (q := r / 2 ^ e0) in *.
  assert (Hr : r == q * 2 ^ e0) by (unfold q; field; lra).
  assert (Hgrid : forall j : Z,
             Qabs (inject_Z m0 * 2 ^ e0 - r) <= Qabs (inject_Z j * 2 ^ e0 - r)).
  { intros j. rewrite Hr, !Qabs_scale by done.
    apply Qmult_le_compat_r; [|lra]. by apply nearest_integer. }
  apply Qabs_Qle_condition in Hm as [Hm1 Hm2].
  split; [|split].
  - apply inject_Z_lt_half. rewrite pow2_inject by lia.
    assert (Hq : q < 2 ^ 53).
    { unfold q. apply Qlt_shift_div_r; [done|].
      eapply Qlt_le_trans; [exact Hhi|].
      rewrite <- pow2_add. apply pow2_le. lia. }
    lra.
  - intros mx ex Hmx Hex. destruct (Z_le_gt_dec e0 ex) as [Hge|Hlt].
    + specialize (Hgrid (mx * 2 ^ (ex - e0))%Z).
      rewrite inject_Z_mult, pow2_inject in Hgrid by lia.
      assert (E : inject_Z mx * 2 ^ (ex - e0) * 2 ^ e0 == inject_Z mx * 2 ^ ex).
      { rewrite <- Qmult_assoc, <- pow2_add. by replace (ex - e0 + e0)%Z with ex by lia. }
      by rewrite E in Hgrid.
    + assert (HeL : e0 = (L - 52)%Z) by lia.
      specialize (Hgrid (2 ^ 52)%Z). rewrite pow2_inject in Hgrid by lia.
      assert (E : 2 ^ 52 * 2 ^ e0 == 2 ^ L).
      { rewrite <- pow2_add. by replace (52 + e0)%Z with L by lia. }
      rewrite E in Hgrid.
      assert (Hx : inject_Z mx * 2 ^ ex <= 2 ^ L).
      { assert (Hmq : inject_Z mx <= 2 ^ 53).
        { rewrite <- pow2_inject by lia. rewrite <- Zle_Qle. lia. }
        assert (H1 : inject_Z mx * 2 ^ ex <= 2 ^ 53 * 2 ^ ex).
        { apply Qmult_le_compat_r; [done|]. pose proof (pow2_pos ex). lra. }
        eapply Qle_trans; [exact H1|].
        rewrite <- pow2_add. apply pow2_le. lia. }
      eapply Qle_trans; [exact Hgrid|].
      rewrite (Qabs_neg (2 ^ L - r)) by lra.
      rewrite (Qabs_neg (inject_Z mx * 2 ^ ex - r)) by lra. lra.
  - intros Hemin. assert (HeL : e0 = (L - 52)%Z) by lia.
    apply inject_Z_gt_half. rewrite pow2_inject by lia.
    assert (Hq : 2 ^ 52 <= q).
    { unfold q. apply Qle_shift_div_l; [done|].
      rewrite <- pow2_add. by replace (52 + e0)%Z with L by lia. }
    lra.
Qed.

End GridFacts.

Section OfRatioFacts.

Local Open Scope Q_scope.

(** The float of a positive fraction: the nearest point [m * 2 ^ e] of
    its grid, which is at least as near as any float, and an infinity
    only when that point is [2 ^ 1024] or more. *)
Lemma of_ratio_spec (s : bool) (n d : Z) :
  (0 < n)%Z -> (0 < d)%Z ->
  exists m e : Z,
    (0 <= m < 2 ^ 53)%Z /\ (-1074 <= e)%Z
    /\ Float.of_ratio s n d
       = match m with
         | Zpos p => if (e <=? 971)%Z then S754_finite s p e else S754_infinity s
         | _ => S754_zero s
         end
    /\ (forall mx ex : Z,
          (0 < mx < 2 ^ 53)%Z -> (-1074 <= ex)%Z ->
          Qabs (inject_Z m * 2 ^ e - frac n d) <= Qabs (inject_Z mx * 2 ^ ex - frac n d))
    /\ ((971 < e)%Z -> (0 < m)%Z -> 2 ^ 1024 <= inject_Z m * 2 ^ e).
Proof.
  intros Hn Hd. unfold Float.of_ratio.
  change Float.prec with 53%Z. change Float.emax with 1024%Z.
  change Float.emin with (-1074)%Z. change (53 - 1)%Z with 52%Z.
  change (1024 - 53)%Z with 971%Z.
  destruct (ilog_spec 2 n d ltac:(lia) Hn Hd) as [Hlo Hhi].
  change (inject_Z 2) with 2 in Hlo, Hhi.
  set (L := Ratio.ilog 2 n d) in *.
  set (e0 := Z.max (L - 52) (-1074)).
  destruct (Ratio.scale 2 n d e0) as [n' d'] eqn:Hs.
  destruct (scale_spec 2 n d e0 n' d' ltac:(lia) Hn Hd Hs) as (Hn' & Hd' & Hq).
  change (inject_Z 2) with 2 in Hq.
  pose proof (round_half_even_Q n' d' ltac:(lia) Hd') as Hm.
  destruct (round_half_even_spec n' d' ltac:(lia) Hd') as [Hm0 _].
  set (m0 := Ratio.round_half_even n' d') in *.
  rewrite Hq in Hm.
  destruct (binary_grid (frac n d) L e0 m0 Hlo Hhi eq_refl Hm) as (Hle & Hnear & Hbig).
  destruct (m0 =? 2 ^ 53)%Z eqn:E.
  - apply Z.eqb_eq in E.
    exists (2 ^ 52)%Z, (e0 + 1)%Z.
    assert (Hv : inject_Z (2 ^ 52) * 2 ^ (e0 + 1) == inject_Z m0 * 2 ^ e0).
    { rewrite E, !pow2_inject by lia. rewrite pow2_succ.
      assert (E2 : (2 : Q) ^ 53 == 2 * 2 ^ 52) by (rewrite <- pow2_succ; reflexivity).
      rewrite E2. ring. }
    split; [lia|]. split; [lia|]. split; [reflexivity|]. split.
    + intros mx ex Hmx Hex. rewrite Hv. by apply Hnear.
    + intros He _. rewrite pow2_inject, <- pow2_add by lia. apply pow2_le. lia.
  - apply Z.eqb_neq in E.
    exists m0, e0. split; [lia|]. split; [lia|]. split; [reflexivity|].
    split; [exact Hnear|].
    intros He Hpos.
    assert (H52 : (2 ^ 52 <= m0)%Z) by (apply Hbig; lia).
    rewrite Zle_Qle, pow2_inject in H52 by lia.
    eapply Qle_trans; [|apply Qmult_le_compat_r; [exact H52|]].
    + rewrite <- pow2_add. apply pow2_le. lia.
    + pose proof (pow2_pos e0). lra.
Qed.

End OfRatioFacts.

Section Pow10Facts.

Local Open Scope Q_scope.

Lemma pow10_pos (e : Z) : 0 < 10 ^ e.
Proof. by apply Qpower_0_lt. Qed.

Lemma pow10_add (a b : Z) : 10 ^ (a + b) == 10 ^ a * 10 ^ b.
Proof. by apply Qpower_plus. Qed.

Lemma pow10_inject (k : Z) : (0 <= k)%Z -> inject_Z (10 ^ k) == 10 ^ k.
Proof. intros H. by rewrite Zpower_Qpower. Qed.

(** The digits of the [e] format: [p + 1] of them, and the decimal they
    stand for is within half a unit of the last digit, a unit that is
    at most [10 ^ (- p)] times the value. *)
Lemma decimal_digits_spec (p : nat) (n d N k : Z) :
  (0 < n)%Z -> (0 < d)%Z ->
  Float.decimal_digits p n d = (N, k) ->
  (10 ^ Z.of_nat p <= N < 10 ^ (Z.of_nat p + 1))%Z
  /\ Qabs (inject_Z N * 10 ^ (k - Z.of_nat p) - frac n d)
     <= (1 # 2) * 10 ^ (- Z.of_nat p) * frac n d.
Proof.
  intros Hn Hd. unfold Float.decimal_digits.
  destruct (ilog_spec 10 n d ltac:(lia) Hn Hd) as [Hlo Hhi].
  change (inject_Z 10) with 10 in Hlo, Hhi.
  set (k0 := Ratio.ilog 10 n d) in *.
  set (P := Z.of_nat p). assert (HP : (0 <= P)%Z) by lia.
  destruct (Ratio.scale 10 n d (k0 - P)) as [n' d'] eqn:Hs.
  destruct (scale_spec 10 n d (k0 - P) n' d' ltac:(lia) Hn Hd Hs) as (Hn' & Hd' & Hq).
  change (inject_Z 10) with 10 in Hq.
  pose proof (round_half_even_Q n' d' ltac:(lia) Hd') as Hm.
  set (m0 := Ratio.round_half_even n' d') in *.
  rewrite Hq in Hm.
  pose proof (pow10_pos (k0 - P)) as Hu.
  set (q := frac n d / 10 ^ (k0 - P)) in *.
  assert (Hv : frac n d == q * 10 ^ (k0 - P)) by (unfold q; field; lra).
  assert (Hq1 : 10 ^ P <= q).
  { unfold q. apply Qle_shift_div_l; [done|].
    rewrite <- pow10_add. by replace (P + (k0 - P))%Z with k0 by lia. }
  assert (Hq2 : q < 10 ^ (P + 1)).
  { unfold q. apply Qlt_shift_div_r; [done|].
    rewrite <- pow10_add. by replace (P + 1 + (k0 - P))%Z with (k0 + 1)%Z by lia. }
  assert (Herr : Qabs (inject_Z m0 * 10 ^ (k0 - P) - frac n d)
                 <= (1 # 2) * 10 ^ (- P) * frac n d).
  { rewrite Hv at 1. rewrite Qabs_scale by done.
    apply Qle_trans with ((1 # 2) * 10 ^ (k0 - P)).
    - apply Qmult_le_compat_r; [done|lra].
    - assert (E : 10 ^ (k0 - P) == 10 ^ (- P) * 10 ^ k0).
      { rewrite <- pow10_add. by replace (- P + k0)%Z with (k0 - P)%Z by lia. }
      rewrite E. pose proof (pow10_pos (- P)) as Hpp.
      rewrite <- Qmult_assoc. apply Qmult_le_l; [lra|].
      apply Qmult_le_l; [done|exact Hlo]. }
  apply Qabs_Qle_condition in Hm as [Hm1 Hm2].
  assert (HmLo : (10 ^ P <= m0)%Z).
  { apply inject_Z_gt_half. rewrite pow10_inject by done. lra. }
  assert (HmHi : (m0 <= 10 ^ (P + 1))%Z).
  { apply inject_Z_lt_half. rewrite pow10_inject by lia. lra. }
  rewrite Nat2Z.inj_succ. fold P. change (Z.succ P) with (P + 1)%Z.
  destruct (m0 =? 10 ^ (P + 1))%Z eqn:E; intros [= <- <-].
  - apply Z.eqb_eq in E. split.
    + rewrite Z.pow_add_r by lia. assert (0 < 10 ^ P)%Z by (apply Z.pow_pos_nonneg; lia).
      lia.
    + assert (E2 : inject_Z (10 ^ P) * 10 ^ (k0 + 1 - P)
                   == inject_Z m0 * 10 ^ (k0 - P)).
      { rewrite E, !pow10_inject, <- !pow10_add by lia.
        by replace (P + (k0 + 1 - P))%Z with (P + 1 + (k0 - P))%Z by lia. }
      by rewrite E2.
  - apply Z.eqb_neq in E. split; [lia|exact Herr].
Qed.

End Pow10Facts.

Section FormatStringFacts.

Lemma str_app_cons (x : ascii) (a b : string) :
  String x a ++ b = String x (a ++ b).
Proof. reflexivity. Qed.

Lemma str_app_nil_l (b : string) : "" ++ b = b.
Proof. reflexivity. Qed.

Lemma str_app_assoc (a b c : string) : (a ++ b) ++ c = a ++ (b ++ c).
Proof.
  induction a as [|x a IH]; [done|]. by rewrite !str_app_cons, IH.
Qed.

Lemma str_app_nil_r (a : string) : a ++ "" = a.
Proof.
  induction a as [|x a IH]; [done|]. by rewrite str_app_cons, IH.
Qed.

Lemma all_chars_app (P : ascii -> bool) (a b : string) :
  all_chars P (a ++ b) = all_chars P a && all_chars P b.
Proof.
  induction a as [|x a IH]; [done|].
  rewrite str_app_cons. cbn [all_chars]. by rewrite IH, andb_assoc.
Qed.

Lemma plain_char_facts (c : ascii) :
  plain_char c = true ->
  Float.c_isspace c = false /\ Ascii.eqb c "_" = false /\ PyStr.lower_char c = c.
Proof.
  destruct c as [[] [] [] [] [] [] [] []]; vm_compute; intros H;
    try discriminate H; repeat split.
Qed.

Lemma lstrip_by_plain (s : string) :
  all_chars plain_char s = true -> PyStr.lstrip_by Float.c_isspace s = s.
Proof.
  destruct s as [|c s]; [done|]. cbn [all_chars PyStr.lstrip_by].
  intros [Hc _]%andb_true_iff. apply plain_char_facts in Hc as (-> & _). done.
Qed.

Lemma rstrip_by_plain (s : string) :
  all_chars plain_char s = true -> PyStr.rstrip_by Float.c_isspace s = s.
Proof.
  induction s as [|c s IH]; [done|]. cbn [all_chars PyStr.rstrip_by].
  intros [Hc Hs]%andb_true_iff. rewrite (IH Hs).
  apply plain_char_facts in Hc as (-> & _). by destruct s.
Qed.

Lemma strip_by_plain (s : string) :
  all_chars plain_char s = true -> PyStr.strip_by Float.c_isspace s = s.
Proof.
  intros H. unfold PyStr.strip_by. rewrite (lstrip_by_plain s H).
  by apply rstrip_by_plain.
Qed.

Lemma drop_underscores_plain (s : string) (prev : ascii) :
  all_chars plain_char s = true -> Ascii.eqb prev "_" = false ->
  Float.drop_underscores prev s = Some s.
Proof.
  revert prev. induction s as [|c s IH]; intros prev.
  - intros _ Hp. cbn [Float.drop_underscores]. by rewrite Hp.
  - cbn [all_chars Float.drop_underscores].
    intros [Hc Hs]%andb_true_iff Hp.
    apply plain_char_facts in Hc as (_ & Hc & _).
    rewrite Hc, Hp. cbn [andb]. by rewrite (IH c Hs Hc).
Qed.

Lemma lower_plain (s : string) :
  all_chars plain_char s = true -> PyStr.lower s = s.
Proof.
  induction s as [|c s IH]; [done|]. cbn [all_chars PyStr.lower].
  intros [Hc Hs]%andb_true_iff. rewrite (IH Hs).
  by apply plain_char_facts in Hc as (_ & _ & ->).
Qed.

Lemma digit_cases (d : Z) :
  0 <= d < 10 ->
  d = 0 \/ d = 1 \/ d = 2 \/ d = 3 \/ d = 4 \/ d = 5 \/ d = 6 \/ d = 7
  \/ d = 8 \/ d = 9.
Proof. lia. Qed.

Lemma digit_char_facts (d : Z) :
  0 <= d < 10 ->
  PyStr.isdigit (Float.digit_char d) = true
  /\ Float.digit_val (Float.digit_char d) = d
  /\ plain_char (Float.digit_char d) = true.
Proof.
  intros H. destruct (digit_cases d H) as [->|[->|[->|[->|[->|[->|[->|[->|[->| ->]]]]]]]]];
    vm_compute; done.
Qed.

Lemma mod10_bound (n : Z) : 0 <= n mod 10 < 10.
Proof. apply Z.mod_pos_bound. lia. Qed.

Lemma fixed_digits_plain (w : nat) (n : Z) :
  all_chars plain_char (Float.fixed_digits w n) = true.
Proof.
  revert n. induction w as [|w IH]; intros n; [done|].
  cbn [Float.fixed_digits]. rewrite all_chars_app, IH. cbn [all_chars andb].
  destruct (digit_char_facts _ (mod10_bound n)) as (_ & _ & ->). done.
Qed.

Lemma span_digits_fixed (w : nat) (n : Z) (rest : string) (acc : Z) (cnt : nat) :
  Float.span_digits (Float.fixed_digits w n ++ rest) acc cnt
  = Float.span_digits rest (acc * 10 ^ Z.of_nat w + n mod 10 ^ Z.of_nat w)
      (cnt + w)%nat.
Proof.
  revert n rest. induction w as [|w IH]; intros n rest.
  - cbn [Float.fixed_digits]. rewrite str_app_nil_l.
    change (10 ^ Z.of_nat 0) with 1. rewrite Z.mod_1_r, Nat.add_0_r.
    f_equal. lia.
  - cbn [Float.fixed_digits]. rewrite str_app_assoc.
    rewrite str_app_cons, str_app_nil_l.
    rewrite IH. cbn [Float.span_digits].
    destruct (digit_char_facts _ (mod10_bound n)) as (-> & -> & _).
    f_equal; [|lia].
    rewrite Nat2Z.inj_succ, Z.pow_succ_r by lia.
    assert (Hp : 0 < 10 ^ Z.of_nat w) by (apply Z.pow_pos_nonneg; lia).
    rewrite (Z.rem_mul_r n 10 (10 ^ Z.of_nat w)) by lia. lia.
Qed.

Lemma fixed_digits_head (w : nat) (n : Z) :
  Float.fixed_digits (S w) n
  = String (Float.digit_char ((n / 10 ^ Z.of_nat w) mod 10)) (Float.fixed_digits w n).
Proof.
  revert n. induction w as [|w IH]; intros n.
  - cbn [Float.fixed_digits]. change (10 ^ Z.of_nat 0) with 1.
    by rewrite Z.div_1_r.
  - change (Float.fixed_digits (S (S w)) n)
      with (Float.fixed_digits (S w) (n / 10)
            ++ String (Float.digit_char (n mod 10)) "").
    rewrite IH, str_app_cons. cbn [Float.fixed_digits].
    do 2 f_equal. rewrite Nat2Z.inj_succ, Z.pow_succ_r by lia.
    assert (Hp : 0 < 10 ^ Z.of_nat w) by (apply Z.pow_pos_nonneg; lia).
    by rewrite Z.div_div by lia.
Qed.

End FormatStringFacts.

Section FormatParseFacts.

Lemma read_sign_digit (d : Z) (r : string) :
  0 <= d < 10 ->
  Float.read_sign (String (Float.digit_char d) r)
  = (false, String (Float.digit_char d) r).
Proof.
  intros H. destruct (digit_cases d H) as [->|[->|[->|[->|[->|[->|[->|[->|[->| ->]]]]]]]]];
    reflexivity.
Qed.

Lemma not_special_digit (d : Z) (r : string) :
  0 <= d < 10 ->
  let w := String (Float.digit_char d) r in
  PyStr.eqb w "inf" || PyStr.eqb w "infinity" = false /\ PyStr.eqb w "nan" = false.
Proof.
  intros H. destruct (digit_cases d H) as [->|[->|[->|[->|[->|[->|[->|[->|[->| ->]]]]]]]]];
    split; reflexivity.
Qed.

Lemma num_digits_bound (a : Z) :
  0 < a -> a < 10 ^ Z.of_nat (Float.num_digits a).
Proof.
  intros Ha. unfold Float.num_digits.
  destruct (ilog_cases 10 a 1 ltac:(lia) Ha ltac:(lia))
    as [(j & Hj & -> & _ & Hhi)|(i & Hi & _ & Hlt & _)].
  - rewrite Nat2Z.inj_succ, Z2Nat.id by lia.
    change (Z.succ j) with (j + 1). lia.
  - assert (0 < 10 ^ (i - 1)) by (apply Z.pow_pos_nonneg; lia). nia.
Qed.

Lemma exponent_str_parse (k : Z) :
  exists (sg : ascii) (w : nat),
    Float.exponent_str k = String "e" (String sg (Float.fixed_digits (S w) (Z.abs k)))
    /\ Float.read_sign (String sg (Float.fixed_digits (S w) (Z.abs k)))
       = (k <? 0, Float.fixed_digits (S w) (Z.abs k))
    /\ plain_char sg = true
    /\ Z.abs k < 10 ^ Z.of_nat (S w).
Proof.
  unfold Float.exponent_str.
  set (a := Z.abs k).
  set (w := Nat.max 2 (if a =? 0 then 1%nat else Float.num_digits a)).
  assert (Hw : (2 <= w)%nat) by (unfold w; lia).
  assert (Ha : a < 10 ^ Z.of_nat w).
  { destruct (a =? 0) eqn:E.
    - apply Z.eqb_eq in E. rewrite E. apply Z.pow_pos_nonneg; lia.
    - apply Z.eqb_neq in E.
      apply Z.lt_le_trans with (10 ^ Z.of_nat (Float.num_digits a)).
      + apply num_digits_bound. unfold a in *. lia.
      + apply Z.pow_le_mono_r; [lia|]. unfold w. lia. }
  destruct w as [|w']; [lia|].
  exists (if k <? 0 then "-"%char else "+"%char), w'.
  split; [reflexivity|]. split; [|split; [|exact Ha]].
  - by destruct (k <? 0).
  - by destruct (k <? 0).
Qed.

(** Reading back a number written in the [e] format gives the decimal
    that its digits and its exponent stand for. *)
Lemma of_string_format (q : nat) (s : bool) (N k : Z) :
  10 ^ Z.of_nat (S q) <= N < 10 ^ (Z.of_nat (S q) + 1) ->
  Float.of_string
    (Float.sign_str s ++ Float.mantissa_str (S q) N ++ Float.exponent_str k)
  = Some (Float.of_decimal s N (k - Z.of_nat (S q))).
Proof.
  intros HN.
  set (P := Z.of_nat (S q)) in *.
  assert (Hpp : 0 < 10 ^ P) by (apply Z.pow_pos_nonneg; lia).
  assert (Hd0 : 1 <= N / 10 ^ P < 10).
  { split.
    - apply Z.div_le_lower_bound; lia.
    - apply Z.div_lt_upper_bound; [lia|].
      rewrite Z.pow_add_r in HN by lia. lia. }
  set (d0 := N / 10 ^ P) in *.
  destruct (exponent_str_parse k) as (sg & w & HE & Hrs & Hsg & Hk).
  set (D := Float.fixed_digits (S w) (Z.abs k)) in *.
  set (R := Float.fixed_digits (S q) N).
  set (c0 := Float.digit_char d0).
  assert (HM : Float.mantissa_str (S q) N ++ Float.exponent_str k
               = String c0 (String "." (R ++ String "e" (String sg D)))).
  { unfold Float.mantissa_str. rewrite fixed_digits_head. fold P d0.
    rewrite (Z.mod_small d0 10) by lia. rewrite HE. reflexivity. }
  rewrite HM. clear HM HE.
  destruct (digit_char_facts d0 ltac:(lia)) as (Hc1 & Hc2 & Hc3). fold c0 in Hc1, Hc2, Hc3.
  set (M := String c0 (String "." (R ++ String "e" (String sg D)))).
  assert (HplM : all_chars plain_char M = true).
  { unfold M. cbn [all_chars]. rewrite Hc3, all_chars_app. unfold R, D.
    rewrite !fixed_digits_plain. cbn [all_chars]. rewrite Hsg, fixed_digits_plain.
    reflexivity. }
  assert (Hpl : all_chars plain_char (Float.sign_str s ++ M) = true).
  { rewrite all_chars_app, HplM. by destruct s. }
  assert (Hsign : Float.read_sign (Float.sign_str s ++ M) = (s, M)).
  { destruct s.
    - reflexivity.
    - unfold Float.sign_str. rewrite str_app_nil_l. unfold M, c0.
      apply read_sign_digit. lia. }
  unfold Float.of_string.
  rewrite (strip_by_plain _ Hpl), (drop_underscores_plain _ "000" Hpl eq_refl), Hsign.
  rewrite (lower_plain _ HplM).
  destruct (not_special_digit d0 (String "." (R ++ String "e" (String sg D)))
              ltac:(lia)) as [Hs1 Hs2].
  fold c0 in Hs1, Hs2. fold M in Hs1, Hs2. rewrite Hs1, Hs2.
  assert (Hparse : Float.parse_decimal M = Some (N, k - P)).
  { unfold Float.parse_decimal, M.
    cbn [Float.span_digits]. rewrite Hc1, Hc2.
    change (PyStr.isdigit ".") with false. cbv iota beta.
    unfold R. rewrite span_digits_fixed. fold P.
    cbn [Float.span_digits]. change (PyStr.isdigit "e") with false. cbv iota beta.
    change (Ascii.eqb "e" "e" || Ascii.eqb "e" "E") with true. cbv iota beta.
    rewrite Hrs. rewrite <- (str_app_nil_r D). unfold D at 1.
    rewrite span_digits_fixed. cbn [Float.span_digits].
    rewrite (Z.mod_small (Z.abs k)) by lia.
    replace (1 + (0 + S q) =? 0)%nat with false by (symmetry; apply Nat.eqb_neq; lia).
    replace (0 + S w)%nat with (S w) by lia. replace (0 + S q)%nat with (S q) by lia.
    fold P. do 2 f_equal.
    - unfold d0. pose proof (Z.div_mod N (10 ^ P) ltac:(lia)). lia.
    - destruct (k <? 0) eqn:E; [apply Z.ltb_lt in E|apply Z.ltb_ge in E]; lia. }
  rewrite Hparse. reflexivity.
Qed.

End FormatParseFacts.

Section RoundTripFacts.

Local Open Scope Q_scope.

Lemma digit_val_nonneg (c : ascii) :
  PyStr.isdigit c = true -> (0 <= Float.digit_val c)%Z.
Proof.
  unfold PyStr.isdigit, Float.digit_val.
  intros [H _]%andb_true_iff. apply Nat.leb_le in H. lia.
Qed.

Lemma span_digits_nonneg (s : string) (acc : Z) (cnt : nat) :
  (0 <= acc)%Z -> (0 <= (Float.span_digits s acc cnt).1.1)%Z.
Proof.
  revert acc cnt. induction s as [|c s IH]; intros acc cnt Hacc; [done|].
  cbn [Float.span_digits]. destruct (PyStr.isdigit c) eqn:Hc; [|done].
  apply IH. pose proof (digit_val_nonneg c Hc). lia.
Qed.

Lemma parse_decimal_nonneg (s : string) (m e : Z) :
  Float.parse_decimal s = Some (m, e) -> (0 <= m)%Z.
Proof.
  unfold Float.parse_decimal.
  pose proof (span_digits_nonneg s 0 0 ltac:(lia)) as Hi.
  destruct (Float.span_digits s 0 0) as [[i ni] r1]. cbn [fst] in Hi.
  set (t := match r1 with String "." r => Float.span_digits r i 0 | _ => (i, O, r1) end).
  assert (Ht : (0 <= t.1.1)%Z).
  { unfold t. destruct r1 as [|[[] [] [] [] [] [] [] []] r]; try exact Hi.
    by apply span_digits_nonneg. }
  destruct t as [[f nf] r2]. cbn [fst] in Ht.
  destruct (ni + nf =? 0)%nat; [done|].
  destruct r2 as [|c r3]; [by intros [= <- <-]|].
  destruct (Ascii.eqb c "e" || Ascii.eqb c "E"); [|done].
  destruct (Float.read_sign r3) as [es r4].
  destruct (Float.span_digits r4 0 0) as [[x nx] r5].
  destruct nx; [done|]. destruct r5; [|done]. by intros [= <- <-].
Qed.

(** The float of a decimal: the nearest one, as for a fraction. *)
Lemma of_decimal_spec (s : bool) (m e : Z) :
  (0 < m)%Z ->
  exists m' e' : Z,
    (0 <= m' < 2 ^ 53)%Z /\ (-1074 <= e')%Z
    /\ Float.of_decimal s m e
       = match m' with
         | Zpos p => if (e' <=? 971)%Z then S754_finite s p e' else S754_infinity s
         | _ => S754_zero s
         end
    /\ (forall mx ex : Z, (0 < mx < 2 ^ 53)%Z -> (-1074 <= ex)%Z ->
          Qabs (inject_Z m' * 2 ^ e' - inject_Z m * 10 ^ e)
          <= Qabs (inject_Z mx * 2 ^ ex - inject_Z m * 10 ^ e))
    /\ ((971 < e')%Z -> (0 < m')%Z -> 2 ^ 1024 <= inject_Z m' * 2 ^ e').
Proof.
  intros Hm. unfold Float.of_decimal.
  destruct (m =? 0)%Z eqn:E; [apply Z.eqb_eq in E; lia|].
  destruct (Ratio.scale 10 m 1 (- e)) as [n d] eqn:Hs.
  destruct (scale_spec 10 m 1 (- e) n d ltac:(lia) Hm ltac:(lia) Hs) as (Hn & Hd & Hq).
  assert (Hv : frac n d == inject_Z m * 10 ^ e).
  { rewrite Hq. change (inject_Z 10) with 10. rewrite Qpower_opp.
    unfold frac. pose proof (pow10_pos e). field. lra. }
  destruct (of_ratio_spec s n d Hn Hd) as (m' & e' & Hm' & He' & Heq & Hnear & Hov).
  exists m', e'. repeat split; try done; try lia.
  intros mx ex Hmx Hex. rewrite <- Hv. by apply Hnear.
Qed.

Lemma of_string_bounded (v : string) (s : bool) (mx : positive) (ex : Z) :
  Float.of_string v = Some (S754_finite s mx ex) ->
  (Zpos mx < 2 ^ 53)%Z /\ (-1074 <= ex <= 971)%Z.
Proof.
  unfold Float.of_string.
  destruct (Float.drop_underscores _ _) as [t|]; [|done].
  destruct (Float.read_sign t) as [sg r].
  destruct (PyStr.eqb _ "inf" || PyStr.eqb _ "infinity"); [done|].
  destruct (PyStr.eqb _ "nan"); [done|].
  destruct (Float.parse_decimal r) as [[m e]|] eqn:Hp; [|done].
  apply parse_decimal_nonneg in Hp.
  destruct (Z.eq_dec m 0%Z) as [->|Hm0]; [done|].
  destruct (of_decimal_spec sg m e ltac:(lia)) as (m' & e' & Hm' & He' & Heq & _).
  rewrite Heq. destruct m' as [|p|p]; [done| |done].
  destruct (e' <=? 971)%Z eqn:E; [|done]. apply Z.leb_le in E.
  intros [= <- <- <-]. lia.
Qed.

End RoundTripFacts.

Section RoundTripLaw.

Local Open Scope Q_scope.

Lemma rel_close_sign (s : bool) (Y v : Q) :
  0 < v -> Qabs (Y - v) <= (1 # 10000000000000000) * v ->
  rel_err_le 1e-15 (if s then - v else v) (if s then - Y else Y).
Proof.
  intros Hv [H1 H2]%Qabs_Qle_condition. unfold rel_err_le.
  assert (E : 1e-15 == 1 # 1000000000000000) by reflexivity.
  rewrite E. destruct s.
  - rewrite Qabs_opp, (Qabs_pos v) by lra. apply Qabs_Qle_condition. lra.
  - rewrite (Qabs_pos v) by lra. apply Qabs_Qle_condition. lra.
Qed.

(** A finite float written with 17 significant digits is read back as a
    finite float within [1e-16] of it, relatively. *)
Lemma round_trip_finite (s : bool) (mx : positive) (ex : Z) :
  (Zpos mx < 2 ^ 53)%Z -> (-1074 <= ex <= 971)%Z ->
  exists y : float,
    Float.of_string (Float.format_e 16 (S754_finite s mx ex)) = Some y
    /\ Float.isfinite y = true
    /\ rel_err_le 1e-15 (Float.to_Q (S754_finite s mx ex)) (Float.to_Q y).
Proof.
  intros Hmx Hex. unfold Float.format_e.
  destruct (Ratio.scale 2 (Zpos mx) 1 (- ex)) as [n d] eqn:Hs.
  destruct (scale_spec 2 (Zpos mx) 1 (- ex) n d ltac:(lia) ltac:(lia) ltac:(lia) Hs)
    as (Hn & Hd & Hq).
  assert (Hv : frac n d == inject_Z (Zpos mx) * 2 ^ ex).
  { rewrite Hq. change (inject_Z 2) with 2. rewrite Qpower_opp.
    unfold frac. pose proof (pow2_pos ex). field. lra. }
  destruct (Float.decimal_digits 16 n d) as [N k] eqn:Hdd.
  destruct (decimal_digits_spec 16 n d N k Hn Hd Hdd) as [HN Herr].
  rewrite (of_string_format 15 s N k HN).
  change (Z.of_nat 16) with 16%Z in *.
  assert (HNpos : (0 < N)%Z).
  { assert (0 < 10 ^ 16)%Z by (apply Z.pow_pos_nonneg; lia). lia. }
  destruct (of_decimal_spec s N (k - 16) HNpos)
    as (m' & e' & Hm' & He' & Heq & Hnear & Hov).
  specialize (Hnear (Zpos mx) ex ltac:(lia) ltac:(lia)).
  rewrite Hv in Herr.
  set (v := inject_Z (Zpos mx) * 2 ^ ex) in *.
  set (D := inject_Z N * 10 ^ (k - 16)) in *.
  set (Y := inject_Z m' * 2 ^ e') in *.
  assert (Hvpos : 0 < v).
  { unfold v. apply Qmult_lt_0_compat; [by apply inject_Z_pos|apply pow2_pos]. }
  assert (Hc : 10 ^ (-16) == 1 # 10000000000000000) by reflexivity.
  rewrite Hc in Herr.
  assert (Hclose : Qabs (Y - v) <= (1 # 10000000000000000) * v).
  { apply Qabs_Qle_condition in Herr as [H1 H2].
    assert (H3 : Qabs (v - D) <= (1 # 2) * (1 # 10000000000000000) * v).
    { apply Qabs_Qle_condition. lra. }
    pose proof (Qle_trans _ _ _ Hnear H3) as H4.
    apply Qabs_Qle_condition in H4. apply Qabs_Qle_condition. lra. }
  assert (Hfin : (0 < m')%Z -> (e' <= 971)%Z).
  { intros Hpos. destruct (Z_le_gt_dec e' 971) as [|Hgt]; [done|]. exfalso.
    specialize (Hov ltac:(lia) Hpos). fold Y in Hov.
    pose proof (pow2_pos 971) as HT.
    assert (H1024 : 2 ^ 1024 == 9007199254740992 * 2 ^ 971).
    { change 1024%Z with (53 + 971)%Z. rewrite pow2_add.
      apply Qmult_comp; reflexivity. }
    assert (Hvmax : v <= 9007199254740991 * 2 ^ 971).
    { unfold v. apply Qle_trans with (inject_Z (Zpos mx) * 2 ^ 971).
      - apply Qmult_le_l; [by apply inject_Z_pos|apply pow2_le; lia].
      - apply Qmult_le_compat_r; [|lra].
        change 9007199254740991 with (inject_Z 9007199254740991).
        rewrite <- Zle_Qle. lia. }
    rewrite H1024 in Hov. set (T := 2 ^ 971) in *.
    apply Qabs_Qle_condition in Hclose. lra. }
  destruct m' as [|p|p]; [| |lia].
  - exists (S754_zero s). rewrite Heq. split; [done|]. split; [done|].
    assert (HY : Y == 0) by (unfold Y; ring).
    rewrite HY in Hclose.
    pose proof (rel_close_sign s 0 v Hvpos Hclose) as H.
    unfold Float.to_Q. cbv zeta. fold v.
    destruct s; [|exact H].
    unfold rel_err_le in *.
    assert (E0 : 0 - - v == - 0 - - v) by ring. rewrite E0. exact H.
  - specialize (Hfin ltac:(lia)). apply Z.leb_le in Hfin. rewrite Hfin in Heq.
    exists (S754_finite s p e'). rewrite Heq. split; [done|]. split; [done|].
    unfold Float.to_Q. cbv zeta. fold v Y.
    by apply rel_close_sign.
Qed.

(** C5.  A value that [float] accepts, written by
    [format_scientific_notation] and read again by [float], comes back
    as a finite value within the relative error [1e-15] of the parsed
    one when that one is finite, and as the same infinity or as the NaN
    otherwise. *)
Theorem round_trip_law (value_str : string) (x : float) :
  Float.of_string value_str = Some x ->
  exists y : float,
    Float.of_string (Concat.format_scientific_notation value_str) = Some y
    /\ round_trip_close x y.
Proof.
  intros Hx. unfold Concat.format_scientific_notation. rewrite Hx.
  destruct x as [s|s| |s mx ex].
  - exists (S754_zero false).
    replace (Float.eqb (S754_zero s) Float.zero) with true by (by destruct s).
    split; [vm_compute; reflexivity|]. split; [done|].
    unfold rel_err_le, Float.to_Q. by apply Qabs_Qle_condition.
  - exists (S754_infinity s).
    replace (Float.eqb (S754_infinity s) Float.zero) with false by (by destruct s).
    split; [|done]. destruct s; vm_compute; reflexivity.
  - exists S754_nan. split; [vm_compute; reflexivity|done].
  - replace (Float.eqb (S754_finite s mx ex) Float.zero) with false
      by (by destruct s).
    destruct (of_string_bounded _ _ _ _ Hx) as [Hmx Hex].
    destruct (round_trip_finite s mx ex Hmx Hex) as (y & Hy & Hf & Hr).
    exists y. split; [exact Hy|]. split; [exact Hf|exact Hr].
Qed.

Lemma round_trip_law_witness :
  Float.of_string "0.245" = Some (Float.lit "0.245")
  /\ exists y : float,
       Float.of_string (Concat.format_scientific_notation "0.245") = Some y
       /\ round_trip_close (Float.lit "0.245") y.
Proof.
  split; [vm_compute; reflexivity|].
  apply (round_trip_law "0.245"). vm_compute. reflexivity.
Defined.

End RoundTripLaw.

(** * Further properties of the scripts *)

(** ** The comparator of app.py: order and summary *)

Section SortedMore.

Context {A : Type}.

Lemma StronglySorted_fmap_inv {B : Type} (f : A -> B) (R : relation B) (l : list A) :
  StronglySorted R (f <$> l) -> StronglySorted (fun x y => R (f x) (f y)) l.
Proof.
  induction l as [|x l IH]; [constructor|].
  rewrite fmap_cons. intros H. inversion H as [|? ? Hs Hall]; subst.
  constructor; [by apply IH|].
  apply Forall_forall. intros y Hy. rewrite Forall_forall in Hall.
  apply Hall. by apply list_elem_of_fmap_2.
Qed.

Lemma StronglySorted_NoDup (R : relation A) (l : list A) :
  NoDup l -> StronglySorted R l -> StronglySorted (fun x y => R x y /\ x <> y) l.
Proof.
  intros Hnd Hs. induction Hs as [|x l Hs IH Hall]; [constructor|].
  apply NoDup_cons in Hnd as [Hx Hnd]. constructor; [by apply IH|].
  apply Forall_forall. intros y Hy. rewrite Forall_forall in Hall.
  split; [by apply Hall|]. intros ->. done.
Qed.

End SortedMore.

Lemma sorted_keys_ascending (d1 d2 : gmap string App.var_info) :
  StronglySorted (fun k k' => PyStr.ltb k k' = true) (App.sorted_keys d1 d2).
Proof.
  pose proof (sorted_StronglySorted PyStr.ltb id str_ltb_asym
                (fun x y z => str_not_after_trans x y z)
                (elements (dom d1 ∪ dom d2))) as Hs.
  fold (App.sorted_keys d1 d2) in Hs.
  apply (StronglySorted_NoDup _ _ (sorted_keys_NoDup d1 d2)) in Hs.
  eapply StronglySorted_weaken; [|exact Hs].
  intros x y _ _ [Hxy Hne]. unfold not_after in Hxy. simpl in Hxy.
  destruct (PyStr.ltb x y) eqn:E; [done|].
  by destruct Hne; apply str_ltb_total.
Qed.

(** X1.  The rows of [compare_dicts] come in the strict order of their
    paths as strings, whatever the two dictionaries hold. *)
Theorem compare_dicts_ascending (d1 d2 : gmap string App.var_info)
    (abs_tol rel_tol : float) :
  exists diffs c,
    App.compare_dicts d1 d2 abs_tol rel_tol = Some (diffs, c)
    /\ StronglySorted path_lt diffs.
Proof.
  destruct (compare_dicts_rows d1 d2 abs_tol rel_tol) as (diffs & c & Hc & Hall).
  exists diffs, c. split; [exact Hc|].
  apply rows_variables in Hall.
  pose proof (sorted_keys_ascending d1 d2) as Hs. rewrite <- Hall in Hs.
  by apply StronglySorted_fmap_inv in Hs.
Qed.

Section CountFacts.

Context (d1 d2 : gmap string App.var_info) (abs_tol rel_tol : float).

Lemma count_rows_cons (s : string) (r : App.row) (diffs : list App.row) :
  count_rows s (r :: diffs)
  = ((if decide (App.status r = s) then 1 else 0) + count_rows s diffs)%nat.
Proof.
  unfold count_rows. destruct (decide (App.status r = s)).
  - by rewrite filter_cons_True.
  - by rewrite filter_cons_False.
Qed.

(** The status of the row of a key, and the one count that it raises. *)
Lemma compare_key_cases (k : string) (c c' : App.counts) (r : App.row) :
  App.compare_key d1 d2 abs_tol rel_tol k c = Some (r, c') ->
  (App.status r = "only_in_1"
   /\ c' = {| App.only_in_1 := S (App.only_in_1 c); App.only_in_2 := App.only_in_2 c;
              App.equal_within_tol := App.equal_within_tol c;
              App.different := App.different c |})
  \/ (App.status r = "only_in_2"
      /\ c' = {| App.only_in_1 := App.only_in_1 c; App.only_in_2 := S (App.only_in_2 c);
                 App.equal_within_tol := App.equal_within_tol c;
                 App.different := App.different c |})
  \/ (App.status r = "equal_within_tol"
      /\ c' = {| App.only_in_1 := App.only_in_1 c; App.only_in_2 := App.only_in_2 c;
                 App.equal_within_tol := S (App.equal_within_tol c);
                 App.different := App.different c |})
  \/ (App.status r = "different"
      /\ c' = {| App.only_in_1 := App.only_in_1 c; App.only_in_2 := App.only_in_2 c;
                 App.equal_within_tol := App.equal_within_tol c;
                 App.different := S (App.different c) |}).
Proof.
  unfold App.compare_key.
  destruct (d1 !! k) as [a|], (d2 !! k) as [b|]; try done.
  - destruct (App.value_num a) as [n1|], (App.value_num b) as [n2|].
    + rewrite truediv_tiny_defined.
      destruct (_ || _); intros [= <- <-]; cbn [App.status App.status_str App.count_status];
        tauto.
    + destruct (PyStr.eqb _ _); intros [= <- <-];
        cbn [App.status App.status_str App.count_status]; tauto.
    + destruct (PyStr.eqb _ _); intros [= <- <-];
        cbn [App.status App.status_str App.count_status]; tauto.
    + destruct (PyStr.eqb _ _); intros [= <- <-];
        cbn [App.status App.status_str App.count_status]; tauto.
  - intros [= <- <-]. cbn [App.status]. tauto.
  - intros [= <- <-]. cbn [App.status]. tauto.
Qed.

Lemma compare_loop_counts (keys : list string) (c c' : App.counts)
    (diffs : list App.row) :
  App.compare_loop d1 d2 abs_tol rel_tol keys c = Some (diffs, c') ->
  App.only_in_1 c' = (App.only_in_1 c + count_rows "only_in_1" diffs)%nat
  /\ App.only_in_2 c' = (App.only_in_2 c + count_rows "only_in_2" diffs)%nat
  /\ App.equal_within_tol c'
     = (App.equal_within_tol c + count_rows "equal_within_tol" diffs)%nat
  /\ App.different c' = (App.different c + count_rows "different" diffs)%nat
  /\ (count_rows "only_in_1" diffs + count_rows "only_in_2" diffs
      + count_rows "equal_within_tol" diffs + count_rows "different" diffs
      = length diffs)%nat
  /\ length diffs = length keys.
Proof.
  revert c c' diffs. induction keys as [|k keys IH]; intros c c' diffs.
  - cbn [App.compare_loop]. intros [= <- <-]. unfold count_rows. cbn. lia.
  - cbn [App.compare_loop].
    destruct (App.compare_key d1 d2 abs_tol rel_tol k c) as [[r c1]|] eqn:Hk; [|done].
    destruct (App.compare_loop d1 d2 abs_tol rel_tol keys c1) as [[ds c2]|] eqn:Hl;
      [|done].
    intros [= <- <-].
    destruct (IH c1 c2 ds Hl) as (I1 & I2 & I3 & I4 & I5 & I6).
    rewrite !count_rows_cons. cbn [length]. rewrite I1, I2, I3, I4, I6.
    destruct (compare_key_cases k c c1 r Hk) as [[Hs ->]|[[Hs ->]|[[Hs ->]|[Hs ->]]]];
      rewrite Hs; cbn [App.only_in_1 App.only_in_2 App.equal_within_tol App.different];
      repeat match goal with
             | |- context [decide (?a = ?b)] =>
                 destruct (decide (a = b)); [try discriminate|try done]
             end; lia.
Qed.

End CountFacts.

(** X2.  The summary of [compare_dicts] agrees with its rows: each of
    the four counts is the number of rows with that status, every row
    has one of the four statuses, and there are as many rows as keys in
    the union of the two dictionaries. *)
Theorem compare_dicts_counts (d1 d2 : gmap string App.var_info)
    (abs_tol rel_tol : float) :
  exists diffs c,
    App.compare_dicts d1 d2 abs_tol rel_tol = Some (diffs, c)
    /\ App.only_in_1 c = count_rows "only_in_1" diffs
    /\ App.only_in_2 c = count_rows "only_in_2" diffs
    /\ App.equal_within_tol c = count_rows "equal_within_tol" diffs
    /\ App.different c = count_rows "different" diffs
    /\ (App.only_in_1 c + App.only_in_2 c + App.equal_within_tol c
        + App.different c = length diffs)%nat
    /\ length diffs = size (dom d1 ∪ dom d2).
Proof.
  destruct (compare_dicts_rows d1 d2 abs_tol rel_tol) as (diffs & c & Hc & _).
  exists diffs, c. split; [exact Hc|].
  unfold App.compare_dicts in Hc.
  apply compare_loop_counts in Hc as (H1 & H2 & H3 & H4 & H5 & H6).
  cbn in H1, H2, H3, H4.
  repeat split; try done.
  - lia.
  - rewrite H6. by rewrite (sorted_keys_perm d1 d2).
Qed.

(** ** The CSV parser of app.py: the line of a record *)

Section SourceLineFacts.

(** The entry of [name] after the loop from line number [i]: the one
    before the loop when no line holds a record of [name], or else the
    record of the last such line. *)
Lemma parse_fold_source (i : nat) (lines : list string)
    (d : gmap string App.var_info) (name : string) (info : App.var_info) :
  fold_left App.parse_step (Py.enumerate i lines) d !! name = Some info ->
  (d !! name = Some info
   /\ forall j l info', lines !! j = Some l ->
                        App.parse_line (i + j) l <> Some (name, info'))
  \/ exists j line,
       lines !! j = Some line
       /\ App.parse_line (i + j) line = Some (name, info)
       /\ forall j' l info', (j < j')%nat -> lines !! j' = Some l ->
                             App.parse_line (i + j') l <> Some (name, info').
Proof.
  revert i d. induction lines as [|l lines IH]; intros i d; cbn [Py.enumerate fold_left].
  - intros H. left. split; [done|]. by intros j l' info' ?.
  - intros H. apply IH in H as [[H Hno]|(j & line & Hj & Hp & Hlast)].
    + unfold App.parse_step in H. cbn [fst snd] in H.
      destruct (App.parse_line i l) as [[n inf]|] eqn:E.
      * destruct (decide (n = name)) as [->|Hne].
        -- rewrite lookup_insert_eq in H. injection H as ->.
           right. exists 0%nat, l. rewrite Nat.add_0_r.
           split; [done|]. split; [done|].
           intros [|j'] l' info' Hlt Hl'; [lia|].
           replace (i + S j')%nat with (S i + j')%nat by lia.
           by apply (Hno j').
        -- rewrite lookup_insert_ne in H by done. left. split; [done|].
           intros [|j] l' info' Hl'.
           ++ injection Hl' as <-. rewrite Nat.add_0_r, E. congruence.
           ++ replace (i + S j)%nat with (S i + j)%nat by lia. by apply (Hno j).
      * left. split; [done|].
        intros [|j] l' info' Hl'.
        -- injection Hl' as <-. by rewrite Nat.add_0_r, E.
        -- replace (i + S j)%nat with (S i + j)%nat by lia. by apply (Hno j).
    + right. exists (S j), line. split; [done|].
      split; [by replace (i + S j)%nat with (S i + j)%nat by lia|].
      intros [|j'] l' info' Hlt Hl'; [lia|].
      replace (i + S j')%nat with (S i + j')%nat by lia.
      apply (Hlast j'); [lia|done].
Qed.

End SourceLineFacts.

(** X3.  The [source_line] of an entry of [parse_variables_csv] is the
    number (from 1) of a line of the file that holds the record of that
    name, the entry is the record of that line, and no later line holds
    a record of the name: the last record of a name is the one kept. *)
Theorem parse_source_line (lines : list string) (d : gmap string App.var_info)
    (name : string) (info : App.var_info) :
  App.parse_variables_csv (Some lines) = Some d ->
  d !! name = Some info ->
  exists line,
    (1 <= App.source_line info <= length lines)%nat
    /\ lines !! (App.source_line info - 1)%nat = Some line
    /\ App.parse_line (App.source_line info) line = Some (name, info)
    /\ forall j l info', (App.source_line info <= j)%nat -> lines !! j = Some l ->
                         App.parse_line (S j) l <> Some (name, info').
Proof.
  intros [= <-] H. unfold App.parse_lines in H.
  apply parse_fold_source in H as [[H _]|(j & line & Hj & Hp & Hlast)];
    [by rewrite lookup_empty in H|].
  cbn [Nat.add] in Hp.
  pose proof (parse_line_info _ _ _ _ Hp) as (_ & _ & Hsl).
  rewrite Hsl. exists line.
  replace (S j - 1)%nat with j by lia.
  split; [apply lookup_lt_Some in Hj; lia|].
  split; [done|]. split; [done|].
  intros j' l info' Hle Hl'. apply (Hlast j' l info'); [lia|done].
Qed.

Lemma parse_source_line_witness :
  exists line,
    (1 <= 4 <= length left_lines)%nat
    /\ left_lines !! 3%nat = Some line
    /\ App.parse_line 4 line
       = Some ("w", {| App.value_str := "1.5";
                       App.value_num := Some (S754_finite false 6755399441055744 (-52));
                       App.lower := ""; App.upper := ""; App.type := "";
                       App.units := ""; App.source_line := 4 |}).
Proof.
  destruct (parse_source_line left_lines (App.parse_lines left_lines) "w"
              {| App.value_str := "1.5";
                 App.value_num := Some (S754_finite false 6755399441055744 (-52));
                 App.lower := ""; App.upper := ""; App.type := "";
                 App.units := ""; App.source_line := 4 |})
    as (line & H1 & H2 & H3 & _).
  - reflexivity.
  - vm_compute. reflexivity.
  - exists line. cbn [App.source_line] in H1, H2, H3.
    split; [exact H1|]. split; [exact H2|exact H3].
Defined.

(** ** The order of the reconstructed file without an order list *)

Section HierarchyFacts.

Lemma tuple_ltb_irrefl (a : list string) : Concat.tuple_ltb a a = false.
Proof.
  induction a as [|x a IH]; [done|]. cbn [Concat.tuple_ltb].
  by rewrite String.eqb_refl.
Qed.

Lemma tuple_ltb_asym (a b : list string) :
  Concat.tuple_ltb a b = true -> Concat.tuple_ltb b a = false.
Proof.
  revert b. induction a as [|x a IH]; intros [|y b]; cbn [Concat.tuple_ltb]; try done.
  destruct (String.eqb x y) eqn:E.
  - apply String.eqb_eq in E as ->. rewrite String.eqb_refl. apply IH.
  - rewrite String.eqb_sym, E. apply str_ltb_asym.
Qed.

Lemma tuple_not_after_trans (a b c : list string) :
  Concat.tuple_ltb b a = false -> Concat.tuple_ltb c b = false ->
  Concat.tuple_ltb c a = false.
Proof.
  revert b c. induction a as [|x a IH]; intros [|y b] [|z c];
    cbn [Concat.tuple_ltb]; try done.
  destruct (String.eqb y x) eqn:Eyx.
  - apply String.eqb_eq in Eyx as ->.
    destruct (String.eqb z x) eqn:Ezx; [apply IH|done].
  - destruct (String.eqb z y) eqn:Ezy.
    + apply String.eqb_eq in Ezy as ->. rewrite Eyx. by intros ? _.
    + intros Hyx Hzy. destruct (String.eqb z x) eqn:Ezx.
      * apply String.eqb_eq in Ezx as ->.
        rewrite (str_ltb_total x y) in Eyx; [|done|done].
        by rewrite String.eqb_refl in Eyx.
      * by apply (str_not_after_trans x y z).
Qed.

Lemma hierarchy_ltb_irrefl (a : nat * list string) : Concat.hierarchy_ltb a a = false.
Proof.
  unfold Concat.hierarchy_ltb. rewrite Nat.eqb_refl. apply tuple_ltb_irrefl.
Qed.

Lemma hierarchy_ltb_asym (a b : nat * list string) :
  Concat.hierarchy_ltb a b = true -> Concat.hierarchy_ltb b a = false.
Proof.
  unfold Concat.hierarchy_ltb. destruct (a.1 =? b.1)%nat eqn:E.
  - apply Nat.eqb_eq in E. rewrite E, Nat.eqb_refl. apply tuple_ltb_asym.
  - rewrite Nat.eqb_sym, E. rewrite Nat.ltb_lt, Nat.ltb_ge. lia.
Qed.

Lemma hierarchy_not_after_trans (a b c : nat * list string) :
  Concat.hierarchy_ltb b a = false -> Concat.hierarchy_ltb c b = false ->
  Concat.hierarchy_ltb c a = false.
Proof.
  unfold Concat.hierarchy_ltb.
  destruct (b.1 =? a.1)%nat eqn:Eba, (c.1 =? b.1)%nat eqn:Ecb;
    rewrite ?Nat.eqb_eq, ?Nat.eqb_neq in *.
  - rewrite Ecb, Eba, Nat.eqb_refl. apply tuple_not_after_trans.
  - rewrite <- Eba. apply Nat.eqb_neq in Ecb. rewrite Ecb. by intros _ ?.
  - rewrite Ecb. apply Nat.eqb_neq in Eba. rewrite Eba. by intros ? _.
  - rewrite !Nat.ltb_ge. intros H1 H2.
    destruct (c.1 =? a.1)%nat eqn:Eca; rewrite ?Nat.eqb_eq, ?Nat.eqb_neq in *; [lia|].
    apply Nat.ltb_ge. lia.
Qed.

End HierarchyFacts.

(** X4.  Without an order list (no order file, or a file with no usable
    line) [write_txt_file] writes, after the header, one line for each
    variable, sorted by the number of components of the path first and
    by the components as strings among paths of the same depth. *)
Theorem hierarchy_order (now : string) (order_file : option (list string))
    (variables_data : list Concat.variable) :
  Concat.load_variable_order order_file = [] ->
  exists sorted,
    Concat.write_txt_file now order_file variables_data
    = (Concat.header now (length variables_data)
       ++ (Concat.variable_line <$> sorted))%list
    /\ sorted ≡ₚ variables_data
    /\ StronglySorted hierarchy_le sorted.
Proof.
  intros Hl.
  exists (Py.sorted Concat.hierarchy_ltb Concat.hierarchy_key variables_data).
  split; [|split].
  - unfold Concat.write_txt_file. by rewrite Hl.
  - apply sorted_perm.
  - pose proof (sorted_StronglySorted Concat.hierarchy_ltb Concat.hierarchy_key
                  hierarchy_ltb_asym
                  (fun x y z => hierarchy_not_after_trans
                                  (Concat.hierarchy_key x) (Concat.hierarchy_key y)
                                  (Concat.hierarchy_key z))
                  variables_data) as Hs.
    eapply StronglySorted_weaken; [|exact Hs].
    intros u v _ _. unfold not_after, hierarchy_le, Concat.hierarchy_ltb,
      Concat.hierarchy_key. cbn [fst snd].
    set (pu := PyStr.split_char "." (Concat.path u)).
    set (pv := PyStr.split_char "." (Concat.path v)).
    destruct (length pv =? length pu)%nat eqn:E.
    + apply Nat.eqb_eq in E. intros H. right. by split.
    + apply Nat.eqb_neq in E. rewrite Nat.ltb_ge. intros H. left. lia.
Qed.

Lemma hierarchy_order_witness :
  Concat.load_variable_order (Some ["# only a comment"; ""; "no separator"]) = []
  /\ exists sorted,
       Concat.write_txt_file "NOW" (Some ["# only a comment"; ""; "no separator"])
         some_variables
       = (Concat.header "NOW" (length some_variables)
          ++ (Concat.variable_line <$> sorted))%list
       /\ sorted ≡ₚ some_variables
       /\ StronglySorted hierarchy_le sorted.
Proof.
  split; [vm_compute; reflexivity|].
  apply (hierarchy_order "NOW" (Some ["# only a comment"; ""; "no separator"])).
  vm_compute. reflexivity.
Defined.

(** ** The sort is stable *)

Section StableFacts.

Context {A K : Type} (lt : K -> K -> bool) (key : A -> K).
Context (P : A -> Prop) `{!forall x, Decision (P x)}.

Hypothesis lt_irrefl : forall k, lt k k = false.
Hypothesis same_key : forall x y, P x -> P y -> key x = key y.

Lemma insort_filter (x : A) (l : list A) :
  filter P (Py.insort lt key x l) = filter P (x :: l).
Proof.
  induction l as [|y l IH]; [done|]. cbn [Py.insort].
  destruct (lt (key y) (key x)) eqn:E; [|done].
  destruct (decide (P y)) as [Hy|Hy].
  - rewrite (filter_cons_True _ _ _ Hy), IH.
    assert (Hx : ~ P x).
    { intros Hx. rewrite (same_key x y Hx Hy), lt_irrefl in E. done. }
    by rewrite !(filter_cons_False _ _ _ Hx), (filter_cons_True _ _ _ Hy).
  - rewrite (filter_cons_False _ _ _ Hy), IH.
    destruct (decide (P x)) as [Hx|Hx].
    + by rewrite !(filter_cons_True _ _ _ Hx), (filter_cons_False _ _ _ Hy).
    + by rewrite !(filter_cons_False _ _ _ Hx), (filter_cons_False _ _ _ Hy).
Qed.

(** The items that share a key keep their order. *)
Lemma sorted_filter (l : list A) : filter P (Py.sorted lt key l) = filter P l.
Proof.
  induction l as [|x l IH]; [done|].
  change (Py.sorted lt key (x :: l)) with (Py.insort lt key x (Py.sorted lt key l)).
  rewrite insort_filter.
  destruct (decide (P x)) as [Hx|Hx].
  - by rewrite !(filter_cons_True _ _ _ Hx), IH.
  - by rewrite !(filter_cons_False _ _ _ Hx), IH.
Qed.

End StableFacts.

Lemma key_ltb_irrefl (a : Concat.sort_key) : Concat.key_ltb a a = false.
Proof.
  destruct (Concat.key_ltb a a) eqn:E; [|done].
  by rewrite (key_ltb_asym a a E) in E.
Qed.

(** X5.  Whatever the order file, [write_txt_file] writes the header
    that [write_reconstructed] writes and then exactly one line for each
    variable, reordered; the variables that have the same path are
    written in the order in which they were read. *)
Theorem sort_keeps_variables (now : string) (order_file : option (list string))
    (variables_data : list Concat.variable) :
  exists sorted,
    Concat.write_txt_file now order_file variables_data
    = (Concat.header now (length variables_data)
       ++ (Concat.variable_line <$> sorted))%list
    /\ Concat.write_reconstructed now variables_data
       = (Concat.header now (length variables_data)
          ++ (Concat.variable_line <$> variables_data))%list
    /\ sorted ≡ₚ variables_data
    /\ forall p,
         filter (fun v => Concat.path v = p) sorted
         = filter (fun v => Concat.path v = p) variables_data.
Proof.
  exists (Concat.sorted_variables (Concat.load_variable_order order_file)
            variables_data).
  split; [done|]. split; [done|].
  unfold Concat.sorted_variables.
  destruct (Concat.load_variable_order order_file) as [|q l].
  - split; [apply sorted_perm|].
    intros p. apply sorted_filter; [apply hierarchy_ltb_irrefl|].
    intros x y Hx Hy. unfold Concat.hierarchy_key. by rewrite Hx, Hy.
  - split; [apply sorted_perm|].
    intros p. apply sorted_filter; [apply key_ltb_irrefl|].
    intros x y Hx Hy. unfold Concat.key_of. by rewrite Hx, Hy.
Qed.

(** ** Reading a run file: the prefix, the records kept, the first value *)

Section PrefixFacts.

Lemma startswith_nil (s : string) : PyStr.startswith "" s = true.
Proof. by destruct s. Qed.

(** With a prefix, a path is left out exactly when it does not start
    with it: the empty prefix leaves nothing out. *)
Lemma prefix_excludes_Some (p path_name : string) :
  Analyse.prefix_excludes (Some p) path_name = negb (PyStr.startswith p path_name).
Proof.
  unfold Analyse.prefix_excludes. destruct p as [|c p]; [|done].
  by rewrite startswith_nil.
Qed.

Lemma read_line_filter (p : string) (acc acc' : gmap string float * list string)
    (line : string) :
  acc.1 = filter (fun kv => PyStr.startswith p kv.1 = true) acc'.1 ->
  (Analyse.read_line (Some p) acc line).1
  = filter (fun kv => PyStr.startswith p kv.1 = true)
      (Analyse.read_line None acc' line).1.
Proof.
  intros H. unfold Analyse.read_line.
  destruct (Analyse.record_fields line) as [[k v]|]; [|done].
  rewrite prefix_excludes_Some. cbn [Analyse.prefix_excludes].
  destruct (PyStr.startswith p k) eqn:E; cbn [negb].
  - destruct (Float.of_string v) as [x|]; cbn [fst]; [|done].
    rewrite map_filter_insert_True by done. by rewrite H.
  - destruct (Float.of_string v) as [x|]; cbn [fst]; [|done].
    rewrite map_filter_insert_not; [done|].
    intros y. cbn [fst]. by rewrite E.
Qed.

Lemma read_fold_filter (p : string) (lines : list string)
    (acc acc' : gmap string float * list string) :
  acc.1 = filter (fun kv => PyStr.startswith p kv.1 = true) acc'.1 ->
  (fold_left (Analyse.read_line (Some p)) lines acc).1
  = filter (fun kv => PyStr.startswith p kv.1 = true)
      (fold_left (Analyse.read_line None) lines acc').1.
Proof.
  revert acc acc'. induction lines as [|l lines IH]; intros acc acc' H; [done|].
  cbn [fold_left]. apply IH. by apply read_line_filter.
Qed.

End PrefixFacts.

(** X6.  The dictionary that [read_all_values_from_txt] returns for a
    prefix is the dictionary it returns without a prefix, restricted to
    the paths that start with the prefix; for the empty prefix that is
    the whole dictionary. *)
Theorem prefix_restricts (file_path : string) (file : option (list string))
    (path_prefix : string) :
  (Analyse.read_all_values_from_txt file_path file (Some path_prefix)).1
  = filter (fun kv => PyStr.startswith path_prefix kv.1 = true)
      (Analyse.read_all_values_from_txt file_path file None).1
  /\ (Analyse.read_all_values_from_txt file_path file (Some "")).1
     = (Analyse.read_all_values_from_txt file_path file None).1.
Proof.
  assert (H : forall p,
             (Analyse.read_all_values_from_txt file_path file (Some p)).1
             = filter (fun kv => PyStr.startswith p kv.1 = true)
                 (Analyse.read_all_values_from_txt file_path file None).1).
  { intros p. unfold Analyse.read_all_values_from_txt. destruct file as [lines|].
    - apply read_fold_filter. cbn [fst]. by rewrite map_filter_empty.
    - cbn [fst]. by rewrite map_filter_empty. }
  split; [apply H|].
  rewrite H. apply map_eq. intros k. rewrite map_lookup_filter.
  destruct (_ !! k) as [x|]; [|done]. cbn.
  rewrite option_guard_True; [done|]. exact (startswith_nil k).
Qed.

Section ReadMoreFacts.

Context (path_prefix : option string).

(** The entry of a path is left alone by the lines that hold no record
    of the path with a value token that is a number. *)
Lemma read_line_keeps (acc : gmap string float * list string) (line k : string) :
  (forall tok x, Analyse.record_fields line = Some (k, tok) ->
                 Float.of_string tok = Some x -> False) ->
  (Analyse.read_line path_prefix acc line).1 !! k = acc.1 !! k.
Proof.
  intros Hno. unfold Analyse.read_line.
  destruct (Analyse.record_fields line) as [[k' tok]|] eqn:E; [|done].
  destruct (Analyse.prefix_excludes path_prefix k'); [done|].
  destruct (Float.of_string tok) as [x|] eqn:Ex; cbn [fst]; [|done].
  destruct (decide (k' = k)) as [->|Hne].
  - exfalso. by apply (Hno tok x).
  - by rewrite lookup_insert_ne.
Qed.

Lemma read_fold_keeps (lines : list string) (acc : gmap string float * list string)
    (k : string) :
  (forall l tok x, l ∈ lines -> Analyse.record_fields l = Some (k, tok) ->
                   Float.of_string tok = Some x -> False) ->
  (fold_left (Analyse.read_line path_prefix) lines acc).1 !! k = acc.1 !! k.
Proof.
  revert acc. induction lines as [|l lines IH]; intros acc Hno; [done|].
  cbn [fold_left]. rewrite IH.
  - apply read_line_keeps. intros tok x. apply Hno. by left.
  - intros l' tok x Hl'. apply Hno. by right.
Qed.

(** An entry is never taken out. *)
Lemma read_line_grows (acc : gmap string float * list string) (line k : string) :
  is_Some (acc.1 !! k) -> is_Some ((Analyse.read_line path_prefix acc line).1 !! k).
Proof.
  intros H. unfold Analyse.read_line.
  destruct (Analyse.record_fields line) as [[k' tok]|]; [|done].
  destruct (Analyse.prefix_excludes path_prefix k'); [done|].
  destruct (Float.of_string tok) as [x|]; cbn [fst]; [|done].
  destruct (decide (k' = k)) as [->|Hne].
  - rewrite lookup_insert_eq. by eexists.
  - by rewrite lookup_insert_ne.
Qed.

Lemma read_fold_grows (lines : list string) (acc : gmap string float * list string)
    (k : string) :
  is_Some (acc.1 !! k) ->
  is_Some ((fold_left (Analyse.read_line path_prefix) lines acc).1 !! k).
Proof.
  revert acc. induction lines as [|l lines IH]; intros acc H; [done|].
  cbn [fold_left]. by apply IH, read_line_grows.
Qed.

End ReadMoreFacts.

(** X7.  In the dictionary of [read_all_values_from_txt] a path has the
    value of its last record line whose value token is a number: a
    later record of the path with a token that is no number does not
    take the value away. *)
Theorem last_number_kept (file_path : string) (path_prefix : option string)
    (pre post : list string) (line path_name value_str : string) (v : float) :
  Analyse.record_fields line = Some (path_name, value_str) ->
  Analyse.prefix_excludes path_prefix path_name = false ->
  Float.of_string value_str = Some v ->
  (forall l tok x, l ∈ post -> Analyse.record_fields l = Some (path_name, tok) ->
                   Float.of_string tok = Some x -> False) ->
  (Analyse.read_all_values_from_txt file_path (Some (pre ++ line :: post)%list)
     path_prefix).1 !! path_name = Some v.
Proof.
  intros Hr Hp Hv Hpost. unfold Analyse.read_all_values_from_txt.
  rewrite fold_left_app. cbn [fold_left].
  rewrite read_fold_keeps by exact Hpost.
  unfold Analyse.read_line at 1. rewrite Hr, Hp, Hv. cbn [fst].
  apply lookup_insert_eq.
Qed.

Lemma last_number_kept_witness :
  (Analyse.read_all_values_from_txt "run.txt"
     (Some (["P.a : 1 : 0 : 1 : Notype : -"]
            ++ "P.a : 1.5 : 0 : 1 : Notype : -"
               :: ["P.a : n/a : 0 : 1 : Notype : -"; "P.b : 2 : 0 : 1 : Notype : -"])%list)
     None).1 !! "P.a"
  = Some (S754_finite false 6755399441055744 (-52)).
Proof.
  apply (last_number_kept "run.txt" None ["P.a : 1 : 0 : 1 : Notype : -"]
           ["P.a : n/a : 0 : 1 : Notype : -"; "P.b : 2 : 0 : 1 : Notype : -"]
           "P.a : 1.5 : 0 : 1 : Notype : -" "P.a" "1.5").
  - vm_compute. reflexivity.
  - reflexivity.
  - vm_compute. reflexivity.
  - intros l tok x Hl Hr Hx.
    apply elem_of_cons in Hl as [->|Hl].
    + vm_compute in Hr. injection Hr as <-. vm_compute in Hx. discriminate Hx.
    + apply list_elem_of_singleton in Hl as ->. vm_compute in Hr. discriminate Hr.
Defined.

Section FindFacts.

Context (p : string).

Lemma find_value_None (lines : list string) (out : list string) :
  (Analyse.find_value p lines out).1 = None
  <-> forall l, l ∈ lines -> ~ good_match p l.
Proof.
  revert out. induction lines as [|l lines IH]; intros out; cbn [Analyse.find_value].
  - split; [|done]. by intros _ l ?%elem_of_nil.
  - destruct (Analyse.record_fields l) as [[k tok]|] eqn:Hr.
    + destruct (PyStr.startswith p k) eqn:Hs.
      * destruct (Float.of_string tok) as [x|] eqn:Hx.
        -- cbn [fst]. split; [done|]. intros H. exfalso.
           apply (H l); [by left|]. by exists k, tok, x.
        -- rewrite IH. split.
           ++ intros H l' [->|Hl']%elem_of_cons; [|by apply H].
              intros (k' & tok' & x & Hr' & _ & Hx'). congruence.
           ++ intros H l' Hl'. apply H. by right.
      * rewrite IH. split.
        -- intros H l' [->|Hl']%elem_of_cons; [|by apply H].
           intros (k' & tok' & x & Hr' & Hs' & _). congruence.
        -- intros H l' Hl'. apply H. by right.
    + rewrite IH. split.
      * intros H l' [->|Hl']%elem_of_cons; [|by apply H].
        intros (k' & tok' & x & Hr' & _). congruence.
      * intros H l' Hl'. apply H. by right.
Qed.

(** The lines before the first match are passed over. *)
Lemma find_value_first (pre post : list string) (line : string) (out : list string)
    (k tok : string) (v : float) :
  (forall l, l ∈ pre -> ~ good_match p l) ->
  Analyse.record_fields line = Some (k, tok) ->
  PyStr.startswith p k = true ->
  Float.of_string tok = Some v ->
  (Analyse.find_value p (pre ++ line :: post)%list out).1 = Some v.
Proof.
  intros Hpre Hr Hs Hv. revert out.
  induction pre as [|l pre IH]; intros out.
  - cbn [app Analyse.find_value]. by rewrite Hr, Hs, Hv.
  - rewrite <- app_comm_cons. cbn [Analyse.find_value].
    assert (Hl : ~ good_match p l) by (apply Hpre; by left).
    assert (IH' : forall out,
               (Analyse.find_value p (pre ++ line :: post)%list out).1 = Some v).
    { apply IH. intros l' Hl'. apply Hpre. by right. }
    destruct (Analyse.record_fields l) as [[k' tok']|] eqn:Hr'; [|apply IH'].
    destruct (PyStr.startswith p k') eqn:Hs'; [|apply IH'].
    destruct (Float.of_string tok') as [x|] eqn:Hx'; [|apply IH'].
    exfalso. apply Hl. by exists k', tok', x.
Qed.

Lemma read_fold_empty (lines : list string) (acc : gmap string float * list string) :
  (fold_left (Analyse.read_line (Some p)) lines acc).1 = ∅
  <-> acc.1 = ∅ /\ forall l, l ∈ lines -> ~ good_match p l.
Proof.
  revert acc. induction lines as [|l lines IH]; intros acc; cbn [fold_left].
  - split; [|by intros [? _]]. intros H. split; [done|]. by intros l ?%elem_of_nil.
  - rewrite IH. unfold Analyse.read_line.
    destruct (Analyse.record_fields l) as [[k tok]|] eqn:Hr.
    + rewrite prefix_excludes_Some.
      destruct (PyStr.startswith p k) eqn:Hs; cbn [negb].
      * destruct (Float.of_string tok) as [x|] eqn:Hx; cbn [fst].
        -- split.
           ++ intros [H _]. by apply insert_non_empty in H.
           ++ intros [_ H]. exfalso. apply (H l); [by left|]. by exists k, tok, x.
        -- split.
           ++ intros [H1 H2]. split; [done|].
              intros l' [->|Hl']%elem_of_cons; [|by apply H2].
              intros (k' & tok' & x & Hr' & _ & Hx'). congruence.
           ++ intros [H1 H2]. split; [done|]. intros l' Hl'. apply H2. by right.
      * split.
        -- intros [H1 H2]. split; [done|].
           intros l' [->|Hl']%elem_of_cons; [|by apply H2].
           intros (k' & tok' & x & Hr' & Hs' & _). congruence.
        -- intros [H1 H2]. split; [done|]. intros l' Hl'. apply H2. by right.
    + split.
      * intros [H1 H2]. split; [done|].
        intros l' [->|Hl']%elem_of_cons; [|by apply H2].
        intros (k' & tok' & x & Hr' & _). congruence.
      * intros [H1 H2]. split; [done|]. intros l' Hl'. apply H2. by right.
Qed.

End FindFacts.

(** X8.  [read_value_from_txt] finds no value for a prefix exactly when
    the dictionary of [read_matching_values_from_txt] for that prefix is
    empty; this holds for a missing file and for the empty prefix too. *)
Theorem found_iff_matching (file_path : string) (file : option (list string))
    (path_name : string) :
  (Analyse.read_value_from_txt file_path file path_name).1 = None
  <-> (Analyse.read_matching_values_from_txt file_path file path_name).1 = ∅.
Proof.
  unfold Analyse.read_value_from_txt, Analyse.read_matching_values_from_txt,
    Analyse.read_all_values_from_txt.
  destruct file as [lines|]; [|done].
  rewrite read_fold_empty. cbn [fst].
  rewrite <- (find_value_None path_name lines []).
  destruct (Analyse.find_value path_name lines []) as [[v|] out]; cbn [fst].
  - split; [done|]. by intros [_ ?].
  - split; [|done]. by intros _.
Qed.

(** X9.  [read_value_from_txt] returns the value of the first record
    line whose path starts with the prefix and whose value token is a
    number: the lines before it are passed over, the lines after it are
    not read. *)
Theorem first_match_returned (file_path : string) (pre post : list string)
    (line path_name k tok : string) (v : float) :
  (forall l, l ∈ pre -> ~ good_match path_name l) ->
  Analyse.record_fields line = Some (k, tok) ->
  PyStr.startswith path_name k = true ->
  Float.of_string tok = Some v ->
  (Analyse.read_value_from_txt file_path (Some (pre ++ line :: post)%list)
     path_name).1 = Some v.
Proof.
  intros Hpre Hr Hs Hv. unfold Analyse.read_value_from_txt.
  pose proof (find_value_first path_name pre post line [] k tok v Hpre Hr Hs Hv) as H.
  destruct (Analyse.find_value path_name (pre ++ line :: post)%list [])
    as [[x|] out]; cbn [fst] in *; [done|discriminate H].
Qed.

Lemma first_match_returned_witness :
  (Analyse.read_value_from_txt "run.txt"
     (Some (["# PathName : Value"; "P.a : n/a : 0 : 1 : Notype : -"]
            ++ "P.a : 1.5 : 0 : 1 : Notype : -"
               :: ["P.a : 2 : 0 : 1 : Notype : -"])%list)
     "P.").1
  = Some (S754_finite false 6755399441055744 (-52)).
Proof.
  apply (first_match_returned "run.txt"
           ["# PathName : Value"; "P.a : n/a : 0 : 1 : Notype : -"]
           ["P.a : 2 : 0 : 1 : Notype : -"]
           "P.a : 1.5 : 0 : 1 : Notype : -" "P." "P.a" "1.5").
  - intros l Hl (k & tok & x & Hr & _ & Hx).
    apply elem_of_cons in Hl as [->|Hl].
    + vm_compute in Hr. discriminate Hr.
    + apply list_elem_of_singleton in Hl as ->.
      vm_compute in Hr. injection Hr as <- <-. vm_compute in Hx. discriminate Hx.
  - vm_compute. reflexivity.
  - reflexivity.
  - vm_compute. reflexivity.
Defined.

(** ** The stage extractor: what it stores *)

Section StageFacts.

Lemma match_variable_well_formed (line : string)
    (acc : gmap Z (gmap string float) * list string) (vp : string * list Re.item) :
  vp.1 ∈ variable_names ->
  stages_well_formed acc.1 ->
  stages_well_formed (Co2.match_variable line acc vp).1.
Proof.
  destruct acc as [sd out], vp as [var_name pattern]. cbn [fst].
  intros Hvar Hinv. unfold Co2.match_variable.
  destruct (Re.match_ pattern line) as [[|g1 [|g2 [|g3 gs]]]|]; try done.
  destruct (Float.of_string _) as [value|]; [|done]. cbn [fst].
  set (n := Co2.int_of_digits g1).
  assert (Hn : 0 <= n) by (apply span_digits_nonneg; lia).
  set (sd1 := match sd !! n with Some _ => sd | None => <[n := ∅]> sd end).
  assert (Hold : forall name, is_Some (default ∅ (sd1 !! n) !! name) ->
                              name ∈ variable_names).
  { unfold sd1. destruct (sd !! n) as [vars|] eqn:E.
    - rewrite E. simpl. by apply (Hinv n vars E).
    - rewrite lookup_insert_eq. simpl. intros name [? H].
      by rewrite lookup_empty in H. }
  assert (Hother : forall s, s <> n -> sd1 !! s = sd !! s).
  { intros s Hs. unfold sd1. destruct (sd !! n); [done|].
    by rewrite lookup_insert_ne. }
  intros s vars. destruct (decide (s = n)) as [->|Hs].
  - rewrite lookup_insert_eq. intros [= <-]. split; [done|].
    split; [apply insert_non_empty|].
    intros name. destruct (decide (name = var_name)) as [->|Hne]; [done|].
    rewrite lookup_insert_ne by done. apply Hold.
  - rewrite lookup_insert_ne by done. rewrite Hother by done. apply Hinv.
Qed.

Lemma match_fold_well_formed (line : string) (vps : list (string * list Re.item))
    (acc : gmap Z (gmap string float) * list string) :
  Forall (fun vp => vp.1 ∈ variable_names) vps ->
  stages_well_formed acc.1 ->
  stages_well_formed (fold_left (Co2.match_variable line) vps acc).1.
Proof.
  intros Hall. revert acc. induction Hall as [|vp vps Hvp _ IH]; intros acc Hinv; [done|].
  cbn [fold_left]. by apply IH, match_variable_well_formed.
Qed.

Lemma required_names : Forall (fun vp => vp.1 ∈ variable_names) Co2.REQUIRED_VARIABLES.
Proof.
  apply Forall_forall. intros vp Hvp. unfold variable_names.
  by apply list_elem_of_fmap_2.
Qed.

Lemma read_line_well_formed (acc : gmap Z (gmap string float) * list string * Z)
    (line : string) :
  stages_well_formed acc.1.1 -> stages_well_formed (Co2.read_line acc line).1.1.
Proof.
  destruct acc as [[sd out] n]. cbn [fst]. intros Hinv. unfold Co2.read_line.
  destruct (negb _ || _); [done|].
  pose proof (match_fold_well_formed (PyStr.strip line) Co2.REQUIRED_VARIABLES
                (sd, if (n + 1) mod 10000 =? 0
                     then Py.append out ("  Processed " ++ Out.str_int (n + 1) ++ " lines...")
                     else out) required_names Hinv) as H.
  by destruct (fold_left _ _ _) as [sd' out'].
Qed.

Lemma read_fold_well_formed (lines : list string)
    (acc : gmap Z (gmap string float) * list string * Z) :
  stages_well_formed acc.1.1 ->
  stages_well_formed (fold_left Co2.read_line lines acc).1.1.
Proof.
  revert acc. induction lines as [|l lines IH]; intros acc H; [done|].
  cbn [fold_left]. by apply IH, read_line_well_formed.
Qed.

End StageFacts.

(** X10.  In the dictionary of [extract_stage_data] every stage has a
    number that is not negative and a dictionary that is not empty and
    whose keys are among [pressure], [co2_mole_frac] and [loading_co2];
    this holds for every file, and for a missing one. *)
Theorem stage_data_well_formed (file_path : string) (file : option (list string)) :
  stages_well_formed (Co2.extract_stage_data file_path file).1
  /\ variable_names = ["pressure"; "co2_mole_frac"; "loading_co2"].
Proof.
  split; [|reflexivity].
  unfold Co2.extract_stage_data. destruct file as [lines|].
  - pose proof (read_fold_well_formed lines (∅, ["Reading from: " ++ file_path], 0)) as H.
    destruct (fold_left _ _ _) as [[sd out] n]. cbn [fst] in *.
    apply H. intros s vars Hs. by rewrite lookup_empty in Hs.
  - cbn [fst]. intros s vars Hs. by rewrite lookup_empty in Hs.
Qed.

Section AnchorFacts.

Lemma stage_pattern_anchored (suffix s : string) :
  PyStr.startswith "Plant.Absorber.Stage(" s = false ->
  Re.match_ (Co2.stage_pattern suffix) s = None.
Proof.
  intros H. unfold Re.match_, Co2.stage_pattern. cbn [Re.exec]. by rewrite H.
Qed.

Lemma required_patterns :
  Forall (fun vp : string * list Re.item => exists suffix, vp.2 = Co2.stage_pattern suffix)
    Co2.REQUIRED_VARIABLES.
Proof. repeat constructor; by eexists. Qed.

Lemma match_fold_unmatched (line : string) (vps : list (string * list Re.item))
    (acc : gmap Z (gmap string float) * list string) :
  Forall (fun vp => Re.match_ vp.2 line = None) vps ->
  fold_left (Co2.match_variable line) vps acc = acc.
Proof.
  intros Hall. revert acc. induction Hall as [|vp vps Hvp _ IH]; intros acc; [done|].
  cbn [fold_left]. rewrite <- (IH acc) at 2. f_equal.
  destruct acc as [sd out], vp as [v pat]. unfold Co2.match_variable.
  cbn [snd] in Hvp. by rewrite Hvp.
Qed.

End AnchorFacts.

(** X11.  The patterns are matched at the start of the stripped line: a
    line that does not begin with [Plant.Absorber.Stage(] there adds
    nothing to the stage data and prints no warning, whatever it holds
    further on. *)
Theorem unanchored_line_ignored (stage_data : gmap Z (gmap string float))
    (out : list string) (line_count : Z) (line : string) :
  PyStr.startswith "Plant.Absorber.Stage(" (PyStr.strip line) = false ->
  exists out',
    Co2.read_line (stage_data, out, line_count) line
    = (stage_data, out', line_count + 1)
    /\ (out' = out
        \/ out' = Py.append out ("  Processed " ++ Out.str_int (line_count + 1)
                                 ++ " lines...")).
Proof.
  intros H. unfold Co2.read_line.
  set (out1 := if (line_count + 1) mod 10000 =? 0 then _ else out).
  exists out1. split.
  - destruct (negb _ || _); [done|].
    rewrite match_fold_unmatched; [done|].
    eapply Forall_impl; [exact required_patterns|].
    intros vp [suffix ->]. by apply stage_pattern_anchored.
  - unfold out1. destruct (_ =? 0); [by right|by left].
Qed.

Lemma unanchored_line_ignored_witness :
  exists out',
    Co2.read_line (∅, [], 0)
      "Flowsheet.Plant.Absorber.Stage(3).trans_prop.loading_CO2 : 0.245 : 0 : 1 : Notype : -"
    = (∅, out', 0 + 1)
    /\ (out' = []
        \/ out' = Py.append [] ("  Processed " ++ Out.str_int (0 + 1) ++ " lines...")).
Proof.
  apply (unanchored_line_ignored ∅ [] 0). vm_compute. reflexivity.
Defined.

(** ** Reading a flowsheet file *)

Section DictMoreFacts.

Context {V : Type}.

Lemma get_set (d : PyDict.dict V) (k k' : string) (v : V) :
  PyDict.get (PyDict.set d k v) k'
  = if String.eqb k k' then Some v else PyDict.get d k'.
Proof.
  induction d as [|[k0 v0] d IH]; cbn [PyDict.set PyDict.get].
  - by destruct (String.eqb k k').
  - destruct (String.eqb k0 k) eqn:E; cbn [PyDict.get].
    + apply String.eqb_eq in E as ->. by destruct (String.eqb k k').
    + rewrite IH. destruct (String.eqb k0 k') eqn:E'; [|done].
      apply String.eqb_eq in E' as ->. by rewrite String.eqb_sym, E.
Qed.

Lemma keys_set (d : PyDict.dict V) (k : string) (v : V) :
  PyDict.keys (PyDict.set d k v)
  = if decide (k ∈ PyDict.keys d) then PyDict.keys d
    else (PyDict.keys d ++ [k])%list.
Proof.
  unfold PyDict.keys. induction d as [|[k0 v0] d IH]; cbn [PyDict.set].
  - rewrite decide_False; [done|]. by intros ?%elem_of_nil.
  - destruct (String.eqb k0 k) eqn:E.
    + apply String.eqb_eq in E as ->.
      rewrite decide_True; [done|]. rewrite fmap_cons. by left.
    + rewrite !fmap_cons, IH. cbn [fst].
      apply String.eqb_neq in E.
      destruct (decide (k ∈ d.*1)) as [Hin|Hin].
      * rewrite decide_True; [done|]. by right.
      * rewrite decide_False; [done|].
        intros [?|?]%elem_of_cons; [congruence|done].
Qed.

Lemma keys_set_NoDup (d : PyDict.dict V) (k : string) (v : V) :
  NoDup (PyDict.keys d) -> NoDup (PyDict.keys (PyDict.set d k v)).
Proof.
  intros H. rewrite keys_set. destruct (decide _) as [Hin|Hin]; [done|].
  apply NoDup_app. split; [done|]. split; [|apply NoDup_singleton].
  by intros x Hx ->%list_elem_of_singleton.
Qed.

End DictMoreFacts.

Section FlowsheetReadFacts.

Lemma flowsheet_fold_NoDup (lines : list string) (d : PyDict.dict float) :
  NoDup (PyDict.keys d) -> NoDup (PyDict.keys (fold_left TestPy.flowsheet_step lines d)).
Proof.
  revert d. induction lines as [|l lines IH]; intros d H; [done|].
  cbn [fold_left]. apply IH. unfold TestPy.flowsheet_step.
  destruct (TestPy.flowsheet_record l) as [[n v]|]; [|done].
  by apply keys_set_NoDup.
Qed.

(** The entry of a name after the loop: the one before the loop when no
    line holds a record of the name, or else the last record. *)
Lemma flowsheet_fold_get (lines : list string) (d : PyDict.dict float)
    (name : string) (v : float) :
  PyDict.get (fold_left TestPy.flowsheet_step lines d) name = Some v
  <-> (PyDict.get d name = Some v
       /\ forall l v', l ∈ lines -> TestPy.flowsheet_record l <> Some (name, v'))
      \/ last_record lines name v.
Proof.
  revert d. induction lines as [|l lines IH]; intros d; cbn [fold_left].
  - split.
    + intros H. left. split; [done|]. by intros l v' ?%elem_of_nil.
    + intros [[H _]|(pre & line & post & Hl & _)]; [done|].
      by destruct pre.
  - rewrite IH. unfold TestPy.flowsheet_step. split.
    + intros [[Hg Hno]|(pre & line & post & -> & Hr & Hpost)].
      * destruct (TestPy.flowsheet_record l) as [[n x]|] eqn:E.
        -- rewrite get_set in Hg. destruct (String.eqb n name) eqn:En.
           ++ apply String.eqb_eq in En as ->. injection Hg as ->.
              right. exists [], l, lines. by repeat split.
           ++ left. split; [done|].
              intros l' v' [->|Hl']%elem_of_cons; [|by apply Hno].
              rewrite E. intros [= -> _]. by rewrite String.eqb_refl in En.
        -- left. split; [done|].
           intros l' v' [->|Hl']%elem_of_cons; [|by apply Hno].
           by rewrite E.
      * right. exists (l :: pre), line, post. by repeat split.
    + intros [[Hg Hno]|(pre & line & post & Hl & Hr & Hpost)].
      * left. split; [|intros l' v' Hl'; apply Hno; by right].
        destruct (TestPy.flowsheet_record l) as [[n x]|] eqn:E; [|done].
        rewrite get_set. destruct (String.eqb n name) eqn:En; [|done].
        apply String.eqb_eq in En as ->. exfalso. apply (Hno l x); [by left|done].
      * destruct pre as [|l0 pre].
        -- injection Hl as -> ->. left. rewrite Hr, get_set, String.eqb_refl.
           split; [done|]. exact Hpost.
        -- injection Hl as -> ->. right. by exists pre, line, post.
Qed.

End FlowsheetReadFacts.

(** X12.  The dictionary of [read_flowsheet_csv] has each name once, and
    it holds a value for a name exactly when some line holds a record of
    the name: the value is that of the last such line.  Lines that are
    blank, have no second field or a second field that is no number
    hold no record. *)
Theorem flowsheet_last_record (lines : list string) :
  exists d,
    TestPy.read_flowsheet_csv (Some lines) = Some d
    /\ NoDup (PyDict.keys d)
    /\ forall name v, PyDict.get d name = Some v <-> last_record lines name v.
Proof.
  exists (fold_left TestPy.flowsheet_step lines []).
  split; [done|]. split.
  - apply flowsheet_fold_NoDup. constructor.
  - intros name v. rewrite flowsheet_fold_get. split; [|by right].
    by intros [[? _]|?].
Qed.

(** ** The order of the rows of the flowsheet comparison *)

Section FloatOrderFacts.

Lemma ltb_rank (a b : float) :
  Float.isnan a = false -> Float.isnan b = false ->
  Float.ltb a b = true <-> rank_lt (float_rank a) (float_rank b).
Proof.
  unfold Float.ltb, SFltb, rank_lt.
  destruct a as [sa|sa| |sa ma ea], b as [sb|sb| |sb mb eb]; try done; intros _ _;
    cbn [SFcompare float_rank fst snd].
  - split; [done|lia].
  - destruct sb; cbn; split; (done || lia).
  - destruct sb; cbn; split; (done || lia).
  - destruct sa; cbn; split; (done || lia).
  - destruct sa, sb; cbn; split; (done || lia).
  - destruct sa, sb; cbn; split; (done || lia).
  - destruct sa; cbn; split; (done || lia).
  - destruct sa, sb; cbn; split; (done || lia).
  - change (PosDef.Pos.compare_cont Eq ma mb) with (Pos.compare ma mb).
    destruct sa, sb; cbn [fst snd]; try (split; (done || lia)).
    + destruct (Z.compare_spec ea eb), (Pos.compare_spec ma mb); cbn [CompOpp];
        split; (done || lia).
    + destruct (Z.compare_spec ea eb), (Pos.compare_spec ma mb);
        split; (done || lia).
Qed.

Lemma ltb_nan_l (b : float) : Float.ltb S754_nan b = false.
Proof. done. Qed.

Lemma ltb_nan_r (a : float) : Float.ltb a S754_nan = false.
Proof. by destruct a. Qed.

Lemma float_ltb_asym (a b : float) : Float.ltb a b = true -> Float.ltb b a = false.
Proof.
  destruct (Float.isnan a) eqn:Ea; [by destruct a|].
  destruct (Float.isnan b) eqn:Eb; [destruct b; try done; by rewrite ltb_nan_r|].
  intros H. apply (ltb_rank a b Ea Eb) in H.
  destruct (Float.ltb b a) eqn:E; [|done].
  apply (ltb_rank b a Eb Ea) in E. unfold rank_lt in *. lia.
Qed.

Lemma float_not_ltb_trans (x y z : float) :
  Float.isnan x = false -> Float.isnan y = false -> Float.isnan z = false ->
  Float.ltb x y = false -> Float.ltb y z = false -> Float.ltb x z = false.
Proof.
  intros Hx Hy Hz Hxy Hyz.
  destruct (Float.ltb x z) eqn:E; [|done].
  apply (ltb_rank x z Hx Hz) in E.
  assert (H1 : ~ rank_lt (float_rank x) (float_rank y)).
  { intros H. apply (ltb_rank x y Hx Hy) in H. congruence. }
  assert (H2 : ~ rank_lt (float_rank y) (float_rank z)).
  { intros H. apply (ltb_rank y z Hy Hz) in H. congruence. }
  unfold rank_lt in *. lia.
Qed.

End FloatOrderFacts.

Section SortOnFacts.

Context {A K : Type} (lt : K -> K -> bool) (key : A -> K) (Q : A -> Prop).

Local Abbreviation not_after := (not_after lt key).

Hypothesis lt_asym_on : forall x y, lt (key x) (key y) = true -> lt (key y) (key x) = false.
Hypothesis not_after_trans_on : forall x y z,
  Q x -> Q y -> Q z -> not_after x y -> not_after y z -> not_after x z.

Lemma insort_StronglySorted_on (x : A) (l : list A) :
  Q x -> Forall Q l ->
  StronglySorted not_after l -> StronglySorted not_after (Py.insort lt key x l).
Proof.
  intros Hx Hl Hs. induction Hs as [|y l Hs IH Hall]; cbn [Py.insort].
  - repeat constructor.
  - apply Forall_cons in Hl as [Hy Hl].
    destruct (lt (key y) (key x)) eqn:E.
    + constructor; [by apply IH|].
      rewrite (insort_perm lt key x l). constructor; [|done].
      by apply lt_asym_on.
    + constructor; [by constructor|].
      constructor; [exact E|].
      rewrite Forall_forall in Hall, Hl. apply Forall_forall. intros z Hz.
      apply (not_after_trans_on x y z); auto.
Qed.

Lemma sorted_StronglySorted_on (l : list A) :
  Forall Q l -> StronglySorted not_after (Py.sorted lt key l).
Proof.
  induction 1 as [|x l Hx Hl IH]; [constructor|].
  change (Py.sorted lt key (x :: l)) with (Py.insort lt key x (Py.sorted lt key l)).
  apply insort_StronglySorted_on; [done| |done].
  by rewrite (sorted_perm lt key l).
Qed.

End SortOnFacts.

(** X13.  When no row has a NaN as its sort key, the rows that
    [build_comparisons] returns are in descending order of the key: the
    absolute percentage difference, or -1 for a row with a missing value
    or an infinite percentage, so that those rows come last. *)
Theorem comparisons_descending (list_of_set : list string -> list string)
    (d1 d2 : PyDict.dict float) (comps : list TestPy.comp) :
  TestPy.build_comparisons list_of_set d1 d2 = Some comps ->
  Forall (fun c => Float.isnan (TestPy.sort_key c) = false) comps ->
  StronglySorted key_ge comps.
Proof.
  destruct (match_and_sum_cases d1 d2) as (pre_map & c1 & c2 & Hm & _).
  rewrite (build_comparisons_eq list_of_set d1 d2 pre_map c1 c2 Hm).
  intros [= <-]. set (l := (pre_rows pre_map ++ _)%list). intros Hall.
  unfold Py.sorted_reverse in *.
  rewrite (sorted_perm _ _ l) in Hall.
  pose proof (sorted_StronglySorted_on (fun a b => Float.ltb b a) TestPy.sort_key
                (fun c => Float.isnan (TestPy.sort_key c) = false)) as Hs.
  eapply StronglySorted_weaken; [|apply Hs; [| |exact Hall]].
  - intros x y _ _ H. exact H.
  - intros x y. apply float_ltb_asym.
  - intros x y z Hx Hy Hz. unfold not_after. by apply float_not_ltb_trans.
Qed.

Lemma comparisons_descending_witness :
  exists comps,
    TestPy.build_comparisons remove_dups
      (("X", S754_finite false 4503599627370496 (-51)) :: spec_left)
      (("X", S754_finite false 6755399441055744 (-51)) :: spec_right) = Some comps
    /\ StronglySorted key_ge comps.
Proof.
  eexists. split; [vm_compute; reflexivity|].
  eapply (comparisons_descending remove_dups
            (("X", S754_finite false 4503599627370496 (-51)) :: spec_left)
            (("X", S754_finite false 6755399441055744 (-51)) :: spec_right)).
  - vm_compute. reflexivity.
  - repeat constructor.
Defined.

(** ** The scientific notation: seventeen digits give the float back *)

Section CanonicalFacts.

Local Open Scope Q_scope.

Lemma of_ratio_canonical (s s' : bool) (n d : Z) (p : positive) (e : Z) :
  (0 < n)%Z -> (0 < d)%Z ->
  Float.of_ratio s n d = S754_finite s' p e -> canonical p e.
Proof.
  intros Hn Hd. unfold Float.of_ratio.
  change Float.prec with 53%Z. change Float.emax with 1024%Z.
  change Float.emin with (-1074)%Z. change (53 - 1)%Z with 52%Z.
  change (1024 - 53)%Z with 971%Z.
  destruct (ilog_spec 2 n d ltac:(lia) Hn Hd) as [Hlo Hhi].
  change (inject_Z 2) with 2 in Hlo, Hhi.
  set (L := Ratio.ilog 2 n d) in *.
  set (e0 := Z.max (L - 52) (-1074)).
  destruct (Ratio.scale 2 n d e0) as [n' d'] eqn:Hs.
  destruct (scale_spec 2 n d e0 n' d' ltac:(lia) Hn Hd Hs) as (Hn' & Hd' & Hq).
  change (inject_Z 2) with 2 in Hq.
  pose proof (round_half_even_Q n' d' ltac:(lia) Hd') as Hm.
  destruct (round_half_even_spec n' d' ltac:(lia) Hd') as [Hm0 _].
  set (m0 := Ratio.round_half_even n' d') in *.
  rewrite Hq in Hm.
  destruct (binary_grid (frac n d) L e0 m0 Hlo Hhi eq_refl Hm) as (Hle & _ & Hbig).
  destruct (m0 =? 2 ^ 53)%Z eqn:E.
  - change (2 ^ 52)%Z with (Zpos 4503599627370496).
    destruct (e0 + 1 <=? 971)%Z eqn:Ee; [|done]. apply Z.leb_le in Ee.
    intros [= <- <- <-]. unfold canonical. lia.
  - apply Z.eqb_neq in E. destruct m0 as [|q|q]; [done| |done].
    destruct (e0 <=? 971)%Z eqn:Ee; [|done]. apply Z.leb_le in Ee.
    intros [= <- <- <-]. unfold canonical.
    split; [lia|]. split; [lia|].
    destruct (Z.eq_dec e0 (-1074)%Z) as [Heq|Hne]; [by left|]. right. apply Hbig. lia.
Qed.

Lemma of_decimal_canonical (s s' : bool) (m e : Z) (p : positive) (e' : Z) :
  (0 <= m)%Z ->
  Float.of_decimal s m e = S754_finite s' p e' -> canonical p e'.
Proof.
  intros Hm. unfold Float.of_decimal.
  destruct (m =? 0)%Z eqn:E; [done|]. apply Z.eqb_neq in E.
  destruct (Ratio.scale 10 m 1 (- e)) as [n d] eqn:Hs.
  destruct (scale_spec 10 m 1 (- e) n d ltac:(lia) ltac:(lia) ltac:(lia) Hs)
    as (Hn & Hd & _).
  by apply of_ratio_canonical.
Qed.

(** [float] returns floats in the canonical form. *)
Lemma of_string_canonical (v : string) (s : bool) (p : positive) (e : Z) :
  Float.of_string v = Some (S754_finite s p e) -> canonical p e.
Proof.
  unfold Float.of_string.
  destruct (Float.drop_underscores _ _) as [t|]; [|done].
  destruct (Float.read_sign t) as [sg r].
  destruct (PyStr.eqb _ "inf" || PyStr.eqb _ "infinity"); [done|].
  destruct (PyStr.eqb _ "nan"); [done|].
  destruct (Float.parse_decimal r) as [[m e']|] eqn:Hp; [|done].
  apply parse_decimal_nonneg in Hp. intros [= H].
  by apply of_decimal_canonical in H.
Qed.

(** Two canonical floats that are less than a unit of the last place
    apart, relatively [1e-16], are the same. *)
Lemma canonical_unique (m mx : positive) (e ex : Z) :
  canonical m e -> canonical mx ex ->
  Qabs (inject_Z (Zpos m) * 2 ^ e - inject_Z (Zpos mx) * 2 ^ ex)
  <= (1 # 10000000000000000) * (inject_Z (Zpos mx) * 2 ^ ex) ->
  m = mx /\ e = ex.
Proof.
  intros (Hm & He & Hc) (Hmx & Hex & Hcx) Hclose.
  pose proof (pow2_pos ex) as HT. pose proof (pow2_pos e) as HU.
  assert (HM : 1 <= inject_Z (Zpos m) <= 9007199254740991).
  { change 1 with (inject_Z 1).
    change 9007199254740991 with (inject_Z 9007199254740991).
    rewrite <- !Zle_Qle. lia. }
  assert (HMX : 1 <= inject_Z (Zpos mx) <= 9007199254740991).
  { change 1 with (inject_Z 1).
    change 9007199254740991 with (inject_Z 9007199254740991).
    rewrite <- !Zle_Qle. lia. }
  set (M := inject_Z (Zpos m)) in *. set (MX := inject_Z (Zpos mx)) in *.
  set (T := 2 ^ ex) in *. set (U := 2 ^ e) in *.
  apply Qabs_Qle_condition in Hclose as [Hc1 Hc2].
  assert (Hbig : forall q : positive, (2 ^ 52 <= Zpos q)%Z ->
                                      4503599627370496 <= inject_Z (Zpos q)).
  { intros q Hq. change 4503599627370496 with (inject_Z 4503599627370496).
    rewrite <- Zle_Qle. lia. }
  assert (HvT : MX * T <= 9007199254740991 * T).
  { apply Qmult_le_compat_r; lra. }
  destruct (Z.lt_trichotomy e ex) as [Hlt|[Heq|Hgt]].
  - exfalso. destruct Hcx as [?|Hcx]; [lia|]. apply Hbig in Hcx. fold MX in Hcx.
    assert (HU2 : 2 * U <= T).
    { unfold U, T. rewrite <- pow2_succ. apply pow2_le. lia. }
    assert (H1 : M * U <= 9007199254740991 * U) by (apply Qmult_le_compat_r; lra).
    assert (H2 : 4503599627370496 * T <= MX * T) by (apply Qmult_le_compat_r; lra).
    lra.
  - subst ex. split; [|done]. fold U in HT.
    destruct (Pos.lt_total m mx) as [H|[H|H]]; [exfalso| done |exfalso].
    + assert (H1 : M + 1 <= MX).
      { unfold M, MX. change 1 with (inject_Z 1). rewrite <- inject_Z_plus, <- Zle_Qle. lia. }
      assert (H2 : (M + 1) * U <= MX * U) by (apply Qmult_le_compat_r; lra).
      unfold T in *. fold U in Hc1, Hc2, HvT. lra.
    + assert (H1 : MX + 1 <= M).
      { unfold M, MX. change 1 with (inject_Z 1). rewrite <- inject_Z_plus, <- Zle_Qle. lia. }
      assert (H2 : (MX + 1) * U <= M * U) by (apply Qmult_le_compat_r; lra).
      unfold T in *. fold U in Hc1, Hc2, HvT. lra.
  - exfalso. destruct Hc as [?|Hc]; [lia|]. apply Hbig in Hc. fold M in Hc.
    assert (HT2 : 2 * T <= U).
    { unfold U, T. rewrite <- pow2_succ. apply pow2_le. lia. }
    assert (H1 : 4503599627370496 * U <= M * U) by (apply Qmult_le_compat_r; lra).
    lra.
Qed.

End CanonicalFacts.

Section ExactFacts.

Local Open Scope Q_scope.

(** A canonical float written with seventeen significant digits is read
    back as itself. *)
Lemma round_trip_exact_finite (s : bool) (mx : positive) (ex : Z) :
  canonical mx ex ->
  Float.of_string (Float.format_e 16 (S754_finite s mx ex))
  = Some (S754_finite s mx ex).
Proof.
  intros Hcan. pose proof Hcan as (Hmx & Hex & _). unfold Float.format_e.
  destruct (Ratio.scale 2 (Zpos mx) 1 (- ex)) as [n d] eqn:Hs.
  destruct (scale_spec 2 (Zpos mx) 1 (- ex) n d ltac:(lia) ltac:(lia) ltac:(lia) Hs)
    as (Hn & Hd & Hq).
  assert (Hv : frac n d == inject_Z (Zpos mx) * 2 ^ ex).
  { rewrite Hq. change (inject_Z 2) with 2. rewrite Qpower_opp.
    unfold frac. pose proof (pow2_pos ex). field. lra. }
  destruct (Float.decimal_digits 16 n d) as [N k] eqn:Hdd.
  destruct (decimal_digits_spec 16 n d N k Hn Hd Hdd) as [HN Herr].
  rewrite (of_string_format 15 s N k HN).
  change (Z.of_nat 16) with 16%Z in *.
  assert (HNpos : (0 < N)%Z).
  { assert (0 < 10 ^ 16)%Z by (apply Z.pow_pos_nonneg; lia). lia. }
  destruct (of_decimal_spec s N (k - 16) HNpos)
    as (m' & e' & Hm' & He' & Heq & Hnear & Hov).
  specialize (Hnear (Zpos mx) ex ltac:(lia) ltac:(lia)).
  rewrite Hv in Herr.
  set (v := inject_Z (Zpos mx) * 2 ^ ex) in *.
  set (D := inject_Z N * 10 ^ (k - 16)) in *.
  set (Y := inject_Z m' * 2 ^ e') in *.
  assert (Hvpos : 0 < v).
  { unfold v. apply Qmult_lt_0_compat; [by apply inject_Z_pos|apply pow2_pos]. }
  assert (Hc : 10 ^ (-16) == 1 # 10000000000000000) by reflexivity.
  rewrite Hc in Herr.
  assert (Hclose : Qabs (Y - v) <= (1 # 10000000000000000) * v).
  { apply Qabs_Qle_condition in Herr as [H1 H2].
    assert (H3 : Qabs (v - D) <= (1 # 2) * (1 # 10000000000000000) * v).
    { apply Qabs_Qle_condition. lra. }
    pose proof (Qle_trans _ _ _ Hnear H3) as H4.
    apply Qabs_Qle_condition in H4. apply Qabs_Qle_condition. lra. }
  assert (Hfin : (0 < m')%Z -> (e' <= 971)%Z).
  { intros Hpos. destruct (Z_le_gt_dec e' 971) as [|Hgt]; [done|]. exfalso.
    specialize (Hov ltac:(lia) Hpos). fold Y in Hov.
    pose proof (pow2_pos 971) as HT.
    assert (H1024 : 2 ^ 1024 == 9007199254740992 * 2 ^ 971).
    { change 1024%Z with (53 + 971)%Z. rewrite pow2_add.
      apply Qmult_comp; reflexivity. }
    assert (Hvmax : v <= 9007199254740991 * 2 ^ 971).
    { unfold v. apply Qle_trans with (inject_Z (Zpos mx) * 2 ^ 971).
      - apply Qmult_le_l; [by apply inject_Z_pos|apply pow2_le; lia].
      - apply Qmult_le_compat_r; [|lra].
        change 9007199254740991 with (inject_Z 9007199254740991).
        rewrite <- Zle_Qle. lia. }
    rewrite H1024 in Hov. set (T := 2 ^ 971) in *.
    apply Qabs_Qle_condition in Hclose. lra. }
  destruct m' as [|p|p]; [| |lia].
  - exfalso. assert (HY : Y == 0) by (unfold Y; ring).
    rewrite HY in Hclose. apply Qabs_Qle_condition in Hclose. lra.
  - specialize (Hfin ltac:(lia)). apply Z.leb_le in Hfin. rewrite Hfin in Heq.
    rewrite Heq. pose proof (of_decimal_canonical s s N (k - 16) p e' ltac:(lia) Heq) as Hp.
    destruct (canonical_unique p mx e' ex Hp Hcan Hclose) as [-> ->]. done.
Qed.

(** What [float] reads from the text that [format_scientific_notation]
    writes for a token that is a number. *)
Lemma written_back_exact (value_str : string) (x : float) :
  Float.of_string value_str = Some x ->
  Float.of_string (Concat.format_scientific_notation value_str)
  = Some (written_back x).
Proof.
  intros Hx. unfold Concat.format_scientific_notation. rewrite Hx.
  destruct x as [s|s| |s mx ex]; cbn [written_back].
  - replace (Float.eqb (S754_zero s) Float.zero) with true by (by destruct s).
    vm_compute. reflexivity.
  - replace (Float.eqb (S754_infinity s) Float.zero) with false by (by destruct s).
    destruct s; vm_compute; reflexivity.
  - vm_compute. reflexivity.
  - replace (Float.eqb (S754_finite s mx ex) Float.zero) with false
      by (by destruct s).
    apply round_trip_exact_finite. by apply of_string_canonical in Hx.
Qed.

Lemma eqb_written_back (x : float) :
  Float.isnan x = false -> Float.eqb (written_back x) x = true.
Proof.
  destruct x as [[]|[]| |[] m e]; try done; intros _;
    unfold Float.eqb, SFeqb; cbn [written_back SFcompare];
    rewrite Z.compare_refl;
    change (PosDef.Pos.compare_cont Eq m m) with (Pos.compare m m);
    by rewrite Pos.compare_refl.
Qed.

End ExactFacts.

(** X14.  A token that [float] reads as a number is written by
    [format_scientific_notation] so that [float] reads the same float
    back: exactly the same, but for a negative zero, which comes back as
    the positive zero; so the two floats are equal for [==] whenever the
    value is no NaN, and a NaN comes back as a NaN. *)
Theorem round_trip_exact (value_str : string) (x : float) :
  Float.of_string value_str = Some x ->
  Float.of_string (Concat.format_scientific_notation value_str)
  = Some (written_back x)
  /\ (Float.isnan x = false -> Float.eqb (written_back x) x = true)
  /\ (Float.eqb x Float.zero = false -> written_back x = x).
Proof.
  intros Hx. split; [by apply written_back_exact|].
  split; [apply eqb_written_back|]. by destruct x as [[]|[]| |[] ? ?].
Qed.

Lemma round_trip_exact_witness :
  Float.of_string "0.1" = Some (S754_finite false 7205759403792794 (-56))
  /\ Concat.format_scientific_notation "0.1" = "1.0000000000000001e-01"
  /\ Float.of_string (Concat.format_scientific_notation "0.1")
     = Some (written_back (S754_finite false 7205759403792794 (-56))).
Proof.
  split; [vm_compute; reflexivity|]. split; [vm_compute; reflexivity|].
  apply (round_trip_exact "0.1"). vm_compute. reflexivity.
Defined.


(** ** Strings: [strip] and [split] on texts put together *)

Section StripMoreFacts.

Context (p : ascii -> bool).

Lemma rstrip_by_cons_keep (c : ascii) (s : string) :
  p c = false -> PyStr.rstrip_by p (String c s) = String c (PyStr.rstrip_by p s).
Proof.
  intros Hc. cbn [PyStr.rstrip_by]. destruct (PyStr.rstrip_by p s); [|done].
  by rewrite Hc.
Qed.

Lemma lstrip_by_app_keep (a b : string) (c : ascii) :
  p c = false ->
  PyStr.lstrip_by p (a ++ String c b) = PyStr.lstrip_by p a ++ String c b.
Proof.
  intros Hc. induction a as [|x a IH].
  - rewrite !str_app_nil_l. cbn [PyStr.lstrip_by]. by rewrite Hc.
  - rewrite str_app_cons. cbn [PyStr.lstrip_by].
    destruct (p x); [exact IH|]. by rewrite str_app_cons.
Qed.

Lemma rstrip_by_app_keep (a b : string) (c : ascii) :
  p c = false ->
  PyStr.rstrip_by p (a ++ String c b) = a ++ String c (PyStr.rstrip_by p b).
Proof.
  intros Hc. induction a as [|x a IH].
  - rewrite !str_app_nil_l. by apply rstrip_by_cons_keep.
  - rewrite !str_app_cons. cbn [PyStr.rstrip_by]. rewrite IH.
    by destruct a.
Qed.

Lemma lstrip_rstrip_comm (s : string) :
  PyStr.lstrip_by p (PyStr.rstrip_by p s) = PyStr.rstrip_by p (PyStr.lstrip_by p s).
Proof.
  induction s as [|c s IH]; [done|].
  destruct (p c) eqn:Hc.
  - cbn [PyStr.lstrip_by]. rewrite Hc, <- IH. cbn [PyStr.rstrip_by].
    destruct (PyStr.rstrip_by p s) as [|y r] eqn:E.
    + by rewrite Hc.
    + cbn [PyStr.lstrip_by]. by rewrite Hc.
  - cbn [PyStr.lstrip_by]. rewrite Hc, rstrip_by_cons_keep by done.
    cbn [PyStr.lstrip_by]. by rewrite Hc.
Qed.

Lemma lstrip_by_idemp (s : string) :
  PyStr.lstrip_by p (PyStr.lstrip_by p s) = PyStr.lstrip_by p s.
Proof. apply lstrip_by_id, lstrip_by_clean. Qed.

Lemma strip_by_lstrip (s : string) :
  PyStr.strip_by p (PyStr.lstrip_by p s) = PyStr.strip_by p s.
Proof. unfold PyStr.strip_by. by rewrite lstrip_by_idemp. Qed.

Lemma strip_by_rstrip (s : string) :
  PyStr.strip_by p (PyStr.rstrip_by p s) = PyStr.strip_by p s.
Proof.
  unfold PyStr.strip_by. by rewrite lstrip_rstrip_comm, rstrip_by_idemp.
Qed.

Lemma rstrip_by_snoc_space (s : string) (c : ascii) :
  p c = true -> PyStr.rstrip_by p (s ++ String c "") = PyStr.rstrip_by p s.
Proof.
  intros Hc. induction s as [|x s IH].
  - rewrite str_app_nil_l. cbn [PyStr.rstrip_by]. by rewrite Hc.
  - rewrite str_app_cons. cbn [PyStr.rstrip_by]. by rewrite IH.
Qed.

Lemma strip_by_cons_space (s : string) (c : ascii) :
  p c = true -> PyStr.strip_by p (String c s) = PyStr.strip_by p s.
Proof. intros Hc. unfold PyStr.strip_by. cbn [PyStr.lstrip_by]. by rewrite Hc. Qed.

Lemma strip_by_snoc_space (s : string) (c : ascii) :
  p c = true -> PyStr.strip_by p (s ++ String c "") = PyStr.strip_by p s.
Proof.
  intros Hc. unfold PyStr.strip_by.
  by rewrite <- !lstrip_rstrip_comm, rstrip_by_snoc_space.
Qed.

Lemma all_chars_lstrip (P : ascii -> bool) (s : string) :
  all_chars P s = true -> all_chars P (PyStr.lstrip_by p s) = true.
Proof.
  induction s as [|c s IH]; [done|]. cbn [all_chars PyStr.lstrip_by].
  intros [Hc Hs]%andb_true_iff. destruct (p c); [by apply IH|].
  cbn [all_chars]. by rewrite Hc, Hs.
Qed.

Lemma all_chars_rstrip (P : ascii -> bool) (s : string) :
  all_chars P s = true -> all_chars P (PyStr.rstrip_by p s) = true.
Proof.
  induction s as [|c s IH]; [done|]. cbn [all_chars PyStr.rstrip_by].
  intros [Hc Hs]%andb_true_iff. specialize (IH Hs).
  destruct (PyStr.rstrip_by p s) as [|y r].
  - destruct (p c); [done|]. cbn [all_chars]. by rewrite Hc.
  - cbn [all_chars] in *. by rewrite Hc, IH.
Qed.

Lemma all_chars_strip (P : ascii -> bool) (s : string) :
  all_chars P s = true -> all_chars P (PyStr.strip_by p s) = true.
Proof. intros H. by apply all_chars_rstrip, all_chars_lstrip. Qed.

(** A string with no character of the class at its ends is stripped
    to itself. *)
Lemma strip_by_free (s : string) :
  all_chars (fun c => negb (p c)) s = true -> PyStr.strip_by p s = s.
Proof.
  intros H. unfold PyStr.strip_by.
  assert (Hl : PyStr.lstrip_by p s = s).
  { destruct s as [|c s]; [done|]. cbn [all_chars] in H.
    apply andb_true_iff in H as [Hc _]. cbn [PyStr.lstrip_by].
    by destruct (p c). }
  rewrite Hl. clear Hl. induction s as [|c s IH]; [done|].
  cbn [all_chars] in H. apply andb_true_iff in H as [Hc Hs].
  rewrite rstrip_by_cons_keep by (by destruct (p c)). by rewrite IH.
Qed.

End StripMoreFacts.

Section SplitFacts.

Context (c : ascii).

Lemma split_char_free (a : string) : free_of c a -> PyStr.split_char c a = [a].
Proof.
  unfold free_of. induction a as [|x a IH]; [done|].
  cbn [all_chars PyStr.split_char]. unfold other_than at 1.
  intros [Hx Ha]%andb_true_iff. apply negb_true_iff in Hx. rewrite Hx.
  by rewrite (IH Ha).
Qed.

Lemma split_char_app (a b : string) :
  free_of c a -> PyStr.split_char c (a ++ String c b) = a :: PyStr.split_char c b.
Proof.
  unfold free_of. induction a as [|x a IH].
  - intros _. rewrite str_app_nil_l. cbn [PyStr.split_char].
    by rewrite Ascii.eqb_refl.
  - cbn [all_chars]. unfold other_than at 1.
    intros [Hx Ha]%andb_true_iff. apply negb_true_iff in Hx.
    rewrite str_app_cons. cbn [PyStr.split_char]. rewrite Hx.
    by rewrite (IH Ha).
Qed.

Lemma split_char_length (s : string) : (1 <= length (PyStr.split_char c s))%nat.
Proof.
  induction s as [|x s IH]; [done|]. cbn [PyStr.split_char].
  destruct (Ascii.eqb x c); [cbn [length]; lia|].
  destruct (PyStr.split_char c s); cbn [length] in *; lia.
Qed.

Lemma split_char_length_app (a b : string) :
  length (PyStr.split_char c (a ++ String c b))
  = (length (PyStr.split_char c a) + length (PyStr.split_char c b))%nat.
Proof.
  induction a as [|x a IH].
  - rewrite str_app_nil_l. cbn [PyStr.split_char]. by rewrite Ascii.eqb_refl.
  - rewrite str_app_cons. cbn [PyStr.split_char].
    destruct (Ascii.eqb x c); [cbn [length]; by rewrite IH|].
    pose proof (split_char_length a) as Ha.
    pose proof (split_char_length (a ++ String c b)) as Hab.
    destruct (PyStr.split_char c (a ++ String c b)) as [|w ws];
      destruct (PyStr.split_char c a) as [|u us]; cbn [length] in *; lia.
Qed.

(** No piece holds the separator. *)
Lemma split_char_pieces (s : string) : Forall (free_of c) (PyStr.split_char c s).
Proof.
  induction s as [|x s IH]; [by repeat constructor|].
  cbn [PyStr.split_char]. destruct (Ascii.eqb x c) eqn:E.
  - by constructor.
  - destruct (PyStr.split_char c s) as [|w ws].
    + repeat constructor. unfold free_of. cbn [all_chars]. unfold other_than.
      by rewrite E.
    + apply Forall_cons in IH as [Hw Hws]. constructor; [|done].
      unfold free_of in *. cbn [all_chars]. unfold other_than at 1. by rewrite E.
Qed.

End SplitFacts.

(** ** Reading the files [variables.csv] *)

Section CsvFacts.

Lemma csv_record_fields (path_prefix line : string) (var : Concat.variable) :
  Concat.csv_record path_prefix line = Some var ->
  exists name,
    Concat.path var = path_prefix ++ name
    /\ free_of "," name /\ free_of "," (Concat.value var)
    /\ PyStr.strip name = name /\ PyStr.strip (Concat.value var) = Concat.value var.
Proof.
  unfold Concat.csv_record.
  pose proof (split_char_pieces "," line) as Hall.
  destruct (PyStr.split_char "," line) as [|p0 [|p1 parts]].
  - by cbn.
  - by cbn.
  - apply Forall_cons in Hall as [H0 Hall]. apply Forall_cons in Hall as [H1 _].
    assert (H : forall var' : Concat.variable,
               Concat.path var' = path_prefix ++ PyStr.strip p0 ->
               Concat.value var' = PyStr.strip p1 ->
               exists name,
                 Concat.path var' = path_prefix ++ name
                 /\ free_of "," name /\ free_of "," (Concat.value var')
                 /\ PyStr.strip name = name
                 /\ PyStr.strip (Concat.value var') = Concat.value var').
    { intros var' Hp Hv. exists (PyStr.strip p0). rewrite Hv.
      split; [done|]. split; [by apply all_chars_strip|].
      split; [by apply all_chars_strip|]. split; apply strip_idemp. }
    destruct (6 <=? _)%nat.
    + destruct parts as [|p2 [|p3 [|p4 [|p5 parts]]]]; try done.
      intros [= <-]. by apply H.
    + destruct (2 <=? _)%nat; [|done]. intros [= <-]. by apply H.
Qed.

Lemma read_csv_line_v2_elem (path_prefix : string) (variables : list Concat.variable)
    (line : string) (var : Concat.variable) :
  var ∈ Concat.read_csv_line_v2 path_prefix variables line ->
  var ∈ variables
  \/ Concat.csv_record path_prefix (PyStr.strip line) = Some var.
Proof.
  unfold Concat.read_csv_line_v2. destruct (negb _); [by left|].
  destruct (Concat.csv_record _ _) as [v|] eqn:E; [|by left].
  unfold Py.append. intros [H|H%list_elem_of_singleton]%elem_of_app; [by left|].
  right. by subst.
Qed.

Lemma read_csv_fold_v2_elem (path_prefix : string) (lines : list string)
    (variables : list Concat.variable) (var : Concat.variable) :
  var ∈ fold_left (Concat.read_csv_line_v2 path_prefix) lines variables ->
  var ∈ variables
  \/ exists line, Concat.csv_record path_prefix line = Some var.
Proof.
  revert variables. induction lines as [|l lines IH]; intros variables; [by left|].
  cbn [fold_left]. intros [H|H]%IH; [|by right].
  apply read_csv_line_v2_elem in H as [H|H]; [by left|right; by eexists].
Qed.



End CsvFacts.

(** X16.  A variable that [read_csv_in_folder_order] reads has as its
    path the prefix of its directory and a name that holds no comma:
    the name is the text before the first comma of the line, so a name
    with a comma in it, such as [a_abs_profile(1,4)], is not read back
    whole.  The value holds no comma either. *)
Theorem csv_name_has_no_comma (sep : ascii) (walk : list Concat.csv_file)
    (var : Concat.variable) :
  var ∈ Concat.read_csv_in_folder_order sep walk ->
  exists f name,
    f ∈ walk
    /\ Concat.path var = Concat.prefix_of sep (Concat.rel f) ++ name
    /\ free_of "," name /\ free_of "," (Concat.value var).
Proof.
  unfold Concat.read_csv_in_folder_order.
  assert (H : forall vars,
             var ∈ fold_left (fun variables f =>
                                fold_left (Concat.read_csv_line_v2
                                             (Concat.prefix_of sep (Concat.rel f)))
                                  (Concat.csv_lines f) variables) walk vars ->
             var ∈ vars
             \/ exists f name,
                  f ∈ walk
                  /\ Concat.path var = Concat.prefix_of sep (Concat.rel f) ++ name
                  /\ free_of "," name /\ free_of "," (Concat.value var)).
  { induction walk as [|f walk IH]; intros vars; [by left|].
    cbn [fold_left]. intros [Hv|(f' & name & Hf & Hrest)]%IH.
    - apply read_csv_fold_v2_elem in Hv as [Hv|[line Hr]]; [by left|].
      right. apply csv_record_fields in Hr as (name & Hp & Hn & Hval & _).
      exists f, name. split; [by left|done].
    - right. exists f', name. split; [by right|done]. }
  intros Hin. apply H in Hin as [Hin|Hin]; [by apply elem_of_nil in Hin|done].
Qed.

Lemma csv_name_has_no_comma_witness :
  exists f name,
    f ∈ [ {| Concat.csv_path := "out/Plant/variables.csv"; Concat.rel := "Plant";
             Concat.csv_lines := ["a_abs_profile(1,4),0.5,0,1,Notype,-"] |} ]
    /\ "Plant.a_abs_profile(1" = Concat.prefix_of "/" (Concat.rel f) ++ name
    /\ free_of "," name /\ free_of "," "4)".
Proof.
  apply (csv_name_has_no_comma "/"
           [ {| Concat.csv_path := "out/Plant/variables.csv"; Concat.rel := "Plant";
                Concat.csv_lines := ["a_abs_profile(1,4),0.5,0,1,Notype,-"] |} ]
           {| Concat.path := "Plant.a_abs_profile(1"; Concat.value := "4)";
              Concat.lower_bound := "0.5"; Concat.upper_bound := "0";
              Concat.type := "1"; Concat.units := "Notype" |}).
  vm_compute. by left.
Defined.


Section CsvLineFacts.

Lemma isspace_nl : PyStr.isspace (ascii_of_nat 10) = true.
Proof. reflexivity. Qed.

Lemma comma_not_space : PyStr.isspace "," = false.
Proof. reflexivity. Qed.

Lemma free_of_nl (c : ascii) (s : string) :
  other_than c (ascii_of_nat 10) = true -> free_of c s -> free_of c (s ++ Out.nl).
Proof.
  intros Hc Hs. unfold free_of, Out.nl in *. rewrite all_chars_app, Hs.
  cbn [all_chars]. by rewrite Hc.
Qed.

End CsvLineFacts.

(** X18.  A line of six fields that hold no comma, put together with
    commas as [organize_values_to_folders] writes them, is read back by
    the loop of [read_csv_in_folder_order] as one variable with these
    fields, each stripped of the blanks at its ends, and the prefix
    before the name. *)
Theorem csv_line_read_back (path_prefix v x lo up ty un : string) :
  free_of "," v -> free_of "," x -> free_of "," lo -> free_of "," up ->
  free_of "," ty -> free_of "," un ->
  Concat.read_csv_line_v2 path_prefix []
    (v ++ "," ++ x ++ "," ++ lo ++ "," ++ up ++ "," ++ ty ++ "," ++ un ++ Out.nl)
  = [ {| Concat.path := path_prefix ++ PyStr.strip v; Concat.value := PyStr.strip x;
         Concat.lower_bound := PyStr.strip lo; Concat.upper_bound := PyStr.strip up;
         Concat.type := PyStr.strip ty; Concat.units := PyStr.strip un |} ].
Proof.
  intros Hv Hx Hlo Hup Hty Hun.
  unfold Concat.read_csv_line_v2.
  rewrite !str_app_cons, !str_app_nil_l.
  assert (Hs : PyStr.strip (v ++ String "," (x ++ String "," (lo ++ String "," (up
                  ++ String "," (ty ++ String "," (un ++ Out.nl))))))
               = PyStr.lstrip_by PyStr.isspace v
                 ++ String "," (x ++ String "," (lo ++ String "," (up
                  ++ String "," (ty ++ String ","
                       (PyStr.rstrip_by PyStr.isspace (un ++ Out.nl))))))).
  { unfold PyStr.strip, PyStr.strip_by.
    rewrite (lstrip_by_app_keep _ _ _ _ comma_not_space).
    by rewrite !(rstrip_by_app_keep _ _ _ _ comma_not_space). }
  rewrite Hs. clear Hs.
  assert (Hne : Py.nonempty (PyStr.lstrip_by PyStr.isspace v
                 ++ String "," (x ++ String "," (lo ++ String "," (up
                  ++ String "," (ty ++ String ","
                       (PyStr.rstrip_by PyStr.isspace (un ++ Out.nl)))))))
                = true).
  { by destruct (PyStr.lstrip_by PyStr.isspace v). }
  rewrite Hne. cbn [negb].
  unfold Concat.csv_record.
  rewrite (split_char_app "," _ _ (all_chars_lstrip _ _ _ Hv)).
  rewrite (split_char_app "," _ _ Hx), (split_char_app "," _ _ Hlo).
  rewrite (split_char_app "," _ _ Hup), (split_char_app "," _ _ Hty).
  rewrite (split_char_free "," (PyStr.rstrip_by PyStr.isspace (un ++ Out.nl))).
  2:{ apply all_chars_rstrip. by apply free_of_nl. }
  cbn [length Nat.leb]. unfold Py.append. cbn [app].
  do 2 f_equal.
  - f_equal. apply strip_by_lstrip.
  - fold (PyStr.strip (PyStr.rstrip_by PyStr.isspace (un ++ Out.nl))).
    unfold PyStr.strip. rewrite strip_by_rstrip. unfold Out.nl.
    by rewrite (strip_by_snoc_space _ _ _ isspace_nl).
Qed.

Lemma csv_line_read_back_witness :
  Concat.read_csv_line_v2 "Plant.Absorber."
    [] ("Hold_up" ++ "," ++ "0.245" ++ "," ++ " 0" ++ "," ++ "1 " ++ "," ++ "Notype"
        ++ "," ++ "" ++ Out.nl)
  = [ {| Concat.path := "Plant.Absorber." ++ PyStr.strip "Hold_up";
         Concat.value := PyStr.strip "0.245";
         Concat.lower_bound := PyStr.strip " 0"; Concat.upper_bound := PyStr.strip "1 ";
         Concat.type := PyStr.strip "Notype"; Concat.units := PyStr.strip "" |} ].
Proof.
  apply (csv_line_read_back "Plant.Absorber." "Hold_up" "0.245" " 0" "1 " "Notype" "");
    reflexivity.
Defined.

(** ** The lines of the reconstructed file, read again *)

Section RecordLineFacts.

Lemma colon_not_space : PyStr.isspace ":" = false.
Proof. reflexivity. Qed.

Lemma strip_head (s : string) (c : ascii) :
  PyStr.startswith (String c "") (PyStr.strip s)
  = PyStr.startswith (String c "") (PyStr.lstrip_by PyStr.isspace s).
Proof.
  unfold PyStr.strip, PyStr.strip_by.
  pose proof (lstrip_by_clean PyStr.isspace s) as Hc.
  destruct (PyStr.lstrip_by PyStr.isspace s) as [|y t]; [done|].
  cbn [clean_head] in Hc. by rewrite rstrip_by_cons_keep.
Qed.

(** A line with five colons or more whose first two fields hold no
    colon: the record is made of these two fields, stripped. *)
Lemma record_fields_shape (a0 a1 r2 r3 r4 r5 : string) :
  free_of ":" a0 -> free_of ":" a1 ->
  PyStr.startswith "#" (PyStr.strip a0) = false ->
  Analyse.record_fields
    (a0 ++ String ":" (a1 ++ String ":" (r2 ++ String ":" (r3 ++ String ":"
       (r4 ++ String ":" r5)))))
  = Some (PyStr.strip a0, PyStr.strip a1).
Proof.
  intros H0 H1 Hc. unfold Analyse.record_fields.
  assert (Hs : PyStr.strip (a0 ++ String ":" (a1 ++ String ":" (r2 ++ String ":"
                  (r3 ++ String ":" (r4 ++ String ":" r5)))))
               = PyStr.lstrip_by PyStr.isspace a0
                 ++ String ":" (a1 ++ String ":" (r2 ++ String ":" (r3 ++ String ":"
                      (r4 ++ String ":" (PyStr.rstrip_by PyStr.isspace r5)))))).
  { unfold PyStr.strip, PyStr.strip_by.
    rewrite (lstrip_by_app_keep _ _ _ _ colon_not_space).
    by rewrite !(rstrip_by_app_keep _ _ _ _ colon_not_space). }
  rewrite Hs. clear Hs.
  set (l0 := PyStr.lstrip_by PyStr.isspace a0).
  set (t := a1 ++ String ":" (r2 ++ String ":" (r3 ++ String ":"
              (r4 ++ String ":" (PyStr.rstrip_by PyStr.isspace r5))))).
  assert (Hne : Py.nonempty (l0 ++ String ":" t) = true) by (by destruct l0).
  assert (Hnc : PyStr.startswith "#" (l0 ++ String ":" t) = false).
  { rewrite strip_head in Hc. fold l0 in Hc. destruct l0 as [|y l0']; [done|].
    rewrite str_app_cons. cbn [PyStr.startswith] in *.
    by destruct (Ascii.eqb "#" y). }
  rewrite Hne, Hnc. cbn [negb orb].
  rewrite (split_char_app ":" l0 t) by (by apply all_chars_lstrip).
  unfold t. rewrite (split_char_app ":" a1 _ H1).
  pose proof (split_char_length_app ":" r2
                (r3 ++ String ":" (r4 ++ String ":" (PyStr.rstrip_by PyStr.isspace r5))))
    as E2.
  pose proof (split_char_length_app ":" r3
                (r4 ++ String ":" (PyStr.rstrip_by PyStr.isspace r5))) as E3.
  pose proof (split_char_length_app ":" r4 (PyStr.rstrip_by PyStr.isspace r5)) as E4.
  pose proof (split_char_length ":" r2) as G2.
  pose proof (split_char_length ":" r3) as G3.
  pose proof (split_char_length ":" r4) as G4.
  pose proof (split_char_length ":" (PyStr.rstrip_by PyStr.isspace r5)) as G5.
  set (ps := PyStr.split_char ":" (r2 ++ _)) in *.
  rewrite !fmap_cons. cbn [length]. rewrite length_fmap.
  assert (Hlen : (6 <=? S (S (length ps)))%nat = true) by (apply Nat.leb_le; lia).
  rewrite Hlen. do 2 f_equal. apply strip_by_lstrip.
Qed.

Lemma plain_char_token (c : ascii) :
  plain_char c = true -> PyStr.isspace c = false /\ other_than ":" c = true.
Proof.
  destruct c as [[] [] [] [] [] [] [] []]; vm_compute; intros H;
    try discriminate H; by split.
Qed.

Lemma plain_token (s : string) :
  all_chars plain_char s = true -> free_of ":" s /\ PyStr.strip s = s.
Proof.
  intros H. split.
  - unfold free_of. induction s as [|c s IH]; [done|]. cbn [all_chars] in *.
    apply andb_true_iff in H as [Hc Hs]. apply plain_char_token in Hc as [_ ->].
    by apply IH.
  - apply strip_by_free. induction s as [|c s IH]; [done|]. cbn [all_chars] in *.
    apply andb_true_iff in H as [Hc Hs]. apply plain_char_token in Hc as [-> _].
    by apply IH.
Qed.

Lemma format_e_plain (q : nat) (s : bool) (m : positive) (e : Z) :
  all_chars plain_char (Float.format_e (S q) (S754_finite s m e)) = true.
Proof.
  unfold Float.format_e.
  destruct (Ratio.scale 2 (Zpos m) 1 (- e)) as [n d].
  destruct (Float.decimal_digits (S q) n d) as [N k].
  rewrite !all_chars_app. apply andb_true_iff. split; [by destruct s|].
  apply andb_true_iff. split.
  - unfold Float.mantissa_str. rewrite fixed_digits_head. cbn [all_chars].
    destruct (digit_char_facts _ (mod10_bound (N / 10 ^ Z.of_nat (S q)))) as (_ & _ & ->).
    by rewrite fixed_digits_plain.
  - unfold Float.exponent_str. cbn [all_chars]. rewrite fixed_digits_plain.
    by destruct (k <? 0)%Z.
Qed.

(** The text written for a token that is a number holds no colon and
    no blank at its ends. *)
Lemma format_token (value_str : string) (x : float) :
  Float.of_string value_str = Some x ->
  free_of ":" (Concat.format_scientific_notation value_str)
  /\ PyStr.strip (Concat.format_scientific_notation value_str)
     = Concat.format_scientific_notation value_str.
Proof.
  intros Hx. unfold Concat.format_scientific_notation. rewrite Hx.
  destruct x as [s|s| |s m e].
  - replace (Float.eqb (S754_zero s) Float.zero) with true by (by destruct s).
    split; reflexivity.
  - replace (Float.eqb (S754_infinity s) Float.zero) with false by (by destruct s).
    destruct s; split; reflexivity.
  - split; reflexivity.
  - replace (Float.eqb (S754_finite s m e) Float.zero) with false by (by destruct s).
    apply plain_token, format_e_plain.
Qed.

End RecordLineFacts.

(** ** The written text, read line by line *)

Section FileLineFacts.

Lemma not_line_break (c : ascii) :
  negb (PyFile.line_break c) = true ->
  Ascii.eqb c PyFile.LF = false /\ Ascii.eqb c PyFile.CR = false.
Proof.
  unfold PyFile.line_break. intros H%negb_true_iff.
  by apply orb_false_iff in H.
Qed.

Lemma one_line_app (a b : string) : one_line a -> one_line b -> one_line (a ++ b).
Proof. unfold one_line. rewrite all_chars_app. by intros -> ->. Qed.

(** A text with no line break in it, then a line feed: the first line. *)
Lemma lines_line (body rest : string) :
  one_line body ->
  PyFile.lines (body ++ Out.nl ++ rest) = (body ++ Out.nl) :: PyFile.lines rest.
Proof.
  unfold one_line. induction body as [|c body IH]; intros H.
  - reflexivity.
  - cbn [all_chars] in H. apply andb_true_iff in H as [Hc Hb].
    destruct (not_line_break c Hc) as [Hlf Hcr].
    rewrite !(str_app_cons c). cbn [PyFile.lines]. rewrite Hlf, Hcr.
    by rewrite (IH Hb).
Qed.

Lemma plain_one_line (s : string) : all_chars plain_char s = true -> one_line s.
Proof.
  unfold one_line. induction s as [|c s IH]; [done|]. cbn [all_chars].
  intros [Hc Hs]%andb_true_iff. rewrite (IH Hs), andb_true_r.
  revert Hc. destruct c as [[] [] [] [] [] [] [] []]; vm_compute; congruence.
Qed.

(** The text written for a token has no line break if the token has
    none. *)
Lemma format_one_line (value_str : string) :
  one_line value_str -> one_line (Concat.format_scientific_notation value_str).
Proof.
  intros H. unfold Concat.format_scientific_notation.
  destruct (Float.of_string value_str) as [x|]; [|exact H].
  destruct x as [s|s| |s m e].
  - replace (Float.eqb (S754_zero s) Float.zero) with true by (by destruct s).
    reflexivity.
  - replace (Float.eqb (S754_infinity s) Float.zero) with false by (by destruct s).
    destruct s; reflexivity.
  - reflexivity.
  - replace (Float.eqb (S754_finite s m e) Float.zero) with false by (by destruct s).
    apply plain_one_line, format_e_plain.
Qed.

(** The line written for a variable whose fields hold no line break is
    one line of the file. *)
Lemma lines_variable_line (var : Concat.variable) (rest : string) :
  Forall one_line (fields var) ->
  PyFile.lines (Concat.variable_line var ++ rest)
  = Concat.variable_line var :: PyFile.lines rest.
Proof.
  unfold fields. intros H.
  apply Forall_cons in H as [Hp H]. apply Forall_cons in H as [Hv H].
  apply Forall_cons in H as [Hl H]. apply Forall_cons in H as [Hu H].
  apply Forall_cons in H as [Ht H]. apply Forall_cons in H as [Hn _].
  apply format_one_line in Hv, Hl, Hu.
  unfold Concat.variable_line. cbv zeta.
  set (vs := Concat.format_scientific_notation (Concat.value var)) in *.
  set (ls := Concat.format_scientific_notation (Concat.lower_bound var)) in *.
  set (us := Concat.format_scientific_notation (Concat.upper_bound var)) in *.
  assert (Hsep : one_line " : ") by reflexivity.
  assert (Htab : one_line Out.tab) by reflexivity.
  destruct (Py.nonempty _).
  - assert (Hb : one_line (Out.tab ++ Concat.path var ++ " : " ++ vs ++ " : " ++ ls
                           ++ " : " ++ us ++ " : " ++ Concat.type var ++ " : "
                           ++ Concat.units var))
      by (repeat apply one_line_app; done).
    assert (E : Out.tab ++ Concat.path var ++ " : " ++ vs ++ " : " ++ ls ++ " : "
                  ++ us ++ " : " ++ Concat.type var ++ " : " ++ Concat.units var
                  ++ Out.nl
                = (Out.tab ++ Concat.path var ++ " : " ++ vs ++ " : " ++ ls ++ " : "
                   ++ us ++ " : " ++ Concat.type var ++ " : " ++ Concat.units var)
                  ++ Out.nl)
      by (by rewrite !str_app_assoc).
    rewrite E, str_app_assoc. by apply lines_line.
  - assert (Hb : one_line (Out.tab ++ Concat.path var ++ " : " ++ vs ++ " : " ++ ls
                           ++ " : " ++ us ++ " : " ++ Concat.type var ++ " :"))
      by (repeat apply one_line_app; done).
    assert (E : Out.tab ++ Concat.path var ++ " : " ++ vs ++ " : " ++ ls ++ " : "
                  ++ us ++ " : " ++ Concat.type var ++ " :" ++ Out.nl
                = (Out.tab ++ Concat.path var ++ " : " ++ vs ++ " : " ++ ls ++ " : "
                   ++ us ++ " : " ++ Concat.type var ++ " :")
                  ++ Out.nl)
      by (by rewrite !str_app_assoc).
    rewrite E, str_app_assoc. by apply lines_line.
Qed.

Lemma lines_variable_lines (variables : list Concat.variable) :
  Forall (fun v => Forall one_line (fields v)) variables ->
  PyFile.lines (PyFile.content (Concat.variable_line <$> variables))
  = Concat.variable_line <$> variables.
Proof.
  induction 1 as [|v vars Hv _ IH]; [reflexivity|].
  rewrite fmap_cons. cbn [PyFile.content foldr].
  rewrite (lines_variable_line v _ Hv). f_equal. exact IH.
Qed.

End FileLineFacts.

(** A line written for a variable, read as a record. *)
Lemma record_line_read (var : Concat.variable) (x : float)
    (acc : gmap string float * list string) :
  free_of ":" (Concat.path var) ->
  PyStr.startswith "#" (PyStr.strip (Concat.path var)) = false ->
  Float.of_string (Concat.value var) = Some x ->
  Analyse.read_line None acc (Concat.variable_line var)
  = (<[PyStr.strip (Concat.path var) := written_back x]> acc.1, acc.2).
Proof.
  intros Hp Hc Hx.
  destruct (format_token _ _ Hx) as [Hv1 Hv2].
  set (vs := Concat.format_scientific_notation (Concat.value var)) in *.
  set (a0 := Out.tab ++ Concat.path var ++ " ").
  set (a1 := " " ++ vs ++ " ").
  assert (Hs0 : PyStr.strip a0 = PyStr.strip (Concat.path var)).
  { unfold a0, Out.tab. rewrite str_app_cons, str_app_nil_l.
    unfold PyStr.strip. rewrite strip_by_cons_space by reflexivity.
    by rewrite strip_by_snoc_space by reflexivity. }
  assert (Hs1 : PyStr.strip a1 = vs).
  { unfold a1. rewrite str_app_cons, str_app_nil_l.
    unfold PyStr.strip. rewrite strip_by_cons_space by reflexivity.
    rewrite strip_by_snoc_space by reflexivity. exact Hv2. }
  assert (Hf0 : free_of ":" a0).
  { unfold a0, free_of, Out.tab. rewrite !all_chars_app. unfold free_of in Hp.
    by rewrite Hp. }
  assert (Hf1 : free_of ":" a1).
  { unfold a1, free_of. rewrite !all_chars_app. unfold free_of in Hv1.
    by rewrite Hv1. }
  assert (Hr : Analyse.record_fields (Concat.variable_line var)
               = Some (PyStr.strip (Concat.path var), vs)).
  { rewrite <- Hs0, <- Hs1. unfold Concat.variable_line. cbv zeta. fold vs.
    destruct (Py.nonempty _).
    - rewrite <- (record_fields_shape a0 a1
                    (" " ++ Concat.format_scientific_notation (Concat.lower_bound var) ++ " ")
                    (" " ++ Concat.format_scientific_notation (Concat.upper_bound var) ++ " ")
                    (" " ++ Concat.type var ++ " ")
                    (" " ++ Concat.units var ++ Out.nl))
        by (done || by rewrite Hs0).
      f_equal. unfold a0, a1. rewrite !str_app_assoc. reflexivity.
    - rewrite <- (record_fields_shape a0 a1
                    (" " ++ Concat.format_scientific_notation (Concat.lower_bound var) ++ " ")
                    (" " ++ Concat.format_scientific_notation (Concat.upper_bound var) ++ " ")
                    (" " ++ Concat.type var ++ " ")
                    Out.nl)
        by (done || by rewrite Hs0).
      f_equal. unfold a0, a1. rewrite !str_app_assoc. reflexivity. }
  unfold Analyse.read_line. rewrite Hr. cbn [Analyse.prefix_excludes].
  unfold vs. by rewrite (written_back_exact _ _ Hx).
Qed.

(** X19.  A line that [write_txt_file] or [write_reconstructed] writes
    for a variable is read back from the file by the loop of
    [read_all_values_from_txt] as one record, of the stripped path with
    the float of the value token: the very float, but for a negative
    zero.  This for a variable whose fields hold no line break, whose
    path holds no colon and does not start with [#], and whose value
    token is a number. *)
Theorem written_line_read_back (var : Concat.variable) (x : float)
    (acc : gmap string float * list string) :
  Forall one_line (fields var) ->
  free_of ":" (Concat.path var) ->
  PyStr.startswith "#" (PyStr.strip (Concat.path var)) = false ->
  Float.of_string (Concat.value var) = Some x ->
  fold_left (Analyse.read_line None) (PyFile.lines (Concat.variable_line var)) acc
  = (<[PyStr.strip (Concat.path var) := written_back x]> acc.1, acc.2).
Proof.
  intros Hf Hp Hc Hx.
  pose proof (lines_variable_line var "" Hf) as Hl.
  rewrite str_app_nil_r in Hl. rewrite Hl.
  change (PyFile.lines "") with (@nil string). cbn [fold_left].
  by apply record_line_read.
Qed.

Lemma written_line_read_back_witness :
  fold_left (Analyse.read_line None)
    (PyFile.lines (Concat.variable_line (var_of "Plant.Hold_up" "0.1" "m3"))) (∅, [])
  = (<[PyStr.strip "Plant.Hold_up"
       := written_back (S754_finite false 7205759403792794 (-56))]> ∅, []).
Proof.
  apply (written_line_read_back (var_of "Plant.Hold_up" "0.1" "m3")
           (S754_finite false 7205759403792794 (-56)) (∅, [])).
  - repeat constructor.
  - reflexivity.
  - reflexivity.
  - vm_compute. reflexivity.
Defined.

(** Without the condition on line breaks the record is not read back:
    a path with a line feed in it is written over two lines, and the
    record that is read has the text after the line feed as its path. *)
Lemma line_break_splits_record :
  PyFile.lines (Concat.variable_line (var_of ("A" ++ Out.nl ++ "B") "0.1" "m3"))
  = [ Out.tab ++ "A" ++ Out.nl;
      "B : 1.0000000000000001e-01 : -1.0000000000000000e+20 : "
      ++ "1.0000000000000000e+20 : Notype : m3" ++ Out.nl ]
  /\ (fold_left (Analyse.read_line None)
        (PyFile.lines (Concat.variable_line (var_of ("A" ++ Out.nl ++ "B") "0.1" "m3")))
        (∅, [])).1
     = {[ "B" := S754_finite false 7205759403792794 (-56) ]}.
Proof. split; vm_compute; reflexivity. Qed.

Section OrderLineFacts.

Lemma startswith_app (sub b : string) : PyStr.startswith sub (sub ++ b) = true.
Proof.
  induction sub as [|x sub IH]; [by destruct b|].
  rewrite str_app_cons. cbn [PyStr.startswith]. by rewrite Ascii.eqb_refl.
Qed.

Lemma contains_app (sub a b : string) : PyStr.contains sub (a ++ sub ++ b) = true.
Proof.
  induction a as [|x a IH].
  - rewrite str_app_nil_l.
    destruct (sub ++ b) eqn:E; cbn [PyStr.contains]; rewrite <- E;
      by rewrite startswith_app.
  - rewrite str_app_cons. cbn [PyStr.contains]. rewrite IH. apply orb_true_r.
Qed.

(** The separator [" : "] does not start inside a text with no colon
    that is followed by the separator. *)
Lemma no_separator_inside (x : ascii) (t b : string) :
  free_of ":" (String x t) ->
  PyStr.startswith " : " (String x t ++ " : " ++ b) = false.
Proof.
  unfold free_of. cbn [all_chars]. intros [_ Ht]%andb_true_iff.
  rewrite str_app_cons. cbn [PyStr.startswith].
  destruct (Ascii.eqb " " x); [|done].
  destruct t as [|y t]; [done|].
  cbn [all_chars] in Ht. apply andb_true_iff in Ht as [Hy _].
  unfold other_than in Hy. apply negb_true_iff in Hy.
  rewrite str_app_cons. rewrite Ascii.eqb_sym. by rewrite Hy.
Qed.

Lemma split_fuel_head (fuel : nat) (a b : string) :
  free_of ":" a -> (String.length a < fuel)%nat ->
  exists rest, PyStr.split_fuel fuel " : " (a ++ " : " ++ b) = a :: rest.
Proof.
  revert fuel. induction a as [|x a IH]; intros fuel Ha Hf.
  - destruct fuel as [|fuel]; [cbn in Hf; lia|].
    rewrite str_app_nil_l. by eexists.
  - destruct fuel as [|fuel]; [cbn in Hf; lia|].
    pose proof (no_separator_inside x a b Ha) as Hno.
    rewrite (str_app_cons x a (" : " ++ b)) in *. cbn [PyStr.split_fuel]. rewrite Hno.
    destruct (IH fuel) as [rest Hr].
    + unfold free_of in *. cbn [all_chars] in Ha.
      by apply andb_true_iff in Ha as [_ ?].
    + cbn [String.length] in Hf. lia.
    + rewrite Hr. by eexists.
Qed.

Lemma length_app_le (a b : string) :
  (String.length a <= String.length (a ++ b))%nat.
Proof.
  induction a as [|x a IH]; [cbn; lia|]. rewrite str_app_cons. cbn [String.length]. lia.
Qed.

(** A stripped line that begins with a path and the separator: the
    path is added to the order list. *)
Lemma order_line_path (order_list : list string) (p b : string) :
  order_path p ->
  PyStr.strip (p ++ " : " ++ b) = p ++ " : " ++ b ->
  Concat.order_line order_list (p ++ " : " ++ b) = Py.append order_list p.
Proof.
  intros (Hf & Hs & Hne & Hc & He) Hstrip. unfold Concat.order_line.
  rewrite Hstrip.
  destruct p as [|x p]; [done|]. clear Hne.
  assert (Hx : PyStr.isspace x = false).
  { pose proof (rstrip_by_clean PyStr.isspace _
                  (lstrip_by_clean PyStr.isspace (String x p))) as Hcl.
    unfold PyStr.strip, PyStr.strip_by in Hs. by rewrite Hs in Hcl. }
  change (Py.nonempty (String x p ++ " : " ++ b)) with true.
  change (PyStr.startswith "#" (String x p ++ " : " ++ b))
    with (PyStr.startswith "#" (String x p)).
  change (PyStr.startswith "!" (String x p ++ " : " ++ b))
    with (PyStr.startswith "!" (String x p)).
  rewrite Hc, He. cbn [negb orb].
  replace (PyStr.startswith Out.tab (String x p ++ " : " ++ b)) with false.
  2:{ symmetry. unfold Out.tab. rewrite str_app_cons. cbn [PyStr.startswith].
      destruct (Ascii.eqb (ascii_of_nat 9) x) eqn:E; [|done].
      apply Ascii.eqb_eq in E as <-. done. }
  rewrite contains_app.
  unfold PyStr.split.
  destruct (split_fuel_head (S (String.length (String x p ++ " : " ++ b)))
              (String x p) b Hf) as [rest ->]; [|done].
  pose proof (length_app_le (String x p) (" : " ++ b)). lia.
Qed.

Lemma order_line_strip (order_list : list string) (line : string) :
  Concat.order_line order_list (PyStr.strip line) = Concat.order_line order_list line.
Proof. unfold Concat.order_line. by rewrite strip_idemp. Qed.

Lemma strip_written (p vs r : string) :
  order_path p ->
  PyStr.strip (Out.tab ++ p ++ " : " ++ vs ++ " :" ++ r)
  = p ++ " : " ++ vs ++ " :" ++ PyStr.rstrip_by PyStr.isspace r.
Proof.
  intros (Hf & Hs & Hne & _). destruct p as [|x p]; [done|].
  assert (Hx : PyStr.isspace x = false).
  { pose proof (rstrip_by_clean PyStr.isspace _
                  (lstrip_by_clean PyStr.isspace (String x p))) as Hcl.
    unfold PyStr.strip, PyStr.strip_by in Hs. by rewrite Hs in Hcl. }
  unfold PyStr.strip, PyStr.strip_by, Out.tab.
  rewrite !str_app_cons, !str_app_nil_l. cbn [PyStr.lstrip_by].
  change (PyStr.isspace (ascii_of_nat 9)) with true. cbn iota. rewrite Hx.
  assert (E : String x (p ++ String " " (String ":" (String " " (vs ++ String " "
                 (String ":" r)))))
              = String x (p ++ " ") ++ String ":" (String " " (vs ++ " ") ++ String ":" r)).
  { rewrite !str_app_cons. f_equal. rewrite !str_app_assoc.
    by rewrite !str_app_cons, !str_app_nil_l. }
  rewrite E. clear E.
  rewrite !(rstrip_by_app_keep _ _ _ _ colon_not_space).
  rewrite !str_app_cons. f_equal. rewrite !str_app_assoc.
  by rewrite !str_app_cons, !str_app_nil_l.
Qed.

Lemma order_line_written (order_list : list string) (var : Concat.variable) :
  order_path (Concat.path var) ->
  Concat.order_line order_list (Concat.variable_line var)
  = Py.append order_list (Concat.path var).
Proof.
  intros Hp. rewrite <- order_line_strip.
  assert (H : exists b,
             PyStr.strip (Concat.variable_line var) = Concat.path var ++ " : " ++ b
             /\ PyStr.strip (Concat.path var ++ " : " ++ b)
                = Concat.path var ++ " : " ++ b).
  { unfold Concat.variable_line. cbv zeta.
    set (vs := Concat.format_scientific_notation (Concat.value var)).
    set (ls := Concat.format_scientific_notation (Concat.lower_bound var)).
    set (us := Concat.format_scientific_notation (Concat.upper_bound var)).
    destruct (Py.nonempty _).
    - exists (vs ++ " :" ++ PyStr.rstrip_by PyStr.isspace
                (" " ++ ls ++ " : " ++ us ++ " : " ++ Concat.type var ++ " : "
                 ++ Concat.units var ++ Out.nl)).
      rewrite <- (strip_written _ _ _ Hp). split; [|apply strip_idemp].
      reflexivity.
    - exists (vs ++ " :" ++ PyStr.rstrip_by PyStr.isspace
                (" " ++ ls ++ " : " ++ us ++ " : " ++ Concat.type var ++ " :"
                 ++ Out.nl)).
      rewrite <- (strip_written _ _ _ Hp). split; [|apply strip_idemp].
      reflexivity. }
  destruct H as (b & -> & Hb). by apply order_line_path.
Qed.

End OrderLineFacts.

(** The lines written for the variables, read as the order file. *)
Lemma order_of_written_lines (variables : list Concat.variable) :
  Forall (fun v => order_path (Concat.path v)) variables ->
  Concat.load_variable_order (Some (Concat.variable_line <$> variables))
  = Concat.path <$> variables.
Proof.
  intros Hall. unfold Concat.load_variable_order.
  change (Concat.path <$> variables) with (([] : list string) ++ (Concat.path <$> variables))%list.
  generalize ([] : list string) as acc.
  induction Hall as [|v vars Hv _ IH]; intros acc.
  - by rewrite app_nil_r.
  - rewrite !fmap_cons. cbn [fold_left]. rewrite (order_line_written _ _ Hv), IH.
    unfold Py.append. by rewrite <- app_assoc.
Qed.

(** X20.  The text that [write_txt_file] writes for the variables can
    serve as the order file: [load_variable_order] reads from its lines
    the paths of the variables, in the order in which they were
    written, when no field of a variable holds a line break and each
    path holds no colon, has no blank at its ends, is not empty and
    does not start with [#] or [!]. *)
Theorem written_lines_give_order (variables : list Concat.variable) :
  Forall (fun v => Forall one_line (fields v)) variables ->
  Forall (fun v => order_path (Concat.path v)) variables ->
  Concat.load_variable_order
    (Some (PyFile.lines (PyFile.content (Concat.variable_line <$> variables))))
  = Concat.path <$> variables.
Proof.
  intros Hlines Hpaths. rewrite (lines_variable_lines variables Hlines).
  by apply order_of_written_lines.
Qed.

Lemma written_lines_give_order_witness :
  Concat.load_variable_order
    (Some (PyFile.lines
             (PyFile.content
                (Concat.variable_line
                   <$> [var_of "Plant.b" "1" "m"; var_of "Plant.a(1,2)" "x" ""]))))
  = Concat.path <$> [var_of "Plant.b" "1" "m"; var_of "Plant.a(1,2)" "x" ""].
Proof.
  apply written_lines_give_order.
  - repeat constructor.
  - repeat constructor; try reflexivity; discriminate.
Defined.

(** ** The comparator of app.py: exchanging the two files *)

Section SymmetryFacts.

Lemma abs_binary_round (s : bool) (m : positive) (e : Z) :
  SFabs (binary_round Float.prec Float.emax s m e)
  = SFabs (binary_round Float.prec Float.emax false m e).
Proof.
  unfold binary_round, binary_round_aux.
  destruct (shl_align _ _ _) as [mz ez].
  destruct (shr_fexp _ _ _ _ _) as [mrs' e'].
  destruct (shr_fexp _ _ _ _ _) as [mrs'' e''].
  destruct (shr_m mrs''); [done| |done].
  by destruct (_ <=? _).
Qed.

Lemma abs_binary_normalize (m e : Z) :
  SFabs (binary_normalize Float.prec Float.emax (- m) e false)
  = SFabs (binary_normalize Float.prec Float.emax m e false).
Proof.
  destruct m as [|p|p]; cbn [Z.opp binary_normalize]; [done| |].
  - apply abs_binary_round.
  - symmetry. apply abs_binary_round.
Qed.

(** [abs(x - y)] is [abs(y - x)], for all floats. *)
Lemma abs_sub_comm (x y : float) :
  Float.abs (Float.sub x y) = Float.abs (Float.sub y x).
Proof.
  unfold Float.abs, Float.sub.
  destruct x as [sx|sx| |sx mx ex], y as [sy|sy| |sy my ey]; cbn [SFsub];
    try done; try (by destruct sx, sy).
  cbv zeta. rewrite (Z.min_comm ey ex), <- abs_binary_normalize.
  f_equal. f_equal. lia.
Qed.

Lemma abs_rank_inj (a b : float) :
  Float.isnan a = false -> Float.isnan b = false ->
  float_rank (Float.abs a) = float_rank (Float.abs b) ->
  Float.abs a = Float.abs b.
Proof.
  destruct a as [sa|sa| |sa ma ea], b as [sb|sb| |sb mb eb]; try done; intros _ _;
    unfold Float.abs; cbn [SFabs float_rank]; try done.
  by intros [= -> ->].
Qed.

(** [max] of two floats that are no NaN does not depend on their
    order, once the signs are taken away. *)
Lemma max2_abs_comm (a b : float) :
  Float.isnan a = false -> Float.isnan b = false ->
  Float.max2 (Float.abs a) (Float.abs b) = Float.max2 (Float.abs b) (Float.abs a).
Proof.
  intros Ha Hb. unfold Float.max2, Float.gtb.
  assert (Ha' : Float.isnan (Float.abs a) = false) by (by destruct a).
  assert (Hb' : Float.isnan (Float.abs b) = false) by (by destruct b).
  pose proof (ltb_rank (Float.abs a) (Float.abs b) Ha' Hb') as H1.
  pose proof (ltb_rank (Float.abs b) (Float.abs a) Hb' Ha') as H2.
  unfold Float.ltb in H1, H2.
  destruct (SFltb (Float.abs a) (Float.abs b)) eqn:E1,
           (SFltb (Float.abs b) (Float.abs a)) eqn:E2; try done.
  - exfalso. destruct H1 as [H1 _], H2 as [H2 _].
    specialize (H1 eq_refl). specialize (H2 eq_refl). unfold rank_lt in *. lia.
  - symmetry. apply abs_rank_inj; [done|done|].
    assert (N1 : ~ rank_lt (float_rank (Float.abs a)) (float_rank (Float.abs b))).
    { intros H. apply H1 in H. done. }
    assert (N2 : ~ rank_lt (float_rank (Float.abs b)) (float_rank (Float.abs a))).
    { intros H. apply H2 in H. done. }
    destruct (float_rank (Float.abs a)) as [[a1 a2] a3].
    destruct (float_rank (Float.abs b)) as [[b1 b2] b3].
    unfold rank_lt in *. cbn [fst snd] in *.
    f_equal; [f_equal|]; lia.
Qed.

Context (d1 d2 : gmap string App.var_info) (abs_tol rel_tol : float).

Hypothesis finite1 : forall k a, d1 !! k = Some a -> finite_value a.
Hypothesis finite2 : forall k b, d2 !! k = Some b -> finite_value b.

Lemma compare_key_swap (k : string) (c : App.counts) :
  App.compare_key d2 d1 abs_tol rel_tol k (swap_counts c)
  = (fun rc : App.row * App.counts => (swap_row rc.1, swap_counts rc.2))
      <$> App.compare_key d1 d2 abs_tol rel_tol k c.
Proof.
  unfold App.compare_key.
  destruct (d1 !! k) as [a|] eqn:E1, (d2 !! k) as [b|] eqn:E2; try done.
  destruct (App.value_num a) as [n1|] eqn:Ea, (App.value_num b) as [n2|] eqn:Eb.
  - assert (Hn1 : Float.isnan n1 = false).
    { apply finite_not_nan. by apply (finite1 k a E1). }
    assert (Hn2 : Float.isnan n2 = false).
    { apply finite_not_nan. by apply (finite2 k b E2). }
    cbv zeta. rewrite !truediv_tiny_defined.
    rewrite (abs_sub_comm n2 n1).
    unfold Float.max3. rewrite (max2_abs_comm n2 n1 Hn2 Hn1).
    cbn [fmap option_fmap option_map fst snd].
    by destruct (_ || _).
  - cbn [fmap option_fmap option_map fst snd].
    rewrite (String.eqb_sym (PyStr.strip (App.value_str b))). unfold PyStr.eqb.
    by destruct (String.eqb _ _).
  - cbn [fmap option_fmap option_map fst snd].
    unfold PyStr.eqb. rewrite (String.eqb_sym (PyStr.strip (App.value_str b))).
    by destruct (String.eqb _ _).
  - cbn [fmap option_fmap option_map fst snd].
    unfold PyStr.eqb. rewrite (String.eqb_sym (PyStr.strip (App.value_str b))).
    by destruct (String.eqb _ _).
Qed.

Lemma compare_loop_swap (keys : list string) (c : App.counts) :
  App.compare_loop d2 d1 abs_tol rel_tol keys (swap_counts c)
  = swap_result <$> App.compare_loop d1 d2 abs_tol rel_tol keys c.
Proof.
  revert c. induction keys as [|k keys IH]; intros c; [done|].
  cbn [App.compare_loop]. rewrite compare_key_swap.
  destruct (App.compare_key d1 d2 abs_tol rel_tol k c) as [[r c1]|]; [|done].
  cbn [fmap option_fmap option_map fst snd]. rewrite IH.
  by destruct (App.compare_loop d1 d2 abs_tol rel_tol keys c1) as [[ds c2]|].
Qed.

Lemma compare_dicts_swap :
  App.compare_dicts d2 d1 abs_tol rel_tol
  = swap_result <$> App.compare_dicts d1 d2 abs_tol rel_tol.
Proof.
  unfold App.compare_dicts, App.sorted_keys.
  rewrite (union_comm_L (dom d2) (dom d1)).
  apply (compare_loop_swap _ {| App.only_in_1 := 0; App.only_in_2 := 0;
                                App.equal_within_tol := 0; App.different := 0 |}).
Qed.

End SymmetryFacts.

(** X21.  Comparing two files the other way round gives the same rows,
    in the same order, with the two sides exchanged: the values, types
    and units change places, [only_in_1] and [only_in_2] change places
    in the statuses and in the counts, and the differences, the
    tolerance verdicts and the other statuses are the same. *)
Theorem compare_dicts_symmetric (lines1 lines2 : list string)
    (abs_tol rel_tol : float) :
  App.compare_dicts (App.parse_lines lines2) (App.parse_lines lines1) abs_tol rel_tol
  = swap_result
      <$> App.compare_dicts (App.parse_lines lines1) (App.parse_lines lines2)
            abs_tol rel_tol.
Proof.
  apply compare_dicts_swap; intros k a; apply parse_lines_finite.
Qed.

(** ** The CSV parser of app.py: names with parentheses *)

Section ParenFacts.

Lemma startswith_app_l (sub a b : string) :
  PyStr.startswith sub a = true -> PyStr.startswith sub (a ++ b) = true.
Proof.
  revert a. induction sub as [|x sub IH]; intros a; [by destruct (a ++ b)|].
  destruct a as [|y a]; [done|]. rewrite str_app_cons. cbn [PyStr.startswith].
  destruct (Ascii.eqb x y); [apply IH|done].
Qed.

Lemma contains_app_l (sub a b : string) :
  PyStr.contains sub a = true -> PyStr.contains sub (a ++ b) = true.
Proof.
  induction a as [|y a IH].
  - cbn [PyStr.contains]. rewrite orb_false_r. intros H.
    apply (startswith_app_l sub "" b) in H. rewrite str_app_nil_l in *.
    destruct b; cbn [PyStr.contains]; by rewrite H.
  - rewrite str_app_cons. cbn [PyStr.contains].
    intros [H|H]%orb_true_iff.
    + apply (startswith_app_l sub (String y a) b) in H.
      rewrite str_app_cons in H. by rewrite H.
    + rewrite (IH H). apply orb_true_r.
Qed.

Lemma find_char_app (c : ascii) (a b : string) :
  free_of c a -> PyStr.find_char c (a ++ String c b) = Some (String.length a).
Proof.
  unfold free_of. induction a as [|x a IH].
  - intros _. rewrite str_app_nil_l. cbn [PyStr.find_char]. by rewrite Ascii.eqb_refl.
  - cbn [all_chars]. unfold other_than at 1. intros [Hx Ha]%andb_true_iff.
    apply negb_true_iff in Hx. rewrite str_app_cons. cbn [PyStr.find_char].
    by rewrite Hx, (IH Ha).
Qed.

Lemma take_app_length (a b : string) (c : ascii) :
  PyStr.take (S (String.length a)) (a ++ String c b) = a ++ String c "".
Proof.
  induction a as [|x a IH].
  - rewrite !str_app_nil_l. cbn [String.length PyStr.take]. by destruct b.
  - rewrite !str_app_cons.
    change (PyStr.take (S (String.length (String x a))) (String x (a ++ String c b)))
      with (String x (PyStr.take (S (String.length a)) (a ++ String c b))).
    by rewrite IH.
Qed.

Lemma drop_app_length (a b : string) (c : ascii) :
  PyStr.drop (S (String.length a)) (a ++ String c b) = b.
Proof.
  induction a as [|x a IH].
  - rewrite !str_app_nil_l. cbn [String.length PyStr.drop]. by destruct b.
  - rewrite !str_app_cons.
    change (PyStr.drop (S (String.length (String x a))) (String x (a ++ String c b)))
      with (PyStr.drop (S (String.length a)) (a ++ String c b)).
    by rewrite IH.
Qed.

Lemma pad_cons (n : nat) (w : string) (ws : list string) :
  exists tail,
    Py.pad (S n) (w :: ws) = w :: tail /\ length tail = n.
Proof.
  unfold Py.pad. cbn [app take].
  eexists. split; [reflexivity|].
  rewrite length_take, length_app. cbn [replicate length].
  rewrite length_replicate. lia.
Qed.

End ParenFacts.

(** X22.  [parse_variables_csv] keeps a name with parentheses whole: on
    a stripped line that begins with a name ending at its first closing
    parenthesis, with an opening one before it, the name is everything
    up to that parenthesis, commas included, and the value is the field
    after the comma that follows. *)
Theorem paren_name_kept (i : nat) (pre val rest : string) :
  free_of ")" pre -> PyStr.contains "(" pre = true -> free_of "," val ->
  PyStr.strip (pre ++ ")" ++ "," ++ val ++ "," ++ rest)
  = pre ++ ")" ++ "," ++ val ++ "," ++ rest ->
  exists info,
    App.parse_line i (pre ++ ")" ++ "," ++ val ++ "," ++ rest)
    = Some (pre ++ ")", info)
    /\ App.value_str info = PyStr.strip val
    /\ App.value_num info = App.numeric_value (PyStr.strip val)
    /\ App.source_line info = i.
Proof.
  intros Hpre Hopen Hval Hstrip. unfold App.parse_line. rewrite Hstrip.
  change (pre ++ ")" ++ "," ++ val ++ "," ++ rest)
    with (pre ++ String ")" (String "," (val ++ "," ++ rest))).
  set (R := val ++ "," ++ rest).
  assert (Hne : Py.nonempty (pre ++ String ")" (String "," R)) = true)
    by (by destruct pre).
  rewrite Hne. cbn [negb]. unfold App.line_fields.
  rewrite (contains_app_l "(" pre _ Hopen).
  assert (Hclose : PyStr.contains ")" (pre ++ String ")" (String "," R)) = true).
  { apply (contains_app ")" pre (String "," R)). }
  rewrite Hclose. cbn [andb].
  rewrite (find_char_app ")" pre _ Hpre), take_app_length, drop_app_length.
  change (PyStr.startswith "," (String "," R)) with true. cbn iota.
  change (PyStr.drop 1 (String "," R)) with R.
  unfold R. rewrite !str_app_cons, !str_app_nil_l.
  rewrite (split_char_app "," val rest Hval). cbn [length Nat.leb].
  destruct (pad_cons 4 val (PyStr.split_char "," rest)) as (tail & -> & Hlen).
  destruct tail as [|lo [|up [|ty [|un [|? ?]]]]]; try discriminate Hlen.
  rewrite !fmap_cons, fmap_nil.
  assert (Hn : Py.nonempty (pre ++ String ")" "") = true) by (by destruct pre).
  rewrite Hn. cbn [negb]. eexists. split; [reflexivity|]. by cbn.
Qed.

Lemma paren_name_kept_witness :
  exists info,
    App.parse_line 7 ("a_abs_profile(1,4" ++ ")" ++ "," ++ " 0.5" ++ "," ++ "0,1,Notype,-")
    = Some ("a_abs_profile(1,4" ++ ")", info)
    /\ App.value_str info = PyStr.strip " 0.5"
    /\ App.value_num info = App.numeric_value (PyStr.strip " 0.5")
    /\ App.source_line info = 7%nat.
Proof.
  apply (paren_name_kept 7 "a_abs_profile(1,4" " 0.5" "0,1,Notype,-"); reflexivity.
Defined.

(** ** The comparator of app.py: a file against itself *)

Section SelfFacts.

Context (d : gmap string App.var_info) (abs_tol rel_tol : float).

Hypothesis finite_d : forall k a, d !! k = Some a -> finite_value a.
Hypothesis tolerance :
  Float.leb Float.zero abs_tol = true \/ Float.leb Float.zero rel_tol = true.

Lemma compare_key_self (k : string) (a : App.var_info) (c : App.counts) :
  d !! k = Some a ->
  exists r,
    App.compare_key d d abs_tol rel_tol k c = Some (r, App.count_status true c)
    /\ App.status r = "equal_within_tol" /\ App.in_tolerance r = "true"
    /\ App.value1 r = App.value2 r.
Proof.
  intros Ha. unfold App.compare_key. rewrite Ha.
  destruct (App.value_num a) as [n|] eqn:Hn.
  - pose proof (finite_d k a Ha n Hn) as Hf.
    rewrite truediv_tiny_defined. cbv zeta.
    rewrite (sub_diag n Hf).
    change (Float.abs Float.zero) with Float.zero.
    rewrite div_zero_pos
      by (apply max3_abs_tiny_pos; by apply finite_not_nan).
    assert (Ht : Float.leb Float.zero abs_tol || Float.leb Float.zero rel_tol = true)
      by (destruct tolerance as [-> | ->]; [reflexivity|apply orb_true_r]).
    rewrite Ht. by eexists.
  - unfold PyStr.eqb. rewrite String.eqb_refl. by eexists.
Qed.

Lemma compare_loop_self (keys : list string) (c : App.counts) :
  (forall k, k ∈ keys -> is_Some (d !! k)) ->
  exists diffs,
    App.compare_loop d d abs_tol rel_tol keys c
    = Some (diffs,
            {| App.only_in_1 := App.only_in_1 c; App.only_in_2 := App.only_in_2 c;
               App.equal_within_tol := (App.equal_within_tol c + length keys)%nat;
               App.different := App.different c |})
    /\ Forall (fun r => App.status r = "equal_within_tol"
                        /\ App.in_tolerance r = "true"
                        /\ App.value1 r = App.value2 r) diffs.
Proof.
  revert c. induction keys as [|k keys IH]; intros c Hin.
  - exists []. cbn [App.compare_loop length]. rewrite Nat.add_0_r.
    split; [by destruct c|constructor].
  - destruct (Hin k) as [a Ha]; [by left|].
    destruct (compare_key_self k a c Ha) as (r & Hr & Hs).
    destruct (IH (App.count_status true c)) as (diffs & Hl & Hall).
    { intros k' Hk'. apply Hin. by right. }
    exists (r :: diffs). cbn [App.compare_loop]. rewrite Hr, Hl.
    split; [|by constructor].
    cbn [App.count_status App.only_in_1 App.only_in_2 App.equal_within_tol
         App.different length].
    do 3 f_equal. lia.
Qed.

Lemma compare_dicts_self :
  exists diffs,
    App.compare_dicts d d abs_tol rel_tol
    = Some (diffs,
            {| App.only_in_1 := 0; App.only_in_2 := 0;
               App.equal_within_tol := size d; App.different := 0 |})
    /\ Forall (fun r => App.status r = "equal_within_tol"
                        /\ App.in_tolerance r = "true"
                        /\ App.value1 r = App.value2 r) diffs.
Proof.
  unfold App.compare_dicts.
  destruct (compare_loop_self (App.sorted_keys d d)
              {| App.only_in_1 := 0; App.only_in_2 := 0;
                 App.equal_within_tol := 0; App.different := 0 |})
    as (diffs & Hl & Hall).
  { intros k Hk. apply sorted_keys_elem in Hk.
    rewrite union_idemp_L in Hk. by apply elem_of_dom in Hk. }
  exists diffs. split; [|done]. rewrite Hl.
  cbn [App.only_in_1 App.only_in_2 App.equal_within_tol App.different].
  do 3 f_equal.
  rewrite (sorted_keys_perm d d), union_idemp_L.
  change (length (elements (dom d))) with (size (dom d)). by rewrite size_dom.
Qed.

End SelfFacts.

(** X23.  A parsed file compared with itself: every row has the status
    [equal_within_tol], is in tolerance and shows the same value on
    both sides, and the counts are zero but for [equal_within_tol],
    which is the number of variables of the file.  This holds for
    every pair of tolerances of which one is not negative. *)
Theorem same_file_all_equal (lines : list string) (abs_tol rel_tol : float) :
  Float.leb Float.zero abs_tol = true \/ Float.leb Float.zero rel_tol = true ->
  exists diffs,
    App.compare_dicts (App.parse_lines lines) (App.parse_lines lines) abs_tol rel_tol
    = Some (diffs,
            {| App.only_in_1 := 0; App.only_in_2 := 0;
               App.equal_within_tol := size (App.parse_lines lines);
               App.different := 0 |})
    /\ Forall (fun r => App.status r = "equal_within_tol"
                        /\ App.in_tolerance r = "true"
                        /\ App.value1 r = App.value2 r) diffs.
Proof.
  intros Htol. apply compare_dicts_self; [|done].
  intros k a. apply parse_lines_finite.
Qed.

Lemma same_file_all_equal_witness :
  exists diffs,
    App.compare_dicts (App.parse_lines left_lines) (App.parse_lines left_lines)
      App.default_abs_tol App.default_rel_tol
    = Some (diffs,
            {| App.only_in_1 := 0; App.only_in_2 := 0;
               App.equal_within_tol := size (App.parse_lines left_lines);
               App.different := 0 |})
    /\ Forall (fun r => App.status r = "equal_within_tol"
                        /\ App.in_tolerance r = "true"
                        /\ App.value1 r = App.value2 r) diffs.
Proof.
  apply (same_file_all_equal left_lines App.default_abs_tol App.default_rel_tol).
  left. reflexivity.
Defined.
